(** * toptube: the category and video proxy endpoints, and the duration label

    A shallow embedding of

    - [src/app/api/categories/route.ts], which holds two route handlers: the
      categories endpoint (lines 1-45) and the videos endpoint (lines 46-302);
    - [formatDuration] of the client component (lines 103-114 of the client
      file), and the state updates of that component: the relative time,
      the video list and its selection, the categories and the order of
      the options ([Client]).

    Conventions of the embedding.

    - An [await fetch(...)] is an event of the handler: the handler is a
      finite tree of upstream calls ([Prog]), run against an arbitrary
      upstream ([Upstream]); running it yields what the handler returns
      ([None] when it throws) and the list of calls it issued, in order.
      The upstream answers by the call alone; the videos handler never
      issues a call twice ([calls_are_distinct]), so nothing is lost.
      Every call is answered: a [fetch] that rejects is outside the
      model, and so is an [items] array holding something else than
      objects.
    - An upstream answer has a status (any integer), a body text and the
      outcome of [response.json()]: a rejection, [null] or an object.
    - JSON objects follow the TypeScript annotations of the source: an
      optional field is an [option], an [items] field that may fail
      [Array.isArray] is an [option (list _)].
    - The thumbnail mapping is a JavaScript object used as a map
      ([PlainObject]): its own properties are a [gmap], and reading a key
      it does not own gives the member of [Object.prototype] of that
      name, when there is one.
    - [NextResponse.json] throws for a status that a response with a body
      cannot have ([NextResponse.accepts]); the handler then throws.
    - [Number(s)] on an arbitrary string is a parameter of the model
      ([Number : string -> option Qc], [None] for NaN and the infinities):
      every finite double is a rational, and the sign of [b - a] computed on
      doubles is the sign of the exact difference.  On a run of decimal
      digits (the groups of the duration pattern) [Number] is computed
      exactly, which is what JavaScript does below 2^53.
    - [Array.prototype.sort] is stable and, for a consistent comparator,
      returns the sorted permutation; that result is unique and is computed
      here by stable insertion. *)

From Stdlib Require Import Ascii String DecimalString DecimalPos DecimalN.
From Stdlib Require Import QArith Qcanon Sorted.
From stdpp Require Import base numbers strings list gmap.

Open Scope string_scope.
Open Scope list_scope.
Open Scope Z_scope.

(** ** Strings as JavaScript sees them *)

(** [!value] for [value?: string]: undefined or the empty string. *)
Definition falsy (value : option string) : bool :=
  match value with
  | None => true
  | Some s => bool_decide (s = "")
  end.

(** [value ?? d] *)
Definition nullish {A : Type} (value : option A) (d : A) : A :=
  match value with
  | Some a => a
  | None => d
  end.

Infix "??" := nullish (at level 45, left associativity).

(** [String(n)] for a non-negative integer. *)
Definition String_of_N (n : N) : string :=
  NilZero.string_of_uint (N.to_uint n).

(** [s.padStart(2, "0")] *)
Definition padStart2 (s : string) : string :=
  match s with
  | "" => "00"
  | String c "" => String "0"%char (String c "")
  | _ => s
  end.

(** ** The duration pattern [/PT(?:(\d+)H)?(?:(\d+)M)?(?:(\d+)S)?/] *)

Module Duration.

Definition is_digit (c : ascii) : bool :=
  let n := N_of_ascii c in ((48 <=? n) && (n <=? 57))%N.

(** [\d+], greedy: the longest run of digits at the head, and what follows. *)
Fixpoint digits (s : string) : string * string :=
  match s with
  | String c rest =>
      if is_digit c
      then let '(ds, tl) := digits rest in (String c ds, tl)
      else ("", s)
  | "" => ("", "")
  end.

(** [(?:(\d+)U)?]: the group matches when a non-empty run of digits is
    directly followed by the unit letter; otherwise it is skipped and the
    position does not move.  Giving back digits cannot help, since the
    character after a shorter run is a digit and not the unit. *)
Definition group (unit : ascii) (s : string) : option string * string :=
  match digits s with
  | ("", _) => (None, s)
  | (ds, String c tl) =>
      if bool_decide (c = unit) then (Some ds, tl) else (None, s)
  | (_, "") => (None, s)
  end.

(** The captures [match[1]], [match[2]], [match[3]]. *)
Definition Captures : Type := option string * option string * option string.

Definition after_PT (s : string) : Captures :=
  let '(h, s1) := group "H"%char s in
  let '(m, s2) := group "M"%char s1 in
  let '(sec, _) := group "S"%char s2 in
  (h, m, sec).

(** [pattern.exec(s)]: the pattern is not anchored, so the match starts at
    the first occurrence of "PT"; every group being optional, it succeeds
    there.  [None] is JavaScript's [null]. *)
Fixpoint exec (s : string) : option Captures :=
  match s with
  | "" => None
  | String c rest =>
      match rest with
      | String c' rest' =>
          if bool_decide (c = "P"%char) && bool_decide (c' = "T"%char)
          then Some (after_PT rest')
          else exec rest
      | "" => None
      end
  end.

(** [Number(ds)] on a run of decimal digits. *)
Fixpoint Number_digits_from (acc : N) (ds : string) : N :=
  match ds with
  | "" => acc
  | String c rest =>
      Number_digits_from (10 * acc + (N_of_ascii c - 48))%N rest
  end.

Definition Number_digits (ds : string) : N := Number_digits_from 0%N ds.

(** [Number(match[i] ?? 0)] *)
Definition capture (m : option string) : N :=
  match m with
  | Some ds => Number_digits ds
  | None => 0%N
  end.

(** route.ts, lines 81-90. *)
Definition parseIsoDuration (duration : option string) : N :=
  if falsy duration then 0%N
  else
    match exec (duration ?? "") with
    | None => 0%N
    | Some (h, m, s) =>
        let hours := capture h in
        let minutes := capture m in
        let seconds := capture s in
        (hours * 3600 + minutes * 60 + seconds)%N
    end.

(** Client component, lines 103-114. *)
Definition formatDuration (isoDuration : option string) : string :=
  if falsy isoDuration then ""
  else
    match exec (isoDuration ?? "") with
    | None => ""
    | Some (h, m, s) =>
        let hours := capture h in
        let minutes := capture m in
        let seconds := capture s in
        if (0 <? hours)%N
        then String_of_N hours +:+ ":" +:+
             padStart2 (String_of_N minutes) +:+ ":" +:+
             padStart2 (String_of_N seconds)
        else String_of_N minutes +:+ ":" +:+ padStart2 (String_of_N seconds)
    end.

End Duration.

(** ** The upstream data API *)

(** [URLSearchParams]: the query of a call, in insertion order. *)
Definition URLSearchParams : Type := list (string * string).

Module Params.

(** [params.set(k, v)]: replaces the value of an existing key, appends
    otherwise. *)
Fixpoint set (k v : string) (ps : URLSearchParams) : URLSearchParams :=
  match ps with
  | [] => [(k, v)]
  | (k', v') :: rest =>
      if bool_decide (k' = k) then (k, v) :: rest
      else (k', v') :: set k v rest
  end.

(** [params.get(k)]: the first value of the key, or null. *)
Fixpoint get (k : string) (ps : URLSearchParams) : option string :=
  match ps with
  | [] => None
  | (k', v') :: rest => if bool_decide (k' = k) then Some v' else get k rest
  end.

End Params.

(** [ids.join(",")] *)
Definition join (sep : string) (l : list string) : string :=
  String.concat sep l.

(** The [VideoItem] type of route.ts (lines 51-71) and its parts. *)
Module Thumbnail.
Record t : Type := mk { url : string; width : option Z; height : option Z }.
End Thumbnail.

Module Thumbnails.
Record t : Type :=
  mk { medium : option Thumbnail.t; high : option Thumbnail.t }.
(** [{}] *)
Definition empty : t := mk None None.
End Thumbnails.

Module Snippet.
Record t : Type := mk {
  title : option string;
  channelTitle : option string;
  channelId : option string;
  publishedAt : option string;
  thumbnails : option Thumbnails.t
}.
End Snippet.

Module ContentDetails.
Record t : Type := mk { duration : option string }.
End ContentDetails.

Module Statistics.
Record t : Type := mk {
  viewCount : option string;
  likeCount : option string;
  commentCount : option string
}.
(** [{}] *)
Definition empty : t := mk None None None.
End Statistics.

Module VideoItem.
Record t : Type := mk {
  id : string;
  snippet : option Snippet.t;
  contentDetails : option ContentDetails.t;
  statistics : option Statistics.t
}.
End VideoItem.

(** An item of a search result: [{ id?: { videoId?: string } }]
    (lines 183, 196). *)
Module SearchItem.
Record ident : Type := mkIdent { videoId : option string }.
Record t : Type := mk { id : option ident }.
End SearchItem.

(** An item of a channel lookup (line 242). *)
Module Channel.
Record image : Type := mkImage { url : option string }.
Record thumbs : Type :=
  mkThumbs { default : option image; medium : option image }.
Record snip : Type := mkSnip { thumbnails : option thumbs }.
Record t : Type := mk { id : option string; snippet : option snip }.
End Channel.

(** An item of the category list (line 38). *)
Module CategoryItem.
Record snip : Type := mkSnip { title : option string }.
Record t : Type := mk { id : option string; snippet : option snip }.
End CategoryItem.

(** Every payload is an object with an [items] member; [None] is a member
    that is missing or not an array. *)
Module Listing.
Record t (X : Type) : Type := mk { items : option (list X) }.
Arguments mk {X} _.
Arguments items {X} _.
(** [Array.isArray(data.items) ? data.items : []] *)
Definition array {X : Type} (data : t X) : list X := items data ?? [].
End Listing.

Inductive Endpoint : Type := videos | search | channels | videoCategories.

Definition item_of (e : Endpoint) : Type :=
  match e with
  | videos => VideoItem.t
  | search => SearchItem.t
  | channels => Channel.t
  | videoCategories => CategoryItem.t
  end.

(** The payload of an endpoint. *)
Abbreviation payload e := (Listing.t (item_of e)) (only parsing).

(** What [await response.json()] gives: a rejection when the body is not
    JSON, the value [null], or an object of the expected shape. *)
Inductive Json (T : Type) : Type :=
| rejects
| null
| object (data : T).
Arguments rejects {T}.
Arguments null {T}.
Arguments object {T} _.

(** The upstream's answer to a [fetch]. *)
Module Response.
Record t (T : Type) : Type := mk { status : Z; text : string; json : Json T }.
Arguments mk {T} _ _ _.
Arguments status {T} _.
Arguments text {T} _.
Arguments json {T} _.
(** [response.ok]: a status in the range 200-299. *)
Definition ok {T : Type} (r : t T) : bool :=
  (200 <=? status r) && (status r <=? 299).
End Response.

(** ** Handlers as trees of upstream calls *)

Inductive Prog (A : Type) : Type :=
| Ret (a : A)
| Throw
| Fetch (e : Endpoint) (params : URLSearchParams)
        (k : Response.t (payload e) -> Prog A).
Arguments Ret {A} _.
Arguments Throw {A}.
Arguments Fetch {A} _ _ _.

Fixpoint bind {A B : Type} (m : Prog A) (f : A -> Prog B) : Prog B :=
  match m with
  | Ret a => f a
  | Throw => Throw
  | Fetch e params k => Fetch e params (fun r => bind (k r) f)
  end.

#[global] Instance Prog_ret : MRet Prog := fun A a => Ret a.
#[global] Instance Prog_bind : MBind Prog := fun A B f m => bind m f.

(** [await fetch(`https://www.googleapis.com/youtube/v3/<e>?<params>`)] *)
Definition fetch (e : Endpoint) (params : URLSearchParams)
  : Prog (Response.t (payload e)) :=
  Fetch e params Ret.

(** [await response.json()]; [None] is [null]. *)
Definition json {T : Type} (r : Response.t T) : Prog (option T) :=
  match Response.json r with
  | rejects => Throw
  | null => Ret None
  | object data => Ret (Some data)
  end.

(** [Array.isArray(data.items) ? data.items : []] on the result of
    [json]: reading a member of [null] is a TypeError. *)
Definition itemsArray {X : Type} (data : option (Listing.t X))
  : Prog (list X) :=
  match data with
  | None => Throw
  | Some d => Ret (Listing.array d)
  end.

(** One call issued to the upstream. *)
Definition Call : Type := Endpoint * URLSearchParams.

(** An upstream: an answer to every call. *)
Definition Upstream : Type :=
  forall e : Endpoint, URLSearchParams -> Response.t (payload e).

(** Running a handler: what it returns ([None] when it throws) and the
    calls it issued, oldest first. *)
Fixpoint run {A : Type} (up : Upstream) (m : Prog A) : option A * list Call :=
  match m with
  | Ret a => (Some a, [])
  | Throw => (None, [])
  | Fetch e params k =>
      let '(a, calls) := run up (k (up e params)) in
      (a, (e, params) :: calls)
  end.

(** ** What the two endpoints answer *)

Module CategoryOption.
Record t : Type := mk { value : string; label : string }.
End CategoryOption.

(** What reading a property of a plain object that holds strings can
    give: a string, or a member of [Object.prototype]: one of its
    functions, which [JSON.stringify] leaves out of the answer, or (under
    the name [__proto__]) [Object.prototype] itself, which it writes as
    [{}]. *)
Inductive Member : Type :=
| str (s : string)
| function
| objectPrototype.

(** A plain object ([{}]) used as a map from strings to strings
    (line 224), given by its own properties. *)
Module PlainObject.

(** The functions every plain object inherits from [Object.prototype]. *)
Definition methods : list string :=
  [ "constructor"; "hasOwnProperty"; "isPrototypeOf";
    "propertyIsEnumerable"; "toLocaleString"; "toString"; "valueOf";
    "__defineGetter__"; "__defineSetter__"; "__lookupGetter__";
    "__lookupSetter__" ].

(** [o[k] = v] for a string [v]: assigning a string to [__proto__] does
    nothing; any other key becomes an own property. *)
Definition set (k v : string) (o : gmap string string)
  : gmap string string :=
  if bool_decide (k = "__proto__") then o else <[k := v]> o.

(** [o[k]]; [None] is [undefined]. *)
Definition get (k : string) (o : gmap string string) : option Member :=
  match o !! k with
  | Some s => Some (str s)
  | None =>
      if bool_decide (k = "__proto__") then Some objectPrototype
      else if bool_decide (k ∈ methods) then Some function
      else None
  end.

End PlainObject.

(** An item of the videos endpoint's answer (lines 284-295). *)
Module ApiVideo.
Record t : Type := mk {
  id : string;
  title : string;
  channelTitle : string;
  channelThumbnail : Member;
  publishedAt : string;
  duration : string;
  thumbnails : Thumbnails.t;
  statistics : option Statistics.t
}.
End ApiVideo.

Inductive Body : Type :=
| ErrorBody (error : string) (details : option string)
| CategoriesBody (categories : list CategoryOption.t)
| VideosBody (items : list ApiVideo.t)
             (fetchedAt region category sort shorts : string).

Module NextResponse.
Record t : Type := mk { body : Body; status : Z }.

(** The statuses of a response that has no body. *)
Definition nullBody (status : Z) : bool :=
  (status =? 101) || (status =? 103) || (status =? 204) || (status =? 205)
  || (status =? 304).

(** The statuses a response with a body may have: the constructor throws
    a RangeError outside 200-599 and a TypeError for a status without
    body. *)
Definition accepts (status : Z) : bool :=
  (200 <=? status) && (status <=? 599) && negb (nullBody status).

(** [NextResponse.json(body, { status })]; the status defaults to 200. *)
Definition json (b : Body) (init : option Z) : Prog t :=
  let status := init ?? 200 in
  if accepts status then Ret (mk b status) else Throw.

End NextResponse.

(** The process environment and the clock. *)
Record Env : Type := mkEnv {
  YOUTUBE_API_KEY : option string;
  (** [new Date().toISOString()] *)
  now : string
}.

(** Lines 8-11 and 97-100. *)
Definition missingKey : Prog NextResponse.t :=
  NextResponse.json
    (ErrorBody "Missing YOUTUBE_API_KEY in environment." None) (Some 500).

(** Lines 28-31, 174-177, 206-209 and 213-216. *)
Definition apiError (details : string) (status : Z) : Prog NextResponse.t :=
  NextResponse.json (ErrorBody "YouTube API error" (Some details))
    (Some status).

(** ** The categories endpoint (route.ts, lines 5-45) *)

Module Categories.

Definition categoryParams (apiKey : string) : URLSearchParams :=
  [("part", "snippet"); ("regionCode", "KR"); ("hl", "ko"); ("key", apiKey)].

Definition toOption (item : CategoryItem.t) : CategoryOption.t :=
  CategoryOption.mk
    (CategoryItem.id item ?? "")
    ((CategoryItem.snippet item ≫= CategoryItem.title) ?? "").

Definition named (item : CategoryOption.t) : bool :=
  negb (bool_decide (CategoryOption.value item = "")) &&
  negb (bool_decide (CategoryOption.label item = "")).

Definition GET (env : Env) : Prog NextResponse.t :=
  if falsy (YOUTUBE_API_KEY env) then missingKey
  else
    let apiKey := YOUTUBE_API_KEY env ?? "" in
    response ← fetch videoCategories (categoryParams apiKey);
    if negb (Response.ok response)
    then apiError (Response.text response) (Response.status response)
    else
      data ← json response;
      items ← itemsArray data;
      let categories := List.filter named (List.map toOption items) in
      NextResponse.json (CategoriesBody categories) None.

End Categories.

(** ** The videos endpoint (route.ts, lines 46-302) *)

(** [Array.prototype.sort(cmp)]: [a] stays in front of [b] when
    [cmp a b <= 0]; elements that compare equal keep their order. *)
Section ArraySort.
Context {A : Type} (cmp : A -> A -> Qc).

Fixpoint place (x : A) (l : list A) : list A :=
  match l with
  | [] => [x]
  | y :: l' =>
      if bool_decide (cmp x y ≤ 0)%Qc then x :: y :: l'
      else y :: place x l'
  end.

Definition Array_sort (l : list A) : list A := foldr place [] l.
End ArraySort.

(** [Array.from(new Set(l))]: the first occurrence of each element, in
    order. *)
Fixpoint Set_from (seen l : list string) : list string :=
  match l with
  | [] => []
  | x :: l' =>
      if bool_decide (x ∈ seen) then Set_from seen l'
      else x :: Set_from (x :: seen) l'
  end.

(** [.filter(Boolean)] on one optional string: undefined and the empty
    string are dropped. *)
Definition truthy (value : option string) : option string :=
  if falsy value then None else value.

(** [a || b] on optional strings. *)
Definition or_else (a b : option string) : option string :=
  if falsy a then b else a.

Module Videos.

Definition MAX_RESULTS : N := 24.

Section WithNumber.
(** [Number(s)], with [None] for a result that fails [Number.isFinite]. *)
Variable Number : string -> option Qc.

(** Lines 75-79. *)
Definition toNumber (value : option string) : Qc :=
  if falsy value then 0%Qc
  else
    match Number (value ?? "") with
    | Some parsed => parsed
    | None => 0%Qc
    end.

(** Lines 109-122. *)
Definition listParams (apiKey region category : string) : URLSearchParams :=
  let params :=
    [("part", "snippet,statistics,contentDetails");
     ("chart", "mostPopular");
     ("maxResults", String_of_N MAX_RESULTS);
     ("key", apiKey)] in
  let params :=
    if bool_decide (region ≠ "WORLD")
    then Params.set "regionCode" region params else params in
  if bool_decide (category ≠ "all")
  then Params.set "videoCategoryId" category params else params.

(** Lines 131-136. *)
Definition idParams (apiKey : string) (ids : list string) : URLSearchParams :=
  [("part", "snippet,statistics,contentDetails");
   ("id", join "," ids);
   ("key", apiKey);
   ("maxResults", String_of_N MAX_RESULTS)].

(** Lines 129-144. *)
Definition fetchByIds (apiKey : string) (ids : list string)
  : Prog (list VideoItem.t) :=
  if bool_decide (ids = []) then Ret []
  else
    videosResponse ← fetch videos (idParams apiKey ids);
    if negb (Response.ok videosResponse) then Ret []
    else
      videosData ← json videosResponse;
      itemsArray videosData.

(** Lines 151-165. *)
Definition buildSearchParams (apiKey region category : string)
    (withRegion : bool) : URLSearchParams :=
  let sp :=
    [("part", "snippet");
     ("type", "video");
     ("order", "viewCount");
     ("videoCategoryId", category);
     ("maxResults", String_of_N MAX_RESULTS);
     ("key", apiKey);
     ("safeSearch", "none")] in
  if withRegion then Params.set "regionCode" region sp else sp.

(** Lines 181-185 and 194-198:
    [items.map((item) => item.id?.videoId).filter(Boolean)]. *)
Definition videoIds (items : list SearchItem.t) : list string :=
  omap (fun item => truthy (SearchItem.id item ≫= SearchItem.videoId)) items.

(** Lines 187-200: the second search, issued when the first gave no
    identifier; a failed second search leaves [ids] as it was. *)
Definition searchAgain (apiKey region category : string)
    (ids : list string) : Prog (list string) :=
  if bool_decide (ids = []) then
    searchResponse ←
      fetch search (buildSearchParams apiKey region category false);
    if Response.ok searchResponse then
      searchData ← json searchResponse;
      items ← itemsArray searchData;
      Ret (videoIds items)
    else Ret ids
  else Ret ids.

(** Lines 150-203: the branch taken on a 404 for a specific category.
    [inl] is an early [return] of the handler, [inr] the value of
    [data]. *)
Definition fallback (apiKey region category : string)
  : Prog (NextResponse.t + option (Listing.t VideoItem.t)) :=
  searchResponse ←
    fetch search (buildSearchParams apiKey region category true);
  if negb (Response.ok searchResponse) then
    early ← apiError (Response.text searchResponse)
                     (Response.status searchResponse);
    Ret (inl early)
  else
    searchData ← json searchResponse;
    items ← itemsArray searchData;
    ids ← searchAgain apiKey region category (videoIds items);
    items ← fetchByIds apiKey ids;
    Ret (inr (Some (Listing.mk (Some items)))).

(** Lines 124-210: the primary call and what follows from its status. *)
Definition retrieve (apiKey region category : string)
  : Prog (NextResponse.t + option (Listing.t VideoItem.t)) :=
  response ← fetch videos (listParams apiKey region category);
  if Response.ok response then
    data ← json response;
    Ret (inr data)
  else if bool_decide (Response.status response = 404)
          && bool_decide (category ≠ "all") then
    fallback apiKey region category
  else
    early ← apiError (Response.text response) (Response.status response);
    Ret (inl early).

(** Lines 220-222. *)
Definition channelIdsOf (items : list VideoItem.t) : list string :=
  Set_from []
    (omap (fun item => truthy (VideoItem.snippet item ≫= Snippet.channelId))
          items).

(** Lines 244-247. *)
Definition thumbOf (channel : Channel.t) : string :=
  let thumbnails : option Channel.thumbs :=
    Channel.snippet channel ≫= Channel.thumbnails in
  let medium : option string :=
    (thumbnails ≫= Channel.medium) ≫= Channel.url in
  let default : option string :=
    (thumbnails ≫= Channel.default) ≫= Channel.url in
  or_else (or_else medium default) (Some "") ?? "".

(** Lines 242-250: the reducer. *)
Definition addThumb (acc : gmap string string) (channel : Channel.t)
  : gmap string string :=
  if falsy (Channel.id channel) then acc
  else
    let thumb := thumbOf channel in
    if bool_decide (thumb = "") then acc
    else PlainObject.set (Channel.id channel ?? "") thumb acc.

Definition channelParams (apiKey : string) (channelIds : list string)
  : URLSearchParams :=
  [("part", "snippet");
   ("id", join "," channelIds);
   ("key", apiKey);
   ("maxResults", "50")].

(** Lines 224-254. *)
Definition lookupThumbnails (apiKey : string) (channelIds : list string)
  : Prog (gmap string string) :=
  if bool_decide (channelIds = []) then Ret ∅
  else
    channelResponse ← fetch channels (channelParams apiKey channelIds);
    if Response.ok channelResponse then
      channelData ← json channelResponse;
      channelItems ← itemsArray channelData;
      Ret (foldl addThumb ∅ channelItems)
    else Ret ∅.

(** Lines 260-270. *)
Definition getValue (sort : string) (stats : Statistics.t) : Qc :=
  if bool_decide (sort = "likes") then toNumber (Statistics.likeCount stats)
  else if bool_decide (sort = "comments")
       then toNumber (Statistics.commentCount stats)
       else toNumber (Statistics.viewCount stats).

(** The statistic of a record: [getValue(item.statistics ?? {})]. *)
Definition statistic (sort : string) (item : VideoItem.t) : Qc :=
  getValue sort (VideoItem.statistics item ?? Statistics.empty).

(** Lines 256-273: the comparator, [getValue(bStats) - getValue(aStats)]. *)
Definition compare (sort : string) (a b : VideoItem.t) : Qc :=
  (statistic sort b - statistic sort a)%Qc.

Definition rank (sort : string) (items : list VideoItem.t)
  : list VideoItem.t :=
  Array_sort (compare sort) items.

(** Lines 277-280: the test of the filter. *)
Definition longEnough (item : VideoItem.t) : bool :=
  let seconds :=
    Duration.parseIsoDuration
      (VideoItem.contentDetails item ≫= ContentDetails.duration) in
  (60 <=? seconds)%N.

(** Lines 275-281. *)
Definition selectShorts (shorts : string) (sorted : list VideoItem.t)
  : list VideoItem.t :=
  if bool_decide (shorts = "exclude") then List.filter longEnough sorted
  else sorted.

(** Lines 284-295. *)
Definition present (channelThumbnails : gmap string string)
    (item : VideoItem.t) : ApiVideo.t :=
  let snippet := VideoItem.snippet item in
  ApiVideo.mk
    (VideoItem.id item)
    ((snippet ≫= Snippet.title) ?? "")
    ((snippet ≫= Snippet.channelTitle) ?? "")
    (if falsy (snippet ≫= Snippet.channelId) then str ""
     else PlainObject.get ((snippet ≫= Snippet.channelId) ?? "")
            channelThumbnails ?? str "")
    ((snippet ≫= Snippet.publishedAt) ?? "")
    ((VideoItem.contentDetails item ≫= ContentDetails.duration) ?? "")
    ((snippet ≫= Snippet.thumbnails) ?? Thumbnails.empty)
    (VideoItem.statistics item).

(** Lines 212-301: from [data] to the answer. *)
Definition respond (env : Env) (apiKey region category sort shorts : string)
    (data : option (Listing.t VideoItem.t)) : Prog NextResponse.t :=
  match data with
  | None => apiError "Empty response" 500
  | Some data =>
      let items := Listing.array data in
      let channelIds := channelIdsOf items in
      channelThumbnails ← lookupThumbnails apiKey channelIds;
      let sorted := rank sort items in
      let filtered := selectShorts shorts sorted in
      NextResponse.json
        (VideosBody (List.map (present channelThumbnails) filtered)
                    (now env) region category sort shorts)
        None
  end.

(** Lines 94-302. *)
Definition GET (env : Env) (searchParams : URLSearchParams)
  : Prog NextResponse.t :=
  if falsy (YOUTUBE_API_KEY env) then missingKey
  else
    let apiKey := YOUTUBE_API_KEY env ?? "" in
    let region := Params.get "region" searchParams ?? "KR" in
    let category := Params.get "category" searchParams ?? "all" in
    let sort := Params.get "sort" searchParams ?? "views" in
    let shorts := Params.get "shorts" searchParams ?? "include" in
    data ← retrieve apiKey region category;
    match data with
    | inl early => Ret early
    | inr data => respond env apiKey region category sort shorts data
    end.

End WithNumber.

End Videos.

(** ** Observations on upstream answers *)

(** The array a handler reads out of an answer with
    [json] and then [itemsArray]; [None] when that throws. *)
Definition read {X : Type} (r : Response.t (Listing.t X)) : option (list X) :=
  match Response.json r with
  | object d => Some (Listing.array d)
  | _ => None
  end.

(** The identifiers a search answer yields (none when it cannot be read). *)
Definition idsOf (r : Response.t (payload search)) : list string :=
  Videos.videoIds (read r ?? []).

(** ** Sample upstreams *)

Module Sample.

(** A stand-in for [Number] on the strings the samples use: a non-empty
    run of decimal digits is its value, anything else is not a number. *)
Definition Number (s : string) : option Qc :=
  match Duration.digits s with
  | (String c ds, "") =>
      Some (Q2Qc (inject_Z (Z.of_N (Duration.Number_digits (String c ds)))))
  | _ => None
  end.

Definition env : Env :=
  mkEnv (Some "secret") "2024-05-01T00:00:00.000Z".

Definition unset : Env := mkEnv None "2024-05-01T00:00:00.000Z".

Definition answer {X : Type} (items : list X) : Response.t (Listing.t X) :=
  Response.mk 200 "{}" (object (Listing.mk (Some items))).

Definition failure {X : Type} (status : Z) (text : string)
  : Response.t (Listing.t X) :=
  Response.mk status text rejects.

(** What the upstream answers to each kind of call. *)
Record Script : Type := mkScript {
  popular : Response.t (payload videos);
  scoped : Response.t (payload search);
  unscoped : Response.t (payload search);
  byId : Response.t (payload videos);
  avatars : Response.t (payload channels);
  categoryList : Response.t (payload videoCategories)
}.

Definition play (s : Script) : Upstream :=
  fun e params =>
    match e return Response.t (payload e) with
    | videos =>
        match Params.get "chart" params with
        | Some _ => popular s
        | None => byId s
        end
    | search =>
        match Params.get "regionCode" params with
        | Some _ => scoped s
        | None => unscoped s
        end
    | channels => avatars s
    | videoCategories => categoryList s
    end.

Definition video (id channel duration views likes : string) : VideoItem.t :=
  VideoItem.mk id
    (Some (Snippet.mk (Some ("title " +:+ id)) (Some ("by " +:+ channel))
                      (Some channel) (Some "2024-04-30T10:00:00Z") None))
    (Some (ContentDetails.mk (Some duration)))
    (Some (Statistics.mk (Some views) (Some likes) None)).

Definition found (id : string) : SearchItem.t :=
  SearchItem.mk (Some (SearchItem.mkIdent (Some id))).

Definition avatar (id : string) (default medium : option string) : Channel.t :=
  Channel.mk (Some id)
    (Some (Channel.mkSnip
       (Some (Channel.mkThumbs (Some (Channel.mkImage default))
                               (Some (Channel.mkImage medium)))))).

Definition three : list VideoItem.t :=
  [ video "a" "UC1" "PT45S" "500" "7";
    video "b" "UC2" "PT1H2M3S" "900" "7";
    video "c" "UC1" "PT5M9S" "500" "9" ].

Definition notFound {X : Type} : Response.t (Listing.t X) :=
  failure 404 "{ error: videoChartNotFound }".

Definition twoAvatars : Response.t (payload channels) :=
  answer [ avatar "UC1" (Some "d1") (Some "m1");
           avatar "UC2" (Some "d2") None ].

Definition someCategories : Response.t (payload videoCategories) :=
  answer [ CategoryItem.mk (Some "10")
             (Some (CategoryItem.mkSnip (Some "Music")));
           CategoryItem.mk (Some "25") None ].

(** The listing succeeds. *)
Definition listed : Script :=
  mkScript (answer three) notFound notFound notFound twoAvatars someCategories.

(** The listing succeeds, the channel lookup does not. *)
Definition noAvatars : Script :=
  mkScript (answer three) notFound notFound notFound
           (failure 403 "quotaExceeded") someCategories.

(** The listing is not found; the scoped search finds nothing, the
    unscoped one finds three identifiers, which are hydrated. *)
Definition broadened : Script :=
  mkScript notFound (answer []) (answer [found "a"; found "b"; found "c"])
           (answer three) twoAvatars someCategories.

(** The listing is not found and the scoped search is refused. *)
Definition refused : Script :=
  mkScript notFound (failure 403 "quotaExceeded") (answer [])
           (answer three) twoAvatars someCategories.

(** The listing is not found and neither search finds anything. *)
Definition nothing : Script :=
  mkScript notFound (answer []) (answer []) (answer three) twoAvatars
           someCategories.

(** The listing is not found, the scoped search finds nothing and the
    unscoped one fails. *)
Definition unscopedFails : Script :=
  mkScript notFound (answer []) (failure 500 "backendError") (answer three)
           twoAvatars someCategories.

(** The listing is not found, the scoped search finds two identifiers
    and their hydration fails. *)
Definition hydrationFails : Script :=
  mkScript notFound (answer [found "a"; found "b"]) (answer [])
           (failure 500 "backendError") twoAvatars someCategories.

(** The listing is not found and the scoped search answers with 25
    identifiers, one more than the page size asked for. *)
Definition crowded : Script :=
  mkScript notFound
           (answer (found <$> (String_of_N <$> (N.of_nat <$> seq 1 25))))
           (answer []) (answer []) twoAvatars someCategories.

(** The listing fails with a server error. *)
Definition down : Script :=
  mkScript (failure 503 "backendError") (answer []) (answer [])
           (answer three) twoAvatars someCategories.

(** The listing is answered "not modified", a status without body. *)
Definition notModified : Script :=
  mkScript (failure 304 "") (answer []) (answer []) (answer three)
           twoAvatars someCategories.

(** The listing holds a record of a channel named [__proto__], and the
    channel lookup fails. *)
Definition prototypeChannel : Script :=
  mkScript (answer [video "p" "__proto__" "PT2M" "10" "1"]) notFound notFound
           notFound (failure 403 "quotaExceeded") someCategories.

Definition query (category sort shorts : string) : URLSearchParams :=
  [("category", category); ("region", "KR"); ("sort", sort);
   ("shorts", shorts)].

End Sample.

(** ** Vocabulary of the properties *)

(** The two error answers, as values. *)
Definition keyMissing : NextResponse.t :=
  NextResponse.mk
    (ErrorBody "Missing YOUTUBE_API_KEY in environment." None) 500.

Definition relayed (details : string) (status : Z) : NextResponse.t :=
  NextResponse.mk (ErrorBody "YouTube API error" (Some details)) status.

(** The video identifiers of the items of a search answer, in the spec's
    words: those of the items that have one, in the order of the items. *)
Definition identifiersOf (items : list SearchItem.t) : list string :=
  List.filter (fun id => negb (bool_decide (id = "")))
    (List.map
       (fun item => (SearchItem.id item ≫= SearchItem.videoId) ?? "")
       items).

(** What relaying an upstream status comes to: the answer, or nothing when
    the handler throws. *)
Definition relay (details : string) (status : Z) : option NextResponse.t :=
  if NextResponse.accepts status then Some (relayed details status)
  else None.

(** The answer built from a working set and a thumbnail mapping
    (lines 283-301). *)
Definition answerOf (Number : string -> option Qc) (region category : string)
    (env : Env) (sort shorts : string)
    (items : list VideoItem.t) (thumbs : gmap string string)
  : NextResponse.t :=
  NextResponse.mk
    (VideosBody
       (List.map (Videos.present thumbs)
          (Videos.selectShorts shorts (Videos.rank Number sort items)))
       (now env) region category sort shorts)
    200.

(** The comparator of the handler, for an arbitrary statistic. *)
Definition byKey {A : Type} (key : A -> Qc) (a b : A) : Qc :=
  (key b - key a)%Qc.

(** Non-increasing in the statistic. *)
Definition descending {A : Type} (key : A -> Qc) (a b : A) : Prop :=
  (key b ≤ key a)%Qc.

(** The records whose statistic is [v]. *)
Definition keyIs {A : Type} (key : A -> Qc) (v : Qc) (a : A) : bool :=
  bool_decide (key a = v).

(** The statistic of a returned record, read from its [statistics]
    member. *)
Definition returnedStatistic (Number : string -> option Qc) (sort : string)
    (v : ApiVideo.t) : Qc :=
  Videos.getValue Number sort (ApiVideo.statistics v ?? Statistics.empty).

(** [channel.snippet?.thumbnails?.medium?.url] and
    [channel.snippet?.thumbnails?.default?.url] (lines 245-246). *)
Definition mediumUrl (channel : Channel.t) : option string :=
  ((Channel.snippet channel ≫= Channel.thumbnails) ≫= Channel.medium)
    ≫= Channel.url.

Definition defaultUrl (channel : Channel.t) : option string :=
  ((Channel.snippet channel ≫= Channel.thumbnails) ≫= Channel.default)
    ≫= Channel.url.

(** What one channel of the lookup contributes under the key [c]. *)
Definition hit (c : string) (channel : Channel.t) : option string :=
  if bool_decide (Channel.id channel = Some c /\ c ≠ "" /\ c ≠ "__proto__"
                  /\ Videos.thumbOf channel ≠ "")
  then Some (Videos.thumbOf channel) else None.

(** A duration as the spec describes it: "PT", then the hour, minute and
    second components, each one optional. *)
Definition component (value : option N) (unit : ascii) (rest : string)
  : string :=
  match value with
  | Some n => String_of_N n +:+ String unit rest
  | None => rest
  end.

Definition encode (h m s : option N) : string :=
  "PT" +:+ component h "H" (component m "M" (component s "S" "")).

(** The inputs the pattern of the source matches as a whole: the same
    pattern, anchored at both ends. *)
Definition wellFormed (s : string) : bool :=
  match s with
  | String "P" (String "T" rest) =>
      let '(_, s1) := Duration.group "H" rest in
      let '(_, s2) := Duration.group "M" s1 in
      let '(_, s3) := Duration.group "S" s2 in
      bool_decide (s3 = "")
  | _ => false
  end.

(** C5 as the spec states its last part: every malformed input yields
    zero seconds and an empty display string. *)
Definition malformed_yields_nothing : Prop :=
  forall s : string,
    wellFormed s = false ->
    Duration.parseIsoDuration (Some s) = 0%N
    /\ Duration.formatDuration (Some s) = "".

(** Stands for: [rest] does not start with a digit. *)
Definition stops (rest : string) : Prop :=
  match rest with
  | String c _ => Duration.is_digit c = false
  | "" => True
  end.

(** C1 as the spec states it, for one request: on a 404 of the primary
    call for a specific category the handler issues the scoped search, the
    unscoped one when the first yields no identifier, and then a
    videos-by-id call for the collected identifiers, at most 24 of them,
    whose records are the working set of the answer. *)
Definition fallback_as_stated (Number : string -> option Qc) (up : Upstream)
    (env : Env) (searchParams : URLSearchParams) : Prop :=
  let apiKey := YOUTUBE_API_KEY env ?? "" in
  let region := Params.get "region" searchParams ?? "KR" in
  let category := Params.get "category" searchParams ?? "all" in
  let sort := Params.get "sort" searchParams ?? "views" in
  let shorts := Params.get "shorts" searchParams ?? "include" in
  let scopedParams := Videos.buildSearchParams apiKey region category true in
  let unscopedParams := Videos.buildSearchParams apiKey region category false in
  let retried := bool_decide (idsOf (up search scopedParams) = []) in
  let ids :=
    if retried then idsOf (up search unscopedParams)
    else idsOf (up search scopedParams) in
  let hydration := up videos (Videos.idParams apiKey ids) in
  falsy (YOUTUBE_API_KEY env) = false ->
  Response.status (up videos (Videos.listParams apiKey region category))
    = 404 ->
  category ≠ "all" ->
  (length ids <= 24)%nat
  /\ run up (Videos.GET Number env searchParams) =
     (let '(r, more) :=
        run up (Videos.respond Number env apiKey region category sort shorts
                  (Some (Listing.mk (Some (read hydration ?? []))))) in
      (r, [(videos, Videos.listParams apiKey region category);
           (search, scopedParams)]
          ++ (if retried then [(search, unscopedParams)] else [])
          ++ [(videos, Videos.idParams apiKey ids)]
          ++ more)).

(** ** Vocabulary of the further properties *)

(** A status outside the range 200-299, as [response.ok] tests it. *)
Definition failing (status : Z) : Prop :=
  (200 <=? status) && (status <=? 299) = false.

(** The call was answered with a success status and a body the handler
    cannot read as an object. *)
Definition unreadable (up : Upstream) (c : Call) : Prop :=
  Response.ok (up c.1 c.2) = true /\ read (up c.1 c.2) = None.

(** The two kinds of answer of the videos endpoint. *)
Definition videosAnswer (r : NextResponse.t) : Prop :=
  (exists (returned : list ApiVideo.t)
          (fetchedAt region category sort shorts : string),
      r = NextResponse.mk
            (VideosBody returned fetchedAt region category sort shorts) 200)
  \/ (exists (error : string) (details : option string) (status : Z),
        r = NextResponse.mk (ErrorBody error details) status
        /\ failing status).

(** ** The client component (the client file, lines 26-264 and 376-401)

    The component keeps its state in React hooks.  Each state update of
    the source is a function here: from the answer of one of the two
    endpoints (a [NextResponse.t], whose body the client reads back as
    JSON) and the state before, to the state after.  What the browser
    does when the handler threw, and the text [Intl] produces, are outside
    the model. *)

Module Client.

(** Lines 26, 29-33 and 35. *)
Definition defaultCategories : list CategoryOption.t :=
  [CategoryOption.mk "all" "전체"].

Definition criteria : list CategoryOption.t :=
  [ CategoryOption.mk "views" "조회수 순위";
    CategoryOption.mk "likes" "좋아요 순위";
    CategoryOption.mk "comments" "댓글 순위" ].

Definition REGION_KR : string := "KR".

(** [response.ok] on the answer of an endpoint. *)
Definition ok (response : NextResponse.t) : bool :=
  (200 <=? NextResponse.status response)
  && (NextResponse.status response <=? 299).

(** Lines 74-101, [formatRelativeTime]: the units and the loop that picks
    one.  [None] is [Number.POSITIVE_INFINITY]. *)
Inductive TimeUnit : Type := second | minute | hour | day | month | year.

Definition ranges : list (option Z * TimeUnit) :=
  [ (Some 60, second); (Some 60, minute); (Some 24, hour); (Some 30, day);
    (Some 12, month); (None, year) ].

(** Lines 89-97: [value < limit] ends the loop with that unit; otherwise
    [value = Math.floor(value / limit)] and the loop goes on. *)
Fixpoint pick (ranges : list (option Z * TimeUnit)) (value : Z)
    (unit : TimeUnit) : Z * TimeUnit :=
  match ranges with
  | [] => (value, unit)
  | (None, nextUnit) :: _ => (value, nextUnit)
  | (Some limit, nextUnit) :: rest =>
      if value <? limit then (value, nextUnit)
      else pick rest (value / limit) unit
  end.

(** What [formatRelativeTime] hands to [rtf.format], from the whole
    seconds elapsed since the date (line 100). *)
Definition relativeTime (seconds : Z) : Z * TimeUnit :=
  let '(value, unit) := pick ranges seconds second in
  (- value, unit).

(** Lines 141-146: the query of a request to the videos endpoint. *)
Definition videosQuery (category region criterion shorts : string)
  : URLSearchParams :=
  [("category", category); ("region", region); ("sort", criterion);
   ("shorts", shorts)].

(** Lines 165-170: the selected video after new items came in. *)
Definition reselect (current : option ApiVideo.t)
    (nextItems : list ApiVideo.t) : option ApiVideo.t :=
  match nextItems with
  | [] => None
  | first :: _ =>
      match current with
      | None => Some first
      | Some selected =>
          if existsb
               (fun item =>
                  bool_decide (ApiVideo.id item = ApiVideo.id selected))
               nextItems
          then Some selected else Some first
      end
  end.

(** Lines 151-159: [data.details || data.error || message], on the JSON of
    an answer that is not ok. *)
Definition errorMessage (response : NextResponse.t) : string :=
  match NextResponse.body response with
  | ErrorBody error details =>
      or_else (or_else details (Some error)) (Some "요청 실패") ?? "요청 실패"
  | _ => "요청 실패"
  end.

(** [data.items ?? []] (line 163). *)
Definition itemsOf (response : NextResponse.t) : list ApiVideo.t :=
  match NextResponse.body response with
  | VideosBody items _ _ _ _ _ => items
  | _ => []
  end.

(** The part of the state [fetchVideos] writes. *)
Record View : Type := mkView {
  videos : list ApiVideo.t;
  selectedVideo : option ApiVideo.t;
  loading : bool;
  error : option string
}.

(** Lines 137-176, [fetchVideos], once the endpoint has answered. *)
Definition fetchVideos (response : NextResponse.t) (s : View) : View :=
  if negb (ok response) then
    mkView (videos s) (selectedVideo s) false (Some (errorMessage response))
  else
    let nextItems := itemsOf response in
    mkView nextItems (reselect (selectedVideo s) nextItems) false None.

(** Lines 215-220 and 241-247: the stored order restricted to the
    candidates, followed by the candidates it does not hold. *)
Definition withMissing (candidates current : list string) : list string :=
  let sanitized :=
    List.filter (fun item => bool_decide (item ∈ candidates)) current in
  sanitized
  ++ List.filter (fun item => negb (bool_decide (item ∈ sanitized)))
       candidates.

(** Lines 214-222: the category order once the categories are known. *)
Definition mergeOrder (next : list CategoryOption.t) (current : list string)
  : list string :=
  let values := List.map CategoryOption.value next in
  match withMissing values current with
  | [] => values
  | merged => merged
  end.

(** The part of the state [loadCategories] writes. *)
Record Selector : Type := mkSelector {
  categories : list CategoryOption.t;
  category : string;
  categoryOrder : list string
}.

(** [Array.isArray(data.categories) ? data.categories : []] (line 208). *)
Definition categoriesOf (response : NextResponse.t)
  : list CategoryOption.t :=
  match NextResponse.body response with
  | CategoriesBody categories => categories
  | _ => []
  end.

(** Lines 203-226, [loadCategories], once the endpoint has answered. *)
Definition loadCategories (response : NextResponse.t) (s : Selector)
  : Selector :=
  if negb (ok response) then s
  else
    let fetched := categoriesOf response in
    let next := CategoryOption.mk "all" "전체" :: fetched in
    mkSelector
      next
      (if existsb
            (fun item => bool_decide (CategoryOption.value item = category s))
            next
       then category s else "all")
      (mergeOrder next (categoryOrder s)).

(** Lines 240-248: the criterion order read back from storage, [parsed]
    being the stored array; [None] leaves the order as it is. *)
Definition restoreCriterionOrder (parsed : list string)
  : option (list string) :=
  let allowed := Set_from [] (List.map CategoryOption.value criteria) in
  match withMissing allowed parsed with
  | [] => None
  | merged => Some merged
  end.

(** Lines 259-264: the options in the chosen order. *)
Definition ordered (order : list string) (options : list CategoryOption.t)
  : list CategoryOption.t :=
  omap
    (fun value =>
       List.find
         (fun item => bool_decide (CategoryOption.value item = value))
         options)
    order.

(** [[next[i], next[j]] = [next[j], next[i]]] on a copy of the order.
    [None]: an index is out of range, where JavaScript would store
    [undefined] and the order would no longer be a list of strings. *)
Definition swap (i j : nat) (order : list string) : option (list string) :=
  match order !! i, order !! j with
  | Some a, Some b => Some (<[j:=a]> (<[i:=b]> order))
  | _, _ => None
  end.

(** Lines 376-384 (and 452-460): the "up" button of the option displayed
    at [optionIndex]. *)
Definition moveUp (order : list string) (optionIndex : nat)
  : option (list string) :=
  if bool_decide (optionIndex = 0%nat) then Some order
  else swap (optionIndex - 1) optionIndex order.

(** Lines 393-401 (and 469-477): the "down" button; [shown] is the number
    of options displayed. *)
Definition moveDown (order : list string) (shown optionIndex : nat)
  : option (list string) :=
  if bool_decide (Z.of_nat optionIndex = Z.of_nat shown - 1) then Some order
  else swap optionIndex (optionIndex + 1) order.

End Client.

(** [!s.includes(c)] for one character. *)
Fixpoint free_of (c : ascii) (s : string) : bool :=
  match s with
  | "" => true
  | String c' rest => negb (bool_decide (c' = c)) && free_of c rest
  end.

(** An ISO 8601 duration with a day component: "P", the days, "DT", then
    the hour, minute and second components. *)
Definition encodeDays (d : N) (h m s : option N) : string :=
  "P" +:+ String_of_N d +:+ "DT"
  +:+ component h "H" (component m "M" (component s "S" "")).

(** The length of a unit in seconds, as the loop of [formatRelativeTime]
    counts it (a month is 30 days, a year 12 such months), and the number
    of units that make the next one. *)
Definition unitSeconds (unit : Client.TimeUnit) : Z :=
  match unit with
  | Client.second => 1
  | Client.minute => 60
  | Client.hour => 3600
  | Client.day => 86400
  | Client.month => 2592000
  | Client.year => 31104000
  end.

Definition unitLimit (unit : Client.TimeUnit) : option Z :=
  match unit with
  | Client.second => Some 60
  | Client.minute => Some 60
  | Client.hour => Some 24
  | Client.day => Some 30
  | Client.month => Some 12
  | Client.year => None
  end.

(** * Properties *)

(** ** Running handlers *)

Lemma run_bind {A B : Type} (up : Upstream) (m : Prog A) (f : A -> Prog B) :
  run up (m ≫= f) =
  match run up m with
  | (Some a, calls) => let '(b, more) := run up (f a) in (b, calls ++ more)
  | (None, calls) => (None, calls)
  end.
Proof.
  unfold mbind, Prog_bind.
  induction m as [a | | e params k IH]; simpl.
  - destruct (run up (f a)); reflexivity.
  - reflexivity.
  - rewrite IH. destruct (run up (k (up e params))) as [[a|] calls].
    + destruct (run up (f a)); reflexivity.
    + reflexivity.
Qed.

Lemma run_fetch (up : Upstream) (e : Endpoint) (params : URLSearchParams) :
  run up (fetch e params) = (Some (up e params), [(e, params)]).
Proof. reflexivity. Qed.

Lemma run_fetch_bind {B : Type} (up : Upstream) (e : Endpoint)
    (params : URLSearchParams) (f : Response.t (payload e) -> Prog B) :
  run up (fetch e params ≫= f) =
  let '(b, more) := run up (f (up e params)) in (b, (e, params) :: more).
Proof. rewrite run_bind, run_fetch. reflexivity. Qed.

Lemma run_json (up : Upstream) (b : Body) (status : Z) :
  run up (NextResponse.json b (Some status)) =
  (if NextResponse.accepts status then Some (NextResponse.mk b status)
   else None, []).
Proof.
  unfold NextResponse.json. cbn [nullish].
  destruct (NextResponse.accepts status); reflexivity.
Qed.

Lemma run_apiError (up : Upstream) (details : string) (status : Z) :
  run up (apiError details status) = (relay details status, []).
Proof.
  unfold apiError, relay. rewrite run_json.
  destruct (NextResponse.accepts status); reflexivity.
Qed.

Lemma run_read {X : Type} (up : Upstream) (r : Response.t (Listing.t X)) :
  run up (json r ≫= itemsArray) = (read r, []).
Proof.
  unfold json, read, mbind, Prog_bind.
  destruct (Response.json r); reflexivity.
Qed.

Lemma run_read_bind {X B : Type} (up : Upstream)
    (r : Response.t (Listing.t X)) (f : list X -> Prog B) :
  run up (data ← json r; items ← itemsArray data; f items) =
  match read r with
  | Some items => run up (f items)
  | None => (None, [])
  end.
Proof.
  unfold json, read, mbind, Prog_bind.
  destruct (Response.json r); simpl; try reflexivity.
Qed.

(** ** The parts of the videos handler, run *)

Section Parts.
Variable Number : string -> option Qc.
Variable up : Upstream.
Variables apiKey region category : string.

Lemma fetchByIds_run (ids : list string) :
  run up (Videos.fetchByIds apiKey ids) =
  if bool_decide (ids = []) then (Some [], [])
  else
    let r := up videos (Videos.idParams apiKey ids) in
    (if Response.ok r then read r else Some [],
     [(videos, Videos.idParams apiKey ids)]).
Proof.
  unfold Videos.fetchByIds. case_bool_decide; [reflexivity|].
  rewrite (run_fetch_bind up videos).
  destruct (Response.ok _); simpl; [|reflexivity].
  rewrite run_read. reflexivity.
Qed.

Lemma searchAgain_run (ids : list string) :
  run up (Videos.searchAgain apiKey region category ids) =
  if bool_decide (ids = []) then
    let r :=
      up search (Videos.buildSearchParams apiKey region category false) in
    (if Response.ok r then Videos.videoIds <$> read r else Some ids,
     [(search, Videos.buildSearchParams apiKey region category false)])
  else (Some ids, []).
Proof.
  unfold Videos.searchAgain. case_bool_decide; [|reflexivity].
  rewrite (run_fetch_bind up search).
  destruct (Response.ok _); simpl; [|reflexivity].
  rewrite run_read_bind. destruct (read _); reflexivity.
Qed.

Lemma lookupThumbnails_run (channelIds : list string) :
  run up (Videos.lookupThumbnails apiKey channelIds) =
  if bool_decide (channelIds = []) then (Some ∅, [])
  else
    let r := up channels (Videos.channelParams apiKey channelIds) in
    (if Response.ok r then foldl Videos.addThumb ∅ <$> read r else Some ∅,
     [(channels, Videos.channelParams apiKey channelIds)]).
Proof.
  unfold Videos.lookupThumbnails. case_bool_decide; [reflexivity|].
  rewrite (run_fetch_bind up channels).
  destruct (Response.ok _); simpl; [|reflexivity].
  rewrite run_read_bind. destruct (read _); reflexivity.
Qed.

Lemma respond_run (env : Env) (sort shorts : string)
    (data : Listing.t VideoItem.t) :
  run up (Videos.respond Number env apiKey region category sort shorts
            (Some data)) =
  let '(thumbs, calls) :=
    run up (Videos.lookupThumbnails apiKey
              (Videos.channelIdsOf (Listing.array data))) in
  (answerOf Number region category env sort shorts (Listing.array data)
     <$> thumbs, calls).
Proof.
  unfold Videos.respond. rewrite run_bind.
  destruct (run up (Videos.lookupThumbnails _ _)) as [[thumbs|] calls];
    simpl; [|reflexivity].
  rewrite app_nil_r. reflexivity.
Qed.

(** Once [data] is there, only the channel lookup is called. *)
Lemma respond_calls (env : Env) (sort shorts : string)
    (data : option (Listing.t VideoItem.t)) (c : Call) :
  c ∈ (run up (Videos.respond Number env apiKey region category sort shorts
                 data)).2 ->
  c.1 = channels.
Proof.
  destruct data as [data|]; [|simpl; intros Hc; inversion Hc].
  rewrite respond_run, lookupThumbnails_run.
  case_bool_decide; simpl.
  - intros Hc; inversion Hc.
  - intros Hc. apply list_elem_of_singleton in Hc. subst c. reflexivity.
Qed.

Lemma fallback_run :
  run up (Videos.fallback apiKey region category) =
  let first := (search, Videos.buildSearchParams apiKey region category true) in
  let r := up search (Videos.buildSearchParams apiKey region category true) in
  if Response.ok r then
    match read r with
    | None => (None, [first])
    | Some items =>
        match run up (Videos.searchAgain apiKey region category
                        (Videos.videoIds items)) with
        | (Some ids, again) =>
            let '(records, hydration) :=
              run up (Videos.fetchByIds apiKey ids) in
            ((fun items => inr (Some (Listing.mk (Some items)))) <$> records,
             first :: again ++ hydration)
        | (None, again) => (None, first :: again)
        end
    end
  else
    (inl <$> relay (Response.text r) (Response.status r), [first]).
Proof.
  unfold Videos.fallback. rewrite (run_fetch_bind up search).
  destruct (Response.ok _); simpl.
  2:{ rewrite run_bind, run_apiError. destruct (relay _ _); reflexivity. }
  rewrite run_read_bind. destruct (read _) as [items|]; [|reflexivity].
  rewrite run_bind.
  destruct (run up (Videos.searchAgain _ _ _ _)) as [[ids|] again];
    [|reflexivity].
  rewrite run_bind.
  destruct (run up (Videos.fetchByIds _ _)) as [[records|] hydration];
    simpl; [|reflexivity].
  rewrite app_nil_r. reflexivity.
Qed.

Lemma retrieve_run :
  run up (Videos.retrieve apiKey region category) =
  let primary := (videos, Videos.listParams apiKey region category) in
  let response := up videos (Videos.listParams apiKey region category) in
  if Response.ok response then
    (match Response.json response with
     | rejects => None
     | null => Some (inr None)
     | object data => Some (inr (Some data))
     end, [primary])
  else if bool_decide (Response.status response = 404)
          && bool_decide (category ≠ "all") then
    let '(data, calls) := run up (Videos.fallback apiKey region category) in
    (data, primary :: calls)
  else
    (inl <$> relay (Response.text response) (Response.status response),
     [primary]).
Proof.
  unfold Videos.retrieve. rewrite (run_fetch_bind up videos).
  destruct (Response.ok _); simpl.
  - unfold json, mbind, Prog_bind.
    destruct (Response.json _); reflexivity.
  - destruct (_ && _); [reflexivity|].
    rewrite run_bind, run_apiError. destruct (relay _ _); reflexivity.
Qed.

Lemma GET_run (env : Env) (searchParams : URLSearchParams) :
  YOUTUBE_API_KEY env = Some apiKey -> apiKey ≠ "" ->
  Params.get "region" searchParams ?? "KR" = region ->
  Params.get "category" searchParams ?? "all" = category ->
  run up (Videos.GET Number env searchParams) =
  match run up (Videos.retrieve apiKey region category) with
  | (Some (inl early), calls) => (Some early, calls)
  | (Some (inr data), calls) =>
      let '(r, more) :=
        run up (Videos.respond Number env apiKey region category
                  (Params.get "sort" searchParams ?? "views")
                  (Params.get "shorts" searchParams ?? "include") data) in
      (r, calls ++ more)
  | (None, calls) => (None, calls)
  end.
Proof.
  intros Hkey Hne Hregion Hcategory. unfold Videos.GET.
  rewrite Hkey. unfold falsy.
  rewrite bool_decide_eq_false_2 by exact Hne.
  change (Some apiKey ?? "") with apiKey.
  rewrite Hregion, Hcategory, run_bind.
  destruct (run up (Videos.retrieve _ _ _)) as [[[early|data]|] calls];
    simpl; try reflexivity.
  rewrite app_nil_r. reflexivity.
Qed.

End Parts.

Lemma falsy_false (value : option string) :
  falsy value = false -> exists s, value = Some s /\ s ≠ "".
Proof.
  destruct value as [s|]; simpl; [|discriminate].
  intros H. exists s. split; [reflexivity|].
  intros ->. rewrite bool_decide_eq_true_2 in H by reflexivity. discriminate.
Qed.

(** ** The credential *)

(** C8. On both endpoints, when the server-side credential is absent
    (unset or empty) the handler answers with status 500 and a JSON body
    whose [error] member names the missing credential, and it has issued no
    upstream call. *)
Theorem missing_credential_is_500_without_upstream_call
    (Number : string -> option Qc) (up : Upstream) (env : Env)
    (searchParams : URLSearchParams) :
  falsy (YOUTUBE_API_KEY env) = true ->
  run up (Categories.GET env) =
    (Some (NextResponse.mk
             (ErrorBody "Missing YOUTUBE_API_KEY in environment." None) 500),
     [])
  /\ run up (Videos.GET Number env searchParams) =
    (Some (NextResponse.mk
             (ErrorBody "Missing YOUTUBE_API_KEY in environment." None) 500),
     []).
Proof.
  intros Habsent. unfold Categories.GET, Videos.GET.
  rewrite Habsent. split; reflexivity.
Qed.

Lemma missing_credential_witness :
  falsy (YOUTUBE_API_KEY Sample.unset) = true
  /\ run (Sample.play Sample.listed) (Categories.GET Sample.unset) =
       (Some (NextResponse.mk
                (ErrorBody "Missing YOUTUBE_API_KEY in environment." None) 500),
        [])
  /\ run (Sample.play Sample.listed)
         (Videos.GET Sample.Number Sample.unset
            (Sample.query "all" "views" "include")) =
       (Some (NextResponse.mk
                (ErrorBody "Missing YOUTUBE_API_KEY in environment." None) 500),
        []).
Proof.
  split; [reflexivity|].
  apply (missing_credential_is_500_without_upstream_call
           Sample.Number (Sample.play Sample.listed) Sample.unset
           (Sample.query "all" "views" "include")).
  reflexivity.
Defined.

(** ** The primary call *)

(** X21. With a credential, every upstream call other than the primary
    listing call and the channel lookup (that is, every call of the search
    fallback) is issued only when the primary call answered 404 and the
    category is not "all"; and when the primary call answers any other
    non-success status, or 404 with category "all", the handler issues the
    primary call only and, when the upstream status is one a response
    with a body may have, answers with that status and, as [details],
    the upstream body text; for any other status it throws. *)
Theorem primary_failure_is_returned_verbatim
    (Number : string -> option Qc) (up : Upstream) (env : Env)
    (searchParams : URLSearchParams) :
  let apiKey := YOUTUBE_API_KEY env ?? "" in
  let region := Params.get "region" searchParams ?? "KR" in
  let category := Params.get "category" searchParams ?? "all" in
  let primary := (videos, Videos.listParams apiKey region category) in
  let response := up videos (Videos.listParams apiKey region category) in
  let outcome := run up (Videos.GET Number env searchParams) in
  falsy (YOUTUBE_API_KEY env) = false ->
  (forall c : Call,
      c ∈ outcome.2 -> c ≠ primary -> c.1 ≠ channels ->
      Response.status response = 404 /\ category ≠ "all")
  /\ (Response.ok response = false ->
      ¬ (Response.status response = 404 /\ category ≠ "all") ->
      outcome =
        (if NextResponse.accepts (Response.status response)
         then Some (NextResponse.mk
                      (ErrorBody "YouTube API error"
                                 (Some (Response.text response)))
                      (Response.status response))
         else None,
         [primary])).
Proof.
  intros apiKey region category primary response outcome Hkey.
  destruct (falsy_false _ Hkey) as (k & Hk & Hne).
  assert (apiKey = k) as Hapi by (unfold apiKey; rewrite Hk; reflexivity).
  subst outcome.
  rewrite (GET_run Number up k region category env searchParams Hk Hne
             eq_refl eq_refl).
  rewrite retrieve_run. rewrite <- Hapi. cbv zeta.
  fold response. fold primary.
  destruct (Response.ok response) eqn:Hok.
  - split; [|discriminate].
    intros c Hc Hnp Hnc. exfalso.
    destruct (Response.json response) as [| |data].
    + simpl in Hc. apply list_elem_of_singleton in Hc. contradiction.
    + simpl in Hc. apply list_elem_of_singleton in Hc. contradiction.
    + destruct (run up (Videos.respond _ _ _ _ _ _ _ _)) as [r more] eqn:Hr.
      simpl in Hc. apply elem_of_cons in Hc as [Hc|Hc]; [contradiction|].
      apply Hnc.
      eapply (respond_calls Number up apiKey region category env).
      rewrite Hr. exact Hc.
  - destruct (bool_decide (Response.status response = 404)) eqn:H404;
      destruct (bool_decide (category ≠ "all")) eqn:Hcat; simpl.
    + apply bool_decide_eq_true_1 in H404, Hcat.
      split; [intros; split; assumption|].
      intros _ Hnot. exfalso. apply Hnot. split; assumption.
    + unfold relay.
      destruct (NextResponse.accepts _); simpl;
        (split;
         [intros c Hc Hnp; apply list_elem_of_singleton in Hc; contradiction
         |reflexivity]).
    + unfold relay.
      destruct (NextResponse.accepts _); simpl;
        (split;
         [intros c Hc Hnp; apply list_elem_of_singleton in Hc; contradiction
         |reflexivity]).
    + unfold relay.
      destruct (NextResponse.accepts _); simpl;
        (split;
         [intros c Hc Hnp; apply list_elem_of_singleton in Hc; contradiction
         |reflexivity]).
Qed.

Lemma primary_failure_witness :
  let notFoundForAll := Sample.play Sample.refused in
  let unavailable := Sample.play Sample.down in
  falsy (YOUTUBE_API_KEY Sample.env) = false
  /\ Response.status
       (notFoundForAll videos (Videos.listParams "secret" "KR" "all")) = 404
  /\ run notFoundForAll
         (Videos.GET Sample.Number Sample.env
            (Sample.query "all" "views" "include")) =
       (Some (NextResponse.mk
                (ErrorBody "YouTube API error"
                           (Some "{ error: videoChartNotFound }"))
                404),
        [(videos, Videos.listParams "secret" "KR" "all")])
  /\ Response.status
       (unavailable videos (Videos.listParams "secret" "KR" "25")) = 503
  /\ run unavailable
         (Videos.GET Sample.Number Sample.env
            (Sample.query "25" "views" "include")) =
       (Some (NextResponse.mk
                (ErrorBody "YouTube API error" (Some "backendError")) 503),
        [(videos, Videos.listParams "secret" "KR" "25")]).
Proof.
  intros notFoundForAll unavailable.
  split; [reflexivity|]. split; [reflexivity|]. split; [|split].
  - refine (proj2 (primary_failure_is_returned_verbatim
                     Sample.Number notFoundForAll Sample.env
                     (Sample.query "all" "views" "include") eq_refl)
                  eq_refl _).
    intros [_ Hcategory]. apply Hcategory. reflexivity.
  - reflexivity.
  - refine (proj2 (primary_failure_is_returned_verbatim
                     Sample.Number unavailable Sample.env
                     (Sample.query "25" "views" "include") eq_refl)
                  eq_refl _).
    intros [Hstatus _]. discriminate Hstatus.
Defined.

(** ** Sorting *)

Section Sorting.
Context {A : Type} (key : A -> Qc).

Lemma byKey_front (x y : A) :
  (byKey key x y ≤ 0)%Qc <-> (key y ≤ key x)%Qc.
Proof.
  unfold byKey. rewrite (Qcplus_le_mono_r _ _ (key x)).
  replace (key y - key x + key x)%Qc with (key y) by ring.
  rewrite Qcplus_0_l. reflexivity.
Qed.

Lemma place_Permutation (x : A) (l : list A) :
  place (byKey key) x l ≡ₚ x :: l.
Proof.
  induction l as [|y l IH]; simpl; [reflexivity|].
  case_bool_decide; [reflexivity|].
  rewrite IH. apply Permutation_swap.
Qed.

Lemma Array_sort_Permutation (l : list A) : Array_sort (byKey key) l ≡ₚ l.
Proof.
  induction l as [|x l IH]; simpl; [reflexivity|].
  rewrite place_Permutation, IH. reflexivity.
Qed.

Lemma place_front (x : A) (l : list A) :
  Forall (descending key x) l -> place (byKey key) x l = x :: l.
Proof.
  destruct l as [|y l]; [reflexivity|].
  intros H. simpl. inversion_clear H as [|? ? Hy _].
  rewrite bool_decide_eq_true_2; [reflexivity|].
  apply byKey_front. exact Hy.
Qed.

Lemma descending_trans (a b c : A) :
  descending key a b -> descending key b c -> descending key a c.
Proof. unfold descending. intros Hab Hbc. etransitivity; eassumption. Qed.

Lemma place_StronglySorted (x : A) (l : list A) :
  StronglySorted (descending key) l ->
  StronglySorted (descending key) (place (byKey key) x l).
Proof.
  induction 1 as [|y l Hl IH Hy]; simpl.
  - apply SSorted_cons; constructor.
  - case_bool_decide as Hfront.
    + apply byKey_front in Hfront.
      apply SSorted_cons; [apply SSorted_cons; assumption|].
      apply List.Forall_cons; [exact Hfront|].
      eapply List.Forall_impl; [|exact Hy].
      intros z Hz. eapply descending_trans; eassumption.
    + apply SSorted_cons; [exact IH|].
      rewrite place_Permutation. apply List.Forall_cons; [|exact Hy].
      unfold descending. apply Qclt_le_weak, Qcnot_le_lt.
      intros Hle. apply Hfront, byKey_front. exact Hle.
Qed.

Lemma Array_sort_StronglySorted (l : list A) :
  StronglySorted (descending key) (Array_sort (byKey key) l).
Proof.
  induction l as [|x l IH]; simpl; [constructor|].
  apply place_StronglySorted. exact IH.
Qed.

(** Placing a record does not move it past a record of equal
    statistic. *)
Lemma place_keyIs (v : Qc) (x : A) (l : list A) :
  List.filter (keyIs key v) (place (byKey key) x l) =
  List.filter (keyIs key v) (x :: l).
Proof.
  induction l as [|y l IH]; [reflexivity|].
  cbn [place]. case_bool_decide as Hfront; [reflexivity|].
  cbn [List.filter] in *. rewrite IH.
  destruct (keyIs key v y) eqn:Hy, (keyIs key v x) eqn:Hx; try reflexivity.
  exfalso. apply bool_decide_eq_true_1 in Hy, Hx.
  apply Hfront, byKey_front. rewrite Hy, Hx. reflexivity.
Qed.

Lemma Array_sort_stable (v : Qc) (l : list A) :
  List.filter (keyIs key v) (Array_sort (byKey key) l) =
  List.filter (keyIs key v) l.
Proof.
  induction l as [|x l IH]; [reflexivity|].
  cbn [Array_sort foldr]. fold (Array_sort (byKey key) l).
  rewrite place_keyIs. cbn [List.filter]. rewrite IH. reflexivity.
Qed.

Lemma StronglySorted_filter (R : A -> A -> Prop) (p : A -> bool)
    (l : list A) :
  StronglySorted R l -> StronglySorted R (List.filter p l).
Proof.
  induction 1 as [|y l Hl IH Hy]; simpl; [constructor|].
  destruct (p y); [|exact IH].
  constructor; [exact IH|].
  apply List.Forall_forall. intros z Hz.
  apply filter_In in Hz as [Hz _].
  rewrite List.Forall_forall in Hy. apply Hy. exact Hz.
Qed.

(** Removing records commutes with placing one. *)
Lemma place_filter (p : A -> bool) (x : A) (l : list A) :
  StronglySorted (descending key) l ->
  List.filter p (place (byKey key) x l) =
  if p x then place (byKey key) x (List.filter p l) else List.filter p l.
Proof.
  induction 1 as [|y l Hl IH Hy].
  - simpl. destruct (p x); reflexivity.
  - cbn [place]. case_bool_decide as Hfront.
    + change (List.filter p (x :: y :: l))
        with (if p x then x :: List.filter p (y :: l)
              else List.filter p (y :: l)).
      destruct (p x) eqn:Hpx; [|reflexivity].
      symmetry. apply place_front.
      apply List.Forall_forall. intros z Hz.
      apply filter_In in Hz as [Hz _].
      apply byKey_front in Hfront.
      destruct Hz as [<-|Hz]; [exact Hfront|].
      eapply descending_trans; [exact Hfront|].
      rewrite List.Forall_forall in Hy. apply Hy. exact Hz.
    + cbn [List.filter]. rewrite IH.
      destruct (p y) eqn:Hpy, (p x) eqn:Hpx; try reflexivity.
      cbn [place]. rewrite bool_decide_eq_false_2 by exact Hfront.
      reflexivity.
Qed.

Lemma Array_sort_filter (p : A -> bool) (l : list A) :
  List.filter p (Array_sort (byKey key) l) =
  Array_sort (byKey key) (List.filter p l).
Proof.
  induction l as [|x l IH]; [reflexivity|].
  cbn [Array_sort foldr List.filter]. fold (Array_sort (byKey key) l).
  rewrite place_filter by apply Array_sort_StronglySorted.
  destruct (p x); [|exact IH].
  cbn [foldr]. fold (Array_sort (byKey key) (List.filter p l)).
  rewrite IH. reflexivity.
Qed.

End Sorting.

(** ** Ranking and filtering *)

Lemma rank_byKey (Number : string -> option Qc) (sort : string)
    (items : list VideoItem.t) :
  Videos.rank Number sort items =
  Array_sort (byKey (Videos.statistic Number sort)) items.
Proof. reflexivity. Qed.

Lemma respond_answer (Number : string -> option Qc) (up : Upstream)
    (env : Env) (apiKey region category sort shorts : string)
    (data : Listing.t VideoItem.t) (r : NextResponse.t) (calls : list Call) :
  run up (Videos.respond Number env apiKey region category sort shorts
            (Some data)) = (Some r, calls) ->
  exists thumbs : gmap string string,
    r = answerOf Number region category env sort shorts
          (Listing.array data) thumbs.
Proof.
  rewrite respond_run.
  destruct (run up (Videos.lookupThumbnails _ _)) as [[thumbs|] more];
    simpl; intros H; inversion H.
  exists thumbs. reflexivity.
Qed.

Lemma GET_answer (Number : string -> option Qc) (up : Upstream) (env : Env)
    (searchParams : URLSearchParams) (data : Listing.t VideoItem.t)
    (before : list Call) (r : NextResponse.t) (calls : list Call) :
  let apiKey := YOUTUBE_API_KEY env ?? "" in
  let region := Params.get "region" searchParams ?? "KR" in
  let category := Params.get "category" searchParams ?? "all" in
  let sort := Params.get "sort" searchParams ?? "views" in
  let shorts := Params.get "shorts" searchParams ?? "include" in
  falsy (YOUTUBE_API_KEY env) = false ->
  run up (Videos.retrieve apiKey region category) =
    (Some (inr (Some data)), before) ->
  run up (Videos.GET Number env searchParams) = (Some r, calls) ->
  exists thumbs : gmap string string,
    r = answerOf Number region category env sort shorts
          (Listing.array data) thumbs.
Proof.
  intros apiKey region category sort shorts Hkey Hretrieve.
  destruct (falsy_false _ Hkey) as (k & Hk & Hne).
  assert (apiKey = k) as Hapi by (unfold apiKey; rewrite Hk; reflexivity).
  rewrite (GET_run Number up k region category env searchParams Hk Hne
             eq_refl eq_refl).
  rewrite <- Hapi, Hretrieve. fold sort shorts.
  destruct (run up (Videos.respond Number env apiKey region category sort
                      shorts (Some data))) as [r' more] eqn:Hrespond.
  intros Hrun. inversion Hrun; subst r'.
  eapply respond_answer. exact Hrespond.
Qed.

Lemma StronglySorted_map {A B : Type} (R : B -> B -> Prop) (f : A -> B)
    (l : list A) :
  StronglySorted (fun a b => R (f a) (f b)) l ->
  StronglySorted R (List.map f l).
Proof.
  induction 1 as [|y l Hl IH Hy]; simpl; [constructor|].
  apply SSorted_cons; [exact IH|].
  apply List.Forall_forall. intros z Hz.
  apply in_map_iff in Hz as (a & <- & Ha).
  rewrite List.Forall_forall in Hy. apply Hy. exact Ha.
Qed.

Lemma filter_map_comm {A B : Type} (p : B -> bool) (f : A -> B) (l : list A) :
  List.filter p (List.map f l) = List.map f (List.filter (fun a => p (f a)) l).
Proof.
  induction l as [|a l IH]; simpl; [reflexivity|].
  rewrite IH. destruct (p (f a)); reflexivity.
Qed.

Lemma filter_filter_comm {A : Type} (p q : A -> bool) (l : list A) :
  List.filter p (List.filter q l) = List.filter q (List.filter p l).
Proof.
  induction l as [|a l IH]; simpl; [reflexivity|].
  destruct (p a) eqn:Hp, (q a) eqn:Hq; simpl; rewrite ?Hp, ?Hq, IH;
    reflexivity.
Qed.

(** C3. Whatever the working set [data] the retrieval produced and
    whatever the sort key, the sequence the videos endpoint returns is in
    non-increasing order of the statistic the key selects ("likes":
    likeCount, "comments": commentCount, "views" and any other key:
    viewCount; a missing, empty or non-numeric value counts as zero), and
    the returned records of equal statistic are in the order the working
    set had them. *)
Theorem returned_sequence_is_ranked
    (Number : string -> option Qc) (up : Upstream) (env : Env)
    (searchParams : URLSearchParams) (data : Listing.t VideoItem.t)
    (before : list Call) (r : NextResponse.t) (calls : list Call) :
  let apiKey := YOUTUBE_API_KEY env ?? "" in
  let region := Params.get "region" searchParams ?? "KR" in
  let category := Params.get "category" searchParams ?? "all" in
  let sort := Params.get "sort" searchParams ?? "views" in
  let shorts := Params.get "shorts" searchParams ?? "include" in
  let workingSet := Listing.array data in
  falsy (YOUTUBE_API_KEY env) = false ->
  run up (Videos.retrieve apiKey region category) =
    (Some (inr (Some data)), before) ->
  run up (Videos.GET Number env searchParams) = (Some r, calls) ->
  (exists (returned : list ApiVideo.t) (thumbs : gmap string string),
      r = NextResponse.mk
            (VideosBody returned (now env) region category sort shorts) 200
      /\ StronglySorted (descending (returnedStatistic Number sort)) returned
      /\ (forall v : Qc,
            List.filter (keyIs (returnedStatistic Number sort) v) returned =
            List.map (Videos.present thumbs)
              (List.filter (keyIs (Videos.statistic Number sort) v)
                 (Videos.selectShorts shorts workingSet)))
      /\ forall item : VideoItem.t,
          returnedStatistic Number sort (Videos.present thumbs item) =
          Videos.statistic Number sort item)
  /\ (forall item : VideoItem.t,
        let stats := VideoItem.statistics item ?? Statistics.empty in
        Videos.statistic Number sort item =
        Videos.toNumber Number
          (if bool_decide (sort = "likes") then Statistics.likeCount stats
           else if bool_decide (sort = "comments")
                then Statistics.commentCount stats
                else Statistics.viewCount stats))
  /\ Videos.toNumber Number None = 0%Qc
  /\ Videos.toNumber Number (Some "") = 0%Qc
  /\ (forall s : string, Number s = None ->
        Videos.toNumber Number (Some s) = 0%Qc)
  /\ (forall (s : string) (q : Qc), s ≠ "" -> Number s = Some q ->
        Videos.toNumber Number (Some s) = q).
Proof.
  intros apiKey region category sort shorts workingSet Hkey Hretrieve Hrun.
  destruct (GET_answer _ _ _ _ _ _ _ _ Hkey Hretrieve Hrun) as (thumbs & ->).
  split; [|split; [|split; [|split; [|split]]]].
  - exists (List.map (Videos.present thumbs)
              (Videos.selectShorts shorts
                 (Videos.rank Number sort workingSet))), thumbs.
    split; [reflexivity|]. split; [|split].
    + apply StronglySorted_map.
      change (StronglySorted (descending (Videos.statistic Number sort))
                (Videos.selectShorts shorts
                   (Videos.rank Number sort workingSet))).
      unfold Videos.selectShorts. case_bool_decide.
      * apply StronglySorted_filter, Array_sort_StronglySorted.
      * apply Array_sort_StronglySorted.
    + intros v. rewrite filter_map_comm. f_equal.
      change (fun a => keyIs (returnedStatistic Number sort) v
                         (Videos.present thumbs a))
        with (keyIs (Videos.statistic Number sort) v).
      unfold Videos.selectShorts. case_bool_decide.
      * rewrite filter_filter_comm, rank_byKey, Array_sort_stable.
        apply filter_filter_comm.
      * rewrite rank_byKey. apply Array_sort_stable.
    + intros item. reflexivity.
  - intros item stats. unfold Videos.statistic, Videos.getValue. fold stats.
    destruct (bool_decide (sort = "likes")); [reflexivity|].
    destruct (bool_decide (sort = "comments")); reflexivity.
  - reflexivity.
  - reflexivity.
  - intros s Hs. unfold Videos.toNumber. simpl.
    case_bool_decide; [reflexivity|]. rewrite Hs. reflexivity.
  - intros s q Hne Hs. unfold Videos.toNumber. simpl.
    rewrite bool_decide_eq_false_2 by exact Hne. rewrite Hs. reflexivity.
Qed.

Lemma returned_sequence_witness :
  let up := Sample.play Sample.listed in
  let request := Sample.query "all" "views" "exclude" in
  let data := Listing.mk (Some Sample.three) in
  let before := [(videos, Videos.listParams "secret" "KR" "all")] in
  let thumbs :=
    foldl Videos.addThumb ∅
      [Sample.avatar "UC1" (Some "d1") (Some "m1");
       Sample.avatar "UC2" (Some "d2") None] in
  let r := answerOf Sample.Number "KR" "all" Sample.env "views" "exclude"
             Sample.three thumbs in
  falsy (YOUTUBE_API_KEY Sample.env) = false
  /\ run up (Videos.retrieve "secret" "KR" "all") =
       (Some (inr (Some data)), before)
  /\ run up (Videos.GET Sample.Number Sample.env request) =
       (Some r,
        before ++ [(channels, Videos.channelParams "secret" ["UC1"; "UC2"])])
  /\ exists (returned : list ApiVideo.t) (thumbs : gmap string string),
      r = NextResponse.mk
            (VideosBody returned (now Sample.env) "KR" "all" "views" "exclude")
            200
      /\ StronglySorted (descending (returnedStatistic Sample.Number "views"))
           returned
      /\ (forall v : Qc,
            List.filter (keyIs (returnedStatistic Sample.Number "views") v)
              returned =
            List.map (Videos.present thumbs)
              (List.filter (keyIs (Videos.statistic Sample.Number "views") v)
                 (Videos.selectShorts "exclude" Sample.three)))
      /\ forall item : VideoItem.t,
          returnedStatistic Sample.Number "views"
            (Videos.present thumbs item) =
          Videos.statistic Sample.Number "views" item.
Proof.
  intros up request data before thumbs r.
  assert (run up (Videos.GET Sample.Number Sample.env request) =
          (Some r,
           before ++ [(channels, Videos.channelParams "secret"
                                   ["UC1"; "UC2"])]))
    as Hrun by (vm_compute; reflexivity).
  split; [reflexivity|]. split; [reflexivity|]. split; [exact Hrun|].
  exact (proj1 (returned_sequence_is_ranked
                  Sample.Number up Sample.env request data before r _
                  eq_refl eq_refl Hrun)).
Defined.

(** C9. For every working set and every sort key, ranking and then
    removing the records shorter than 60 seconds gives the same sequence
    as removing them first and ranking what is left (and so for any value
    of the shorts parameter, the other values removing nothing). *)
Theorem rank_then_filter_is_filter_then_rank
    (Number : string -> option Qc) (sort : string)
    (items : list VideoItem.t) :
  Videos.selectShorts "exclude" (Videos.rank Number sort items) =
    List.filter Videos.longEnough (Videos.rank Number sort items)
  /\ List.filter Videos.longEnough (Videos.rank Number sort items) =
     Videos.rank Number sort (List.filter Videos.longEnough items)
  /\ forall shorts : string,
      Videos.selectShorts shorts (Videos.rank Number sort items) =
      Videos.rank Number sort (Videos.selectShorts shorts items).
Proof.
  split; [reflexivity|]. split.
  - rewrite !rank_byKey. apply Array_sort_filter.
  - intros shorts. unfold Videos.selectShorts.
    case_bool_decide; [|reflexivity].
    rewrite !rank_byKey. apply Array_sort_filter.
Qed.

Lemma parseIsoDuration_nullish (duration : option string) :
  Duration.parseIsoDuration (Some (duration ?? "")) =
  Duration.parseIsoDuration duration.
Proof. destruct duration; reflexivity. Qed.

(** C4. Whatever the working set [data] the retrieval produced: with
    shorts "exclude" the returned list is made of exactly the records of
    the (ranked) working set whose parsed duration is at least 60 seconds,
    every record of a parsed duration below 60 being removed; with shorts
    "include" it is made of all the records of the ranked working set,
    none removed. *)
Theorem shorts_filter_keeps_sixty_seconds_and_more
    (Number : string -> option Qc) (up : Upstream) (env : Env)
    (searchParams : URLSearchParams) (data : Listing.t VideoItem.t)
    (before : list Call) (r : NextResponse.t) (calls : list Call) :
  let apiKey := YOUTUBE_API_KEY env ?? "" in
  let region := Params.get "region" searchParams ?? "KR" in
  let category := Params.get "category" searchParams ?? "all" in
  let sort := Params.get "sort" searchParams ?? "views" in
  let shorts := Params.get "shorts" searchParams ?? "include" in
  let workingSet := Listing.array data in
  let sorted := Videos.rank Number sort workingSet in
  let seconds (item : VideoItem.t) :=
    Duration.parseIsoDuration
      (VideoItem.contentDetails item ≫= ContentDetails.duration) in
  falsy (YOUTUBE_API_KEY env) = false ->
  run up (Videos.retrieve apiKey region category) =
    (Some (inr (Some data)), before) ->
  run up (Videos.GET Number env searchParams) = (Some r, calls) ->
  exists (kept : list VideoItem.t) (thumbs : gmap string string),
    r = NextResponse.mk
          (VideosBody (List.map (Videos.present thumbs) kept)
                      (now env) region category sort shorts) 200
    /\ (shorts = "exclude" ->
        kept = List.filter (fun item => (60 <=? seconds item)%N) sorted
        /\ (forall item, In item kept <->
                         In item workingSet /\ (60 <= seconds item)%N)
        /\ Forall (fun v => (60 <= Duration.parseIsoDuration
                                     (Some (ApiVideo.duration v)))%N)
                  (List.map (Videos.present thumbs) kept))
    /\ (shorts = "include" -> kept = sorted /\ kept ≡ₚ workingSet).
Proof.
  intros apiKey region category sort shorts workingSet sorted seconds
    Hkey Hretrieve Hrun.
  destruct (GET_answer _ _ _ _ _ _ _ _ Hkey Hretrieve Hrun) as (thumbs & ->).
  exists (Videos.selectShorts shorts sorted), thumbs.
  split; [reflexivity|]. split.
  - intros ->. split; [reflexivity|].
    assert (forall item,
               In item (Videos.selectShorts "exclude" sorted) <->
               In item workingSet /\ (60 <= seconds item)%N) as Hkept.
    { intros item. change (Videos.selectShorts "exclude" sorted)
        with (List.filter Videos.longEnough sorted).
      rewrite filter_In. unfold Videos.longEnough. fold (seconds item).
      rewrite N.leb_le. subst sorted.
      rewrite <- !list_elem_of_In, rank_byKey, Array_sort_Permutation.
      reflexivity. }
    split; [exact Hkept|].
    apply List.Forall_forall. intros v Hv.
    apply in_map_iff in Hv as (item & <- & Hitem).
    apply Hkept in Hitem as [_ Hlong].
    unfold Videos.present. simpl. rewrite parseIsoDuration_nullish.
    exact Hlong.
  - intros ->. split; [reflexivity|].
    change (Videos.selectShorts "include" sorted) with sorted.
    subst sorted. rewrite rank_byKey. apply Array_sort_Permutation.
Qed.

Lemma shorts_filter_witness :
  let up := Sample.play Sample.listed in
  let request := Sample.query "all" "views" "exclude" in
  let data := Listing.mk (Some Sample.three) in
  let before := [(videos, Videos.listParams "secret" "KR" "all")] in
  let thumbs :=
    foldl Videos.addThumb ∅
      [Sample.avatar "UC1" (Some "d1") (Some "m1");
       Sample.avatar "UC2" (Some "d2") None] in
  let r := answerOf Sample.Number "KR" "all" Sample.env "views" "exclude"
             Sample.three thumbs in
  falsy (YOUTUBE_API_KEY Sample.env) = false
  /\ run up (Videos.retrieve "secret" "KR" "all") =
       (Some (inr (Some data)), before)
  /\ run up (Videos.GET Sample.Number Sample.env request) =
       (Some r,
        before ++ [(channels, Videos.channelParams "secret" ["UC1"; "UC2"])])
  /\ exists (kept : list VideoItem.t) (thumbs : gmap string string),
      r = NextResponse.mk
            (VideosBody (List.map (Videos.present thumbs) kept)
                        (now Sample.env) "KR" "all" "views" "exclude") 200
      /\ kept = List.filter Videos.longEnough
                  (Videos.rank Sample.Number "views" Sample.three).
Proof.
  intros up request data before thumbs r.
  assert (run up (Videos.GET Sample.Number Sample.env request) =
          (Some r,
           before ++ [(channels, Videos.channelParams "secret"
                                   ["UC1"; "UC2"])]))
    as Hrun by (vm_compute; reflexivity).
  split; [reflexivity|]. split; [reflexivity|]. split; [exact Hrun|].
  destruct (shorts_filter_keeps_sixty_seconds_and_more
              Sample.Number up Sample.env request data before r _
              eq_refl eq_refl Hrun)
    as (kept & thumbs' & Hr & Hexclude & _).
  exists kept, thumbs'. split; [exact Hr|].
  exact (proj1 (Hexclude eq_refl)).
Defined.

(** ** Channel thumbnails *)

Lemma truthy_Some (value : option string) (s : string) :
  truthy value = Some s <-> value = Some s /\ s ≠ "".
Proof.
  unfold truthy, falsy. destruct value as [t|]; [|intuition congruence].
  case_bool_decide; intuition congruence.
Qed.

Lemma Set_from_elem (seen l : list string) (x : string) :
  x ∈ Set_from seen l <-> x ∈ l /\ x ∉ seen.
Proof.
  revert seen. induction l as [|y l IH]; intros seen; simpl.
  - rewrite elem_of_nil. tauto.
  - case_bool_decide as Hseen.
    + rewrite IH, elem_of_cons. intuition congruence.
    + rewrite !elem_of_cons, IH, elem_of_cons.
      destruct (decide (x = y)); intuition congruence.
Qed.

Lemma Set_from_NoDup (seen l : list string) : NoDup (Set_from seen l).
Proof.
  revert seen. induction l as [|y l IH]; intros seen; simpl.
  - constructor.
  - case_bool_decide; [apply IH|].
    apply NoDup_cons_2; [|apply IH].
    rewrite Set_from_elem, elem_of_cons. intros [_ Hnot]. apply Hnot.
    left. reflexivity.
Qed.

Lemma addThumb_lookup (channelItems : list Channel.t)
    (acc : gmap string string) (c : string) :
  foldl Videos.addThumb acc channelItems !! c =
  match last (omap (hit c) channelItems) with
  | Some thumb => Some thumb
  | None => acc !! c
  end.
Proof.
  revert acc. induction channelItems as [|channel l IH]; intros acc;
    [reflexivity|].
  cbn [foldl]. rewrite IH.
  change (omap (hit c) (channel :: l))
    with (match hit c channel with
          | Some thumb => thumb :: omap (hit c) l
          | None => omap (hit c) l
          end).
  destruct (hit c channel) as [thumb|] eqn:Hhit; unfold hit in Hhit.
  - case_bool_decide as Hyes; [|discriminate].
    injection Hhit as <-. destruct Hyes as (Hid & Hc & Hproto & Hthumb).
    rewrite last_cons. destruct (last (omap (hit c) l)); [reflexivity|].
    unfold Videos.addThumb, PlainObject.set. rewrite Hid. unfold falsy.
    rewrite !bool_decide_eq_false_2 by assumption.
    simpl. rewrite ?bool_decide_eq_false_2 by assumption.
    apply lookup_insert_eq.
  - case_bool_decide as Hno; [discriminate|].
    destruct (last (omap (hit c) l)); [reflexivity|].
    unfold Videos.addThumb, PlainObject.set.
    destruct (Channel.id channel) as [c'|] eqn:Hid; [|reflexivity].
    unfold falsy. case_bool_decide as Hempty; [reflexivity|].
    case_bool_decide as Hthumb; [reflexivity|].
    simpl. case_bool_decide as Hproto; [reflexivity|].
    apply lookup_insert_ne. intros ->. apply Hno. auto.
Qed.

(** X22. With a credential and a working set [data] at hand: the channel
    identifiers looked up are the distinct non-empty identifiers of the
    working set; the handler issues one batched channel lookup when there
    is at least one, and none otherwise; a lookup that succeeds maps each
    identifier other than [__proto__] to the medium thumbnail URL of its
    channel when there is one, and to the default one otherwise; a lookup
    that does not succeed leaves the mapping empty, so that the handler
    still answers with status 200, and the channel thumbnail of a record
    is then the empty string, unless its channel identifier names a
    member of [Object.prototype]: it is then that member. *)
Theorem channel_thumbnails_are_looked_up_once
    (Number : string -> option Qc) (up : Upstream) (env : Env)
    (searchParams : URLSearchParams)
    (data : Listing.t VideoItem.t) (before : list Call) :
  let apiKey := YOUTUBE_API_KEY env ?? "" in
  let region := Params.get "region" searchParams ?? "KR" in
  let category := Params.get "category" searchParams ?? "all" in
  let sort := Params.get "sort" searchParams ?? "views" in
  let shorts := Params.get "shorts" searchParams ?? "include" in
  let items := Listing.array data in
  let channelIds := Videos.channelIdsOf items in
  let lookup := (channels, Videos.channelParams apiKey channelIds) in
  let answer := up channels (Videos.channelParams apiKey channelIds) in
  let outcome := run up (Videos.GET Number env searchParams) in
  falsy (YOUTUBE_API_KEY env) = false ->
  run up (Videos.retrieve apiKey region category) =
    (Some (inr (Some data)), before) ->
  (NoDup channelIds
   /\ forall c : string,
       c ∈ channelIds <->
       c ≠ "" /\ exists item, item ∈ items
                  /\ VideoItem.snippet item ≫= Snippet.channelId = Some c)
  /\ (outcome.2 =
        before ++ (if bool_decide (channelIds = []) then [] else [lookup])
      /\ Params.get "id" lookup.2 = Some (join "," channelIds))
  /\ (forall channelItems : list Channel.t,
        channelIds ≠ [] -> Response.ok answer = true ->
        read answer = Some channelItems ->
        let thumbs := foldl Videos.addThumb ∅ channelItems in
        outcome.1 =
          Some (answerOf Number region category env sort shorts items thumbs)
        /\ forall c : string, thumbs !! c = last (omap (hit c) channelItems))
  /\ ((forall (channel : Channel.t) (url : string),
         mediumUrl channel = Some url -> url ≠ "" ->
         Videos.thumbOf channel = url)
      /\ (forall channel : Channel.t,
            falsy (mediumUrl channel) = true ->
            Videos.thumbOf channel = defaultUrl channel ?? ""))
  /\ (Response.ok answer = false ->
      outcome.1 =
        Some (NextResponse.mk
                (VideosBody
                   (List.map (Videos.present ∅)
                      (Videos.selectShorts shorts
                         (Videos.rank Number sort items)))
                   (now env) region category sort shorts)
                200)
      /\ forall item : VideoItem.t,
          let c := (VideoItem.snippet item ≫= Snippet.channelId) ?? "" in
          ApiVideo.channelThumbnail (Videos.present ∅ item) =
          if bool_decide (c = "__proto__") then objectPrototype
          else if bool_decide (c ∈ PlainObject.methods) then function
               else str "").
Proof.
  intros apiKey region category sort shorts items channelIds lookup answer
    outcome Hkey Hretrieve.
  destruct (falsy_false _ Hkey) as (k & Hk & Hne).
  assert (apiKey = k) as Hapi by (unfold apiKey; rewrite Hk; reflexivity).
  assert (outcome =
          let '(thumbs, calls) :=
            run up (Videos.lookupThumbnails apiKey channelIds) in
          (answerOf Number region category env sort shorts items <$> thumbs,
           before ++ calls)) as Houtcome.
  { subst outcome.
    rewrite (GET_run Number up k region category env searchParams Hk Hne
               eq_refl eq_refl).
    rewrite <- Hapi, Hretrieve. fold sort shorts. rewrite respond_run.
    fold items channelIds.
    destruct (run up (Videos.lookupThumbnails apiKey channelIds));
      reflexivity. }
  rewrite lookupThumbnails_run in Houtcome. cbv zeta in Houtcome.
  fold answer in Houtcome. fold lookup in Houtcome.
  split; [|split; [|split; [|split]]].
  - split; [apply Set_from_NoDup|].
    intros c. unfold channelIds, Videos.channelIdsOf.
    rewrite Set_from_elem, list_elem_of_omap. split.
    + intros [(item & Hitem & Hc) _]. apply truthy_Some in Hc as [Hc Hne'].
      split; [exact Hne'|]. exists item. split; assumption.
    + intros (Hne' & item & Hitem & Hc).
      split; [|apply not_elem_of_nil].
      exists item. split; [exact Hitem|]. apply truthy_Some. split; assumption.
  - rewrite Houtcome. split; [|reflexivity].
    case_bool_decide; [|reflexivity]. reflexivity.
  - intros channelItems Hsome Hok Hread thumbs. rewrite Houtcome.
    rewrite bool_decide_eq_false_2 by exact Hsome.
    rewrite Hok, Hread. split; [reflexivity|].
    intros c. unfold thumbs. rewrite addThumb_lookup, lookup_empty.
    destruct (last _); reflexivity.
  - split.
    + intros channel url Hmedium Hurl. unfold Videos.thumbOf.
      fold (mediumUrl channel) (defaultUrl channel).
      rewrite Hmedium. unfold or_else, falsy.
      rewrite !bool_decide_eq_false_2 by exact Hurl. reflexivity.
    + intros channel Hmedium. unfold Videos.thumbOf.
      fold (mediumUrl channel) (defaultUrl channel).
      unfold or_else. rewrite Hmedium.
      destruct (defaultUrl channel) as [url|]; [|reflexivity].
      unfold falsy. destruct (bool_decide (url = "")) eqn:Hurl;
        [|reflexivity].
      apply bool_decide_eq_true_1 in Hurl. rewrite Hurl. reflexivity.
  - intros Hfail. split.
    + rewrite Houtcome. case_bool_decide; [reflexivity|].
      rewrite Hfail. reflexivity.
    + intros item c. unfold Videos.present.
      cbn [ApiVideo.channelThumbnail]. fold c.
      destruct (falsy (VideoItem.snippet item ≫= Snippet.channelId))
        eqn:Hfalsy.
      * assert (c = "") as ->; [|reflexivity].
        unfold c. destruct (VideoItem.snippet item ≫= Snippet.channelId)
          as [c'|]; [|reflexivity].
        apply bool_decide_eq_true_1 in Hfalsy. exact Hfalsy.
      * unfold PlainObject.get. rewrite lookup_empty.
        destruct (bool_decide (c = "__proto__")); [reflexivity|].
        destruct (bool_decide (c ∈ PlainObject.methods)); reflexivity.
Qed.

(** ** The search fallback *)

Lemma get_set (k k' v : string) (ps : URLSearchParams) :
  Params.get k (Params.set k' v ps) =
  if bool_decide (k' = k) then Some v else Params.get k ps.
Proof.
  induction ps as [|[k0 v0] ps IH]; simpl.
  - reflexivity.
  - destruct (bool_decide (k0 = k')) eqn:H0; simpl.
    + apply bool_decide_eq_true_1 in H0. subst k0.
      destruct (bool_decide (k' = k)); reflexivity.
    + rewrite IH. apply bool_decide_eq_false_1 in H0.
      destruct (bool_decide (k0 = k)) eqn:H1; [|reflexivity].
      apply bool_decide_eq_true_1 in H1. subst k0.
      rewrite bool_decide_eq_false_2; [reflexivity|].
      intros ->. apply H0. reflexivity.
Qed.

Lemma respond_nothing (Number : string -> option Qc) (up : Upstream)
    (env : Env) (apiKey region category sort shorts : string) :
  run up (Videos.respond Number env apiKey region category sort shorts
            (Some (Listing.mk (Some [])))) =
  (Some (NextResponse.mk
           (VideosBody [] (now env) region category sort shorts) 200), []).
Proof.
  rewrite respond_run, lookupThumbnails_run. simpl.
  unfold answerOf, Videos.selectShorts. simpl.
  destruct (bool_decide (shorts = "exclude")); reflexivity.
Qed.

Lemma videoIds_identifiersOf (items : list SearchItem.t) :
  Videos.videoIds items = identifiersOf items.
Proof.
  unfold Videos.videoIds, identifiersOf.
  induction items as [|item items IH]; [reflexivity|].
  cbn [omap list_omap List.map List.filter]. rewrite IH.
  destruct (SearchItem.id item ≫= SearchItem.videoId) as [id|];
    [|reflexivity].
  unfold truthy, falsy. cbn [nullish].
  destruct (bool_decide (id = "")); reflexivity.
Qed.

Lemma videoIds_length (items : list SearchItem.t) :
  (length (Videos.videoIds items) <= length items)%nat.
Proof.
  induction items as [|item items IH]; [reflexivity|].
  unfold Videos.videoIds in *. cbn [omap list_omap].
  destruct (truthy _); simpl; lia.
Qed.

Section Fallback.
Variable Number : string -> option Qc.
Variable up : Upstream.
Variable env : Env.
Variable searchParams : URLSearchParams.

Let apiKey : string := YOUTUBE_API_KEY env ?? "".
Let region : string := Params.get "region" searchParams ?? "KR".
Let category : string := Params.get "category" searchParams ?? "all".
Let sort : string := Params.get "sort" searchParams ?? "views".
Let shorts : string := Params.get "shorts" searchParams ?? "include".
Let primary : Call := (videos, Videos.listParams apiKey region category).
Let scopedParams : URLSearchParams :=
  Videos.buildSearchParams apiKey region category true.
Let unscopedParams : URLSearchParams :=
  Videos.buildSearchParams apiKey region category false.
Let scoped : Response.t (payload search) := up search scopedParams.
Let unscoped : Response.t (payload search) := up search unscopedParams.
Let outcome : option NextResponse.t * list Call :=
  run up (Videos.GET Number env searchParams).

(** The identifiers collected by the two searches, and what their
    hydration gives. *)
Let retried : bool := bool_decide (idsOf scoped = []).
Let ids : list string :=
  if retried then (if Response.ok unscoped then idsOf unscoped else [])
  else idsOf scoped.
Let hydration : Response.t (payload videos) :=
  up videos (Videos.idParams apiKey ids).
Let workingSet : list VideoItem.t :=
  if bool_decide (ids = []) then []
  else if Response.ok hydration then read hydration ?? [] else [].

Hypothesis credential : falsy (YOUTUBE_API_KEY env) = false.
Hypothesis notFound :
  Response.status (up videos (Videos.listParams apiKey region category)) = 404.
Hypothesis specific : category ≠ "all".

Lemma GET_fallback :
  outcome =
  match run up (Videos.fallback apiKey region category) with
  | (Some (inl early), calls) => (Some early, primary :: calls)
  | (Some (inr data), calls) =>
      let '(r, more) :=
        run up (Videos.respond Number env apiKey region category sort shorts
                  data) in
      (r, primary :: calls ++ more)
  | (None, calls) => (None, primary :: calls)
  end.
Proof using credential notFound specific.
  destruct (falsy_false _ credential) as (k & Hk & Hne).
  assert (apiKey = k) as Hapi by (unfold apiKey; rewrite Hk; reflexivity).
  unfold outcome.
  rewrite (GET_run Number up k region category env searchParams Hk Hne
             eq_refl eq_refl).
  rewrite retrieve_run. rewrite <- Hapi. cbv zeta.
  unfold Response.ok. rewrite notFound.
  rewrite (bool_decide_eq_true_2 _ specific).
  change ((200 <=? 404) && (404 <=? 299)) with false.
  change (bool_decide (404 = 404)) with true. cbn [andb].
  fold sort shorts primary.
  destruct (run up (Videos.fallback apiKey region category))
    as [[[early|data]|] calls]; reflexivity.
Qed.

Lemma fallback_found :
  Response.ok scoped = true ->
  is_Some (read scoped) ->
  (retried = true -> Response.ok unscoped = true -> is_Some (read unscoped)) ->
  (ids ≠ [] -> Response.ok hydration = true -> is_Some (read hydration)) ->
  run up (Videos.fallback apiKey region category) =
  (Some (inr (Some (Listing.mk (Some workingSet)))),
   (search, scopedParams)
   :: (if retried then [(search, unscopedParams)] else [])
   ++ (if bool_decide (ids = []) then []
       else [(videos, Videos.idParams apiKey ids)])).
Proof using Type.
  intros Hok [items Hread] Hagain Hhydration.
  rewrite fallback_run. cbv zeta. fold scopedParams scoped.
  rewrite Hok, Hread, searchAgain_run. cbv zeta.
  fold unscopedParams unscoped.
  assert (idsOf scoped = Videos.videoIds items) as Hids
    by (unfold idsOf; rewrite Hread; reflexivity).
  rewrite <- Hids. fold retried.
  assert (run up (Videos.fetchByIds apiKey ids) =
          (Some workingSet,
           if bool_decide (ids = []) then []
           else [(videos, Videos.idParams apiKey ids)])) as Hfetch.
  { rewrite fetchByIds_run. unfold workingSet.
    case_bool_decide as Hnone; [reflexivity|].
    cbv zeta. fold hydration.
    destruct (Response.ok hydration) eqn:Hhok; [|reflexivity].
    destruct (Hhydration Hnone eq_refl) as [records ->]. reflexivity. }
  destruct (decide (idsOf scoped = [])) as [Hnone|Hsome].
  - assert (retried = true) as Hretried
      by (unfold retried; apply bool_decide_eq_true_2; exact Hnone).
    rewrite Hretried.
    destruct (Response.ok unscoped) eqn:Huok.
    + destruct (Hagain Hretried eq_refl) as [found Hfound].
      assert (ids = Videos.videoIds found) as Hfoundids.
      { unfold ids. rewrite Hretried. unfold idsOf.
        rewrite Hfound. reflexivity. }
      rewrite Hfound. cbn [fmap option_fmap option_map].
      rewrite <- Hfoundids, Hfetch. reflexivity.
    + assert (ids = []) as Hnoids
        by (unfold ids; rewrite Hretried; reflexivity).
      rewrite Hnone at 1. rewrite <- Hnoids at 1. rewrite Hfetch.
      reflexivity.
  - assert (retried = false) as Hretried
      by (unfold retried; apply bool_decide_eq_false_2; exact Hsome).
    rewrite Hretried.
    assert (ids = idsOf scoped) as Hsame
      by (unfold ids; rewrite Hretried; reflexivity).
    rewrite <- Hsame, Hfetch. reflexivity.
Qed.

Lemma GET_fallback_found :
  Response.ok scoped = true ->
  is_Some (read scoped) ->
  (retried = true -> Response.ok unscoped = true -> is_Some (read unscoped)) ->
  (ids ≠ [] -> Response.ok hydration = true -> is_Some (read hydration)) ->
  outcome =
  (let '(r, more) :=
     run up (Videos.respond Number env apiKey region category sort shorts
               (Some (Listing.mk (Some workingSet)))) in
   (r, [primary; (search, scopedParams)]
       ++ (if retried then [(search, unscopedParams)] else [])
       ++ (if bool_decide (ids = []) then []
           else [(videos, Videos.idParams apiKey ids)])
       ++ more)).
Proof using credential notFound specific.
  intros Hok Hread Hagain Hhydration.
  rewrite GET_fallback, (fallback_found Hok Hread Hagain Hhydration).
  destruct (run up (Videos.respond _ _ _ _ _ _ _ _)) as [r more].
  cbn [app]. rewrite <- app_assoc. reflexivity.
Qed.

(** C1 (amended). On a 404 of the primary call for a specific category,
    the handler issues a search scoped to the category and the region,
    ordered by view count, with page size 24.  If that search does not
    succeed, the handler stops there and, its status being one a response
    with a body may have, answers with that status and its body text.
    Otherwise, the bodies of the successful answers being readable: if the
    search yields no identifier, the same search is issued once more
    without the region; then, when at least one identifier was collected,
    all of them (no bound is applied locally) are hydrated by one
    videos-by-id call, and the hydrated records (none when nothing was
    collected or when the hydration call does not succeed) are the working
    set the answer is built from.  The identifiers a search yields are
    those of all its items that have one, in order; they are at most 24
    whenever each search answer holds at most 24 items. *)
Theorem fallback_searches_then_hydrates :
  (Params.get "videoCategoryId" scopedParams = Some category
   /\ Params.get "regionCode" scopedParams = Some region
   /\ Params.get "order" scopedParams = Some "viewCount"
   /\ Params.get "maxResults" scopedParams = Some "24"
   /\ Params.get "regionCode" unscopedParams = None
   /\ forall k : string, k ≠ "regionCode" ->
        Params.get k unscopedParams = Params.get k scopedParams)
  /\ (Response.ok scoped = false ->
      NextResponse.accepts (Response.status scoped) = true ->
      outcome =
        (Some (NextResponse.mk
                 (ErrorBody "YouTube API error" (Some (Response.text scoped)))
                 (Response.status scoped)),
         [primary; (search, scopedParams)]))
  /\ (Response.ok scoped = true ->
      is_Some (read scoped) ->
      (retried = true -> Response.ok unscoped = true ->
       is_Some (read unscoped)) ->
      (ids ≠ [] -> Response.ok hydration = true -> is_Some (read hydration)) ->
      Params.get "id" (Videos.idParams apiKey ids) = Some (join "," ids)
      /\ outcome =
         (let '(r, more) :=
            run up (Videos.respond Number env apiKey region category sort
                      shorts (Some (Listing.mk (Some workingSet)))) in
          (r, [primary; (search, scopedParams)]
              ++ (if retried then [(search, unscopedParams)] else [])
              ++ (if bool_decide (ids = []) then []
                  else [(videos, Videos.idParams apiKey ids)])
              ++ more)))
  /\ (idsOf scoped = identifiersOf (read scoped ?? [])
      /\ idsOf unscoped = identifiersOf (read unscoped ?? []))
  /\ ((length (read scoped ?? []) <= 24)%nat ->
      (length (read unscoped ?? []) <= 24)%nat ->
      (length ids <= 24)%nat).
Proof using credential notFound specific.
  split; [|split; [|split; [|split]]]; cycle 3.
  { split; apply videoIds_identifiersOf. }
  { intros Hscoped Hunscoped.
    pose proof (videoIds_length (read scoped ?? [])) as H1.
    pose proof (videoIds_length (read unscoped ?? [])) as H2.
    fold (idsOf scoped) in H1. fold (idsOf unscoped) in H2.
    unfold ids, retried.
    destruct (bool_decide (idsOf scoped = []));
      [destruct (Response.ok unscoped)|]; simpl.
    - etransitivity; [exact H2|exact Hunscoped].
    - lia.
    - etransitivity; [exact H1|exact Hscoped]. }
  - unfold scopedParams, unscopedParams, Videos.buildSearchParams.
    repeat split; try reflexivity.
    intros k Hk. rewrite get_set.
    rewrite bool_decide_eq_false_2; [reflexivity|].
    intros Heq. apply Hk. symmetry. exact Heq.
  - intros Hfail Haccepted. rewrite GET_fallback, fallback_run. cbv zeta.
    fold scopedParams scoped. unfold relay. rewrite Hfail, Haccepted.
    reflexivity.
  - intros Hok Hread Hagain Hhydration. split; [reflexivity|].
    apply GET_fallback_found; assumption.
Qed.

(** C6. On a 404 of the primary call for a specific category, when the
    region-scoped search and the unscoped search both succeed and yield no
    video identifier, the handler answers with status 200 and an empty item
    list, the body carrying the requested region, category, sort and shorts
    parameters; it has issued the primary call and the two searches. *)
Theorem empty_fallback_is_an_empty_success :
  Response.ok scoped = true -> is_Some (read scoped) -> idsOf scoped = [] ->
  Response.ok unscoped = true -> is_Some (read unscoped) ->
  idsOf unscoped = [] ->
  outcome =
    (Some (NextResponse.mk
             (VideosBody [] (now env) region category sort shorts) 200),
     [primary; (search, scopedParams); (search, unscopedParams)]).
Proof using credential notFound specific.
  intros Hok Hread Hnone Huok Huread Hunone.
  assert (retried = true) as Hretried
    by (unfold retried; apply bool_decide_eq_true_2; exact Hnone).
  assert (ids = []) as Hids
    by (unfold ids; rewrite Hretried, Huok; exact Hunone).
  assert (workingSet = []) as Hws
    by (unfold workingSet; rewrite bool_decide_eq_true_2 by exact Hids;
        reflexivity).
  rewrite GET_fallback_found; try assumption.
  - rewrite Hws, respond_nothing, Hretried.
    rewrite bool_decide_eq_true_2 by exact Hids. reflexivity.
  - intros _ _. exact Huread.
  - intros Hsome. contradiction.
Qed.

(** C10. On a 404 of the primary call for a specific category, after a
    region-scoped search that succeeded: when it yielded no identifier and
    the unscoped search does not succeed, or when it yielded identifiers
    and their hydration does not succeed, the handler still answers with
    status 200 and an empty item list; the failed call's status and body
    do not reach the caller. *)
Theorem fallback_failures_are_swallowed :
  Response.ok scoped = true -> is_Some (read scoped) ->
  (idsOf scoped = [] -> Response.ok unscoped = false ->
   outcome =
     (Some (NextResponse.mk
              (VideosBody [] (now env) region category sort shorts) 200),
      [primary; (search, scopedParams); (search, unscopedParams)]))
  /\ (idsOf scoped ≠ [] ->
      Response.ok (up videos (Videos.idParams apiKey (idsOf scoped))) = false ->
      outcome =
        (Some (NextResponse.mk
                 (VideosBody [] (now env) region category sort shorts) 200),
         [primary; (search, scopedParams);
          (videos, Videos.idParams apiKey (idsOf scoped))])).
Proof using credential notFound specific.
  intros Hok Hread. split.
  - intros Hnone Hufail.
    assert (retried = true) as Hretried
      by (unfold retried; apply bool_decide_eq_true_2; exact Hnone).
    assert (ids = []) as Hids
      by (unfold ids; rewrite Hretried, Hufail; reflexivity).
    assert (workingSet = []) as Hws
      by (unfold workingSet; rewrite bool_decide_eq_true_2 by exact Hids;
          reflexivity).
    rewrite GET_fallback_found; try assumption.
    + rewrite Hws, respond_nothing, Hretried.
      rewrite bool_decide_eq_true_2 by exact Hids. reflexivity.
    + intros _ Huok. rewrite Hufail in Huok. discriminate.
    + intros Hsome. contradiction.
  - intros Hsome Hhfail.
    assert (retried = false) as Hretried
      by (unfold retried; apply bool_decide_eq_false_2; exact Hsome).
    assert (ids = idsOf scoped) as Hids
      by (unfold ids; rewrite Hretried; reflexivity).
    assert (Response.ok hydration = false) as Hhok
      by (unfold hydration; rewrite Hids; exact Hhfail).
    assert (workingSet = []) as Hws.
    { unfold workingSet. case_bool_decide; [reflexivity|].
      rewrite Hhok. reflexivity. }
    rewrite GET_fallback_found; try assumption.
    + rewrite Hws, respond_nothing, Hretried.
      rewrite bool_decide_eq_false_2 by (rewrite Hids; exact Hsome).
      rewrite Hids. reflexivity.
    + intros Htrue. rewrite Hretried in Htrue. discriminate.
    + intros _ Htrue. rewrite Hhok in Htrue. discriminate.
Qed.

End Fallback.

(** ** The duration parser *)

Lemma append_String (c : ascii) (s rest : string) :
  String c s +:+ rest = String c (s +:+ rest).
Proof. reflexivity. Qed.

Lemma digits_stops (rest : string) :
  stops rest -> Duration.digits rest = ("", rest).
Proof.
  destruct rest as [|c rest]; simpl; [reflexivity|].
  intros ->. reflexivity.
Qed.

Lemma digits_uint (d : Decimal.uint) (rest : string) :
  stops rest ->
  Duration.digits (NilEmpty.string_of_uint d +:+ rest) =
  (NilEmpty.string_of_uint d, rest).
Proof.
  intros Hrest.
  induction d as [|d IH|d IH|d IH|d IH|d IH|d IH|d IH|d IH|d IH|d IH];
    [apply digits_stops; exact Hrest|..];
    cbn [NilEmpty.string_of_uint]; rewrite append_String;
    cbn [Duration.digits];
    match goal with
    | |- context [Duration.is_digit ?c] =>
        change (Duration.is_digit c) with true
    end;
    cbv iota; rewrite IH; reflexivity.
Qed.

Lemma Number_digits_acc (d : Decimal.uint) (acc : positive) :
  Duration.Number_digits_from (N.pos acc) (NilEmpty.string_of_uint d) =
  N.pos (Pos.of_uint_acc d acc).
Proof.
  revert acc.
  induction d as [|d IH|d IH|d IH|d IH|d IH|d IH|d IH|d IH|d IH|d IH];
    intros acc; [reflexivity|..];
    cbn [NilEmpty.string_of_uint Duration.Number_digits_from Pos.of_uint_acc];
    rewrite <- IH; f_equal;
    match goal with
    | |- context [(N_of_ascii ?c - 48)%N] =>
        let k := eval vm_compute in (N_of_ascii c - 48)%N in
        change (N_of_ascii c - 48)%N with k
    end;
    lia.
Qed.

Lemma Number_digits_uint (d : Decimal.uint) :
  Duration.Number_digits (NilEmpty.string_of_uint d) = Pos.of_uint d.
Proof.
  unfold Duration.Number_digits.
  induction d as [|d IH|d IH|d IH|d IH|d IH|d IH|d IH|d IH|d IH|d IH];
    [reflexivity|exact IH|..];
    cbn [NilEmpty.string_of_uint Duration.Number_digits_from Pos.of_uint];
    rewrite <- Number_digits_acc; reflexivity.
Qed.

Lemma String_of_N_uint (n : N) :
  String_of_N n = NilEmpty.string_of_uint (N.to_uint n).
Proof.
  unfold String_of_N, NilZero.string_of_uint.
  destruct (N.to_uint n) eqn:Hn; try reflexivity.
  destruct n as [|p]; [discriminate|].
  exfalso. exact (DecimalPos.Unsigned.to_uint_nonnil p Hn).
Qed.

Lemma String_of_N_nonempty (n : N) : String_of_N n ≠ "".
Proof.
  rewrite String_of_N_uint. intros Hempty.
  destruct (N.to_uint n) eqn:Hn; try discriminate.
  destruct n as [|p]; [discriminate|].
  exact (DecimalPos.Unsigned.to_uint_nonnil p Hn).
Qed.

Lemma Number_digits_String_of_N (n : N) :
  Duration.Number_digits (String_of_N n) = n.
Proof.
  rewrite String_of_N_uint, Number_digits_uint.
  apply DecimalN.Unsigned.of_to.
Qed.

Lemma group_hit (unit : ascii) (n : N) (rest : string) :
  Duration.is_digit unit = false ->
  Duration.group unit (String_of_N n +:+ String unit rest) =
  (Some (String_of_N n), rest).
Proof.
  intros Hunit. unfold Duration.group.
  rewrite String_of_N_uint, digits_uint by exact Hunit.
  rewrite <- String_of_N_uint.
  destruct (String_of_N n) eqn:Hn; [destruct (String_of_N_nonempty n Hn)|].
  rewrite bool_decide_eq_true_2 by reflexivity. reflexivity.
Qed.

Lemma group_other (unit c : ascii) (n : N) (rest : string) :
  Duration.is_digit c = false -> c ≠ unit ->
  Duration.group unit (String_of_N n +:+ String c rest) =
  (None, String_of_N n +:+ String c rest).
Proof.
  intros Hc Hne. unfold Duration.group.
  rewrite String_of_N_uint, digits_uint by exact Hc.
  rewrite <- String_of_N_uint.
  destruct (String_of_N n) eqn:Hn; [destruct (String_of_N_nonempty n Hn)|].
  rewrite bool_decide_eq_false_2 by exact Hne. reflexivity.
Qed.

Lemma group_empty (unit : ascii) : Duration.group unit "" = (None, "").
Proof. reflexivity. Qed.

Lemma exec_encode (h m s : option N) :
  Duration.exec (encode h m s) =
  Some (String_of_N <$> h, String_of_N <$> m, String_of_N <$> s).
Proof.
  unfold encode.
  change (Duration.exec ("PT" +:+ ?x)) with (Some (Duration.after_PT x)).
  f_equal. unfold Duration.after_PT, component.
  destruct h as [h|], m as [m|], s as [s|];
    repeat first
      [ rewrite group_hit by reflexivity
      | rewrite group_other by (reflexivity || discriminate)
      | rewrite group_empty ];
    reflexivity.
Qed.

Lemma capture_String_of_N (value : option N) :
  Duration.capture (String_of_N <$> value) = (value ?? 0)%N.
Proof.
  destruct value as [n|]; [apply Number_digits_String_of_N|reflexivity].
Qed.

Lemma exec_None (s : string) :
  (forall a b : string, s ≠ a +:+ "PT" +:+ b) -> Duration.exec s = None.
Proof.
  induction s as [|c s IH]; intros Hno; [reflexivity|].
  cbn [Duration.exec]. destruct s as [|c' s']; [reflexivity|].
  destruct (bool_decide (c = "P"%char) && bool_decide (c' = "T"%char))
    eqn:HPT.
  - apply andb_true_iff in HPT as [HP HT].
    apply bool_decide_eq_true_1 in HP, HT. subst c c'.
    exfalso. apply (Hno "" s'). reflexivity.
  - apply IH. intros a b Heq.
    apply (Hno (String c a) b). rewrite Heq. reflexivity.
Qed.

Lemma padStart2_digit (n : N) :
  (n < 10)%N -> padStart2 (String_of_N n) = "0" +:+ String_of_N n.
Proof.
  intros Hn.
  destruct n as [|p]; [reflexivity|].
  do 4 (destruct p as [p|p|]; try lia; try reflexivity).
Qed.

(** C5 (amended). "PT1H2M3S" is 3723 seconds and is displayed "1:02:03";
    "PT5M9S" is 309 seconds and is displayed "5:09"; an empty or absent
    input is 0 seconds and is displayed as the empty string.  In general, a
    duration written with any of its hour, minute and second components
    counts the absent ones as zero and is displayed H:MM:SS when it has
    hours and M:SS otherwise (stated for durations below 2^53 seconds,
    where the arithmetic of the source is exact); and every input in which
    "PT" does not occur is 0 seconds and is displayed as the empty string.
    Both functions are total: no input raises an error. *)
Theorem duration_is_parsed_and_displayed :
  (Duration.parseIsoDuration (Some "PT1H2M3S") = 3723%N
   /\ Duration.formatDuration (Some "PT1H2M3S") = "1:02:03")
  /\ (Duration.parseIsoDuration (Some "PT5M9S") = 309%N
      /\ Duration.formatDuration (Some "PT5M9S") = "5:09")
  /\ (Duration.parseIsoDuration (Some "") = 0%N
      /\ Duration.formatDuration (Some "") = ""
      /\ Duration.parseIsoDuration None = 0%N
      /\ Duration.formatDuration None = "")
  /\ (forall h m s : option N,
        let hours := (h ?? 0)%N in
        let minutes := (m ?? 0)%N in
        let seconds := (s ?? 0)%N in
        (hours * 3600 + minutes * 60 + seconds < 2 ^ 53)%N ->
        Duration.parseIsoDuration (Some (encode h m s)) =
          (hours * 3600 + minutes * 60 + seconds)%N
        /\ Duration.formatDuration (Some (encode h m s)) =
           if (0 <? hours)%N
           then String_of_N hours +:+ ":" +:+
                padStart2 (String_of_N minutes) +:+ ":" +:+
                padStart2 (String_of_N seconds)
           else String_of_N minutes +:+ ":" +:+
                padStart2 (String_of_N seconds))
  /\ (forall n : N, (n < 10)%N ->
        padStart2 (String_of_N n) = "0" +:+ String_of_N n)
  /\ (forall input : string,
        (forall a b : string, input ≠ a +:+ "PT" +:+ b) ->
        Duration.parseIsoDuration (Some input) = 0%N
        /\ Duration.formatDuration (Some input) = "").
Proof.
  split; [split; vm_compute; reflexivity|].
  split; [split; vm_compute; reflexivity|].
  split; [repeat split|].
  split; [|split; [exact padStart2_digit|]].
  - intros h m s hours minutes seconds _.
    unfold Duration.parseIsoDuration, Duration.formatDuration.
    change (falsy (Some (encode h m s))) with false.
    change (Some (encode h m s) ?? "") with (encode h m s).
    rewrite exec_encode, !capture_String_of_N. split; reflexivity.
  - intros input Hno.
    unfold Duration.parseIsoDuration, Duration.formatDuration.
    change (Some input ?? "") with input.
    rewrite (exec_None input Hno).
    destruct (falsy (Some input)); split; reflexivity.
Qed.

Lemma duration_witness :
  encode (Some 1%N) (Some 2%N) (Some 3%N) = "PT1H2M3S"
  /\ (1 * 3600 + 2 * 60 + 3 < 2 ^ 53)%N
  /\ Duration.parseIsoDuration (Some "PT1H2M3S") = (1 * 3600 + 2 * 60 + 3)%N
  /\ Duration.formatDuration (Some "PT1H2M3S") =
     String_of_N 1 +:+ ":" +:+ padStart2 (String_of_N 2) +:+ ":" +:+
     padStart2 (String_of_N 3)
  /\ padStart2 (String_of_N 3) = "03".
Proof.
  assert (1 * 3600 + 2 * 60 + 3 < 2 ^ 53)%N as Hbound
    by (vm_compute; reflexivity).
  assert (3 < 10)%N as Hdigit by (vm_compute; reflexivity).
  destruct duration_is_parsed_and_displayed
    as (_ & _ & _ & Hgeneral & Hpad & _).
  split; [reflexivity|]. split; [exact Hbound|].
  split; [exact (proj1 (Hgeneral (Some 1%N) (Some 2%N) (Some 3%N) Hbound))|].
  split; [exact (proj2 (Hgeneral (Some 1%N) (Some 2%N) (Some 3%N) Hbound))|].
  exact (Hpad 3%N Hdigit).
Defined.

(** C5 as stated fails: "xPT5M9S" is not a duration (the pattern,
    anchored, does not match it), yet it is parsed as 309 seconds and
    displayed "5:09". *)
Lemma malformed_duration_is_still_parsed :
  wellFormed "xPT5M9S" = false
  /\ Duration.parseIsoDuration (Some "xPT5M9S") = 309%N
  /\ Duration.formatDuration (Some "xPT5M9S") = "5:09"
  /\ ¬ malformed_yields_nothing.
Proof.
  split; [reflexivity|]. split; [vm_compute; reflexivity|].
  split; [vm_compute; reflexivity|].
  intros Hclaim. destruct (Hclaim "xPT5M9S" eq_refl) as [Hzero _].
  vm_compute in Hzero. discriminate Hzero.
Qed.

(** ** The fallback on the sample upstreams *)

(** C1 as stated fails: when the scoped search is refused (403), the
    handler answers 403 with the body text of the search after two calls;
    nothing is hydrated and there is no working set. *)
Lemma refused_search_ends_the_fallback :
  let up := Sample.play Sample.refused in
  let request := Sample.query "25" "views" "include" in
  Response.status (up videos (Videos.listParams "secret" "KR" "25")) = 404
  /\ Response.status
       (up search (Videos.buildSearchParams "secret" "KR" "25" true)) = 403
  /\ run up (Videos.GET Sample.Number Sample.env request) =
       (Some (NextResponse.mk
                (ErrorBody "YouTube API error" (Some "quotaExceeded")) 403),
        [(videos, Videos.listParams "secret" "KR" "25");
         (search, Videos.buildSearchParams "secret" "KR" "25" true)])
  /\ ¬ fallback_as_stated Sample.Number up Sample.env request.
Proof.
  intros up request.
  split; [reflexivity|]. split; [reflexivity|].
  split; [vm_compute; reflexivity|].
  intros Hclaim.
  assert ("25" ≠ "all") as Hspecific by discriminate.
  destruct (Hclaim eq_refl eq_refl Hspecific) as [_ Hrun].
  vm_compute in Hrun. discriminate Hrun.
Qed.

Lemma fallback_witness :
  let up := Sample.play Sample.broadened in
  let request := Sample.query "25" "likes" "include" in
  falsy (YOUTUBE_API_KEY Sample.env) = false
  /\ Response.status (up videos (Videos.listParams "secret" "KR" "25")) = 404
  /\ run up (Videos.GET Sample.Number Sample.env request) =
     (let '(r, more) :=
        run up (Videos.respond Sample.Number Sample.env "secret" "KR" "25"
                  "likes" "include" (Some (Listing.mk (Some Sample.three)))) in
      (r, [(videos, Videos.listParams "secret" "KR" "25");
           (search, Videos.buildSearchParams "secret" "KR" "25" true);
           (search, Videos.buildSearchParams "secret" "KR" "25" false);
           (videos, Videos.idParams "secret" ["a"; "b"; "c"])]
          ++ more)).
Proof.
  intros up request.
  split; [reflexivity|]. split; [reflexivity|].
  assert ("25" ≠ "all") as Hspecific by discriminate.
  destruct (fallback_searches_then_hydrates
              Sample.Number up Sample.env request eq_refl eq_refl Hspecific)
    as (_ & _ & Hfound & _).
  refine (proj2 (Hfound eq_refl _ _ _)).
  - eexists. reflexivity.
  - intros _ _. eexists. reflexivity.
  - intros _ _. eexists. reflexivity.
Defined.

Lemma empty_fallback_witness :
  let up := Sample.play Sample.nothing in
  let request := Sample.query "25" "likes" "exclude" in
  falsy (YOUTUBE_API_KEY Sample.env) = false
  /\ Response.status (up videos (Videos.listParams "secret" "KR" "25")) = 404
  /\ idsOf (up search (Videos.buildSearchParams "secret" "KR" "25" true)) = []
  /\ idsOf (up search (Videos.buildSearchParams "secret" "KR" "25" false)) = []
  /\ run up (Videos.GET Sample.Number Sample.env request) =
       (Some (NextResponse.mk
                (VideosBody [] "2024-05-01T00:00:00.000Z" "KR" "25" "likes"
                            "exclude") 200),
        [(videos, Videos.listParams "secret" "KR" "25");
         (search, Videos.buildSearchParams "secret" "KR" "25" true);
         (search, Videos.buildSearchParams "secret" "KR" "25" false)]).
Proof.
  intros up request.
  split; [reflexivity|]. split; [reflexivity|].
  split; [reflexivity|]. split; [reflexivity|].
  assert ("25" ≠ "all") as Hspecific by discriminate.
  refine (empty_fallback_is_an_empty_success
            Sample.Number up Sample.env request eq_refl eq_refl Hspecific
            eq_refl _ eq_refl eq_refl _ eq_refl).
  - eexists. reflexivity.
  - eexists. reflexivity.
Defined.

Lemma swallowed_failures_witness :
  let request := Sample.query "25" "views" "include" in
  let empty :=
    NextResponse.mk
      (VideosBody [] "2024-05-01T00:00:00.000Z" "KR" "25" "views" "include")
      200 in
  run (Sample.play Sample.unscopedFails)
      (Videos.GET Sample.Number Sample.env request) =
    (Some empty,
     [(videos, Videos.listParams "secret" "KR" "25");
      (search, Videos.buildSearchParams "secret" "KR" "25" true);
      (search, Videos.buildSearchParams "secret" "KR" "25" false)])
  /\ run (Sample.play Sample.hydrationFails)
         (Videos.GET Sample.Number Sample.env request) =
    (Some empty,
     [(videos, Videos.listParams "secret" "KR" "25");
      (search, Videos.buildSearchParams "secret" "KR" "25" true);
      (videos, Videos.idParams "secret" ["a"; "b"])]).
Proof.
  intros request empty.
  assert ("25" ≠ "all") as Hspecific by discriminate.
  assert (forall X (x : X), is_Some (Some x)) as Hsome
    by (intros X x; eexists; reflexivity).
  split.
  - refine (proj1 (fallback_failures_are_swallowed
                     Sample.Number (Sample.play Sample.unscopedFails)
                     Sample.env request eq_refl eq_refl Hspecific
                     eq_refl (Hsome _ _))
                  eq_refl eq_refl).
  - refine (proj2 (fallback_failures_are_swallowed
                     Sample.Number (Sample.play Sample.hydrationFails)
                     Sample.env request eq_refl eq_refl Hspecific
                     eq_refl (Hsome _ _))
                  _ eq_refl).
    discriminate.
Defined.

Lemma channel_thumbnails_witness :
  let up := Sample.play Sample.noAvatars in
  let request := Sample.query "all" "views" "include" in
  falsy (YOUTUBE_API_KEY Sample.env) = false
  /\ run up (Videos.retrieve "secret" "KR" "all") =
       (Some (inr (Some (Listing.mk (Some Sample.three)))),
        [(videos, Videos.listParams "secret" "KR" "all")])
  /\ Videos.channelIdsOf Sample.three = ["UC1"; "UC2"]
  /\ Response.ok
       (up channels (Videos.channelParams "secret" ["UC1"; "UC2"])) = false
  /\ (run up (Videos.GET Sample.Number Sample.env request)).1 =
       Some (NextResponse.mk
               (VideosBody
                  (List.map (Videos.present ∅)
                     (Videos.rank Sample.Number "views" Sample.three))
                  "2024-05-01T00:00:00.000Z" "KR" "all" "views" "include")
               200)
  /\ List.map ApiVideo.channelThumbnail
       (List.map (Videos.present ∅) Sample.three)
     = [str ""; str ""; str ""].
Proof.
  intros up request.
  split; [reflexivity|]. split; [reflexivity|].
  split; [reflexivity|]. split; [reflexivity|].
  destruct (proj2 (proj2 (proj2 (proj2
              (channel_thumbnails_are_looked_up_once
                 Sample.Number up Sample.env request
                 (Listing.mk (Some Sample.three))
                 [(videos, Videos.listParams "secret" "KR" "all")]
                 eq_refl eq_refl)))) eq_refl) as [Hanswer Hthumbs].
  split; [exact Hanswer|].
  cbn [List.map Sample.three]. rewrite !Hthumbs. reflexivity.
Defined.

(** The handler hydrates every identifier the search yields: asked for 24
    results, an upstream that answers with 25 identifiers has all 25 of
    them sent to the videos-by-id call. *)
Lemma collected_identifiers_are_not_truncated :
  let up := Sample.play Sample.crowded in
  let ids :=
    idsOf (up search (Videos.buildSearchParams "secret" "KR" "25" true)) in
  length ids = 25%nat
  /\ (run up (Videos.GET Sample.Number Sample.env
                (Sample.query "25" "views" "include"))).2 =
     [(videos, Videos.listParams "secret" "KR" "25");
      (search, Videos.buildSearchParams "secret" "KR" "25" true);
      (videos, Videos.idParams "secret" ids)].
Proof. split; vm_compute; reflexivity. Qed.

(** ** No call is issued twice *)

Lemma fetchByIds_calls (up : Upstream) (apiKey : string) (ids : list string) :
  (run up (Videos.fetchByIds apiKey ids)).2 =
  if bool_decide (ids = []) then []
  else [(videos, Videos.idParams apiKey ids)].
Proof. rewrite fetchByIds_run. case_bool_decide; reflexivity. Qed.

Lemma searchAgain_calls (up : Upstream) (apiKey region category : string)
    (ids : list string) :
  (run up (Videos.searchAgain apiKey region category ids)).2 =
  if bool_decide (ids = [])
  then [(search, Videos.buildSearchParams apiKey region category false)]
  else [].
Proof. rewrite searchAgain_run. case_bool_decide; reflexivity. Qed.

Lemma searches_differ (apiKey region category : string) :
  (search, Videos.buildSearchParams apiKey region category true) ≠
  (search, Videos.buildSearchParams apiKey region category false).
Proof.
  intros Heq. apply (f_equal (fun c : Call => length c.2)) in Heq.
  discriminate Heq.
Qed.

Lemma listing_is_not_hydration (apiKey region category : string)
    (ids : list string) :
  (videos, Videos.listParams apiKey region category) ≠
  (videos, Videos.idParams apiKey ids).
Proof.
  intros Heq.
  apply (f_equal (fun c : Call => Params.get "chart" c.2)) in Heq.
  unfold Videos.listParams in Heq. cbn [snd] in Heq.
  repeat case_bool_decide; rewrite ?get_set in Heq;
    vm_compute in Heq; discriminate Heq.
Qed.

(** A run of the videos handler never issues the same call twice, so an
    upstream that answers by the call alone ([Upstream]) loses nothing
    against one that keeps a history. *)
Lemma calls_are_distinct (Number : string -> option Qc) (up : Upstream)
    (env : Env) (searchParams : URLSearchParams) :
  NoDup (run up (Videos.GET Number env searchParams)).2.
Proof.
  destruct (falsy (YOUTUBE_API_KEY env)) eqn:Hkey.
  { unfold Videos.GET. rewrite Hkey. apply NoDup_nil_2. }
  destruct (falsy_false _ Hkey) as (k & Hk & Hne).
  rewrite (GET_run Number up k _ _ env searchParams Hk Hne eq_refl eq_refl).
  generalize (Params.get "region" searchParams ?? "KR")
             (Params.get "category" searchParams ?? "all")
             (Params.get "sort" searchParams ?? "views")
             (Params.get "shorts" searchParams ?? "include").
  intros region category sort shorts.
  pose proof (searches_differ k region category) as Hsearches.
  pose proof (listing_is_not_hydration k region category) as Hhydrate.
  assert (forall (data : option (Listing.t VideoItem.t)) (calls : list Call),
             NoDup calls -> (forall c, c ∈ calls -> c.1 ≠ channels) ->
             NoDup (let '(r, more) :=
                      run up (Videos.respond Number env k region category
                                sort shorts data) in
                    (r, calls ++ more)).2) as Hrespond.
  { intros data calls Hcalls Hnot.
    destruct data as [data|]; [|simpl; rewrite app_nil_r; exact Hcalls].
    rewrite respond_run, lookupThumbnails_run.
    case_bool_decide; simpl; [rewrite app_nil_r; exact Hcalls|].
    apply NoDup_app. split; [exact Hcalls|]. split; [|apply NoDup_singleton].
    intros c Hc Hin. apply list_elem_of_singleton in Hin. subst c.
    exact (Hnot _ Hc eq_refl). }
  rewrite retrieve_run. cbv zeta.
  destruct (Response.ok (up videos _)).
  { destruct (Response.json (up videos _)) as [| |data];
      [simpl; apply NoDup_singleton..|].
    apply (Hrespond (Some data) [_]); [apply NoDup_singleton|].
    intros c Hc. apply list_elem_of_singleton in Hc. subst c. discriminate. }
  destruct (_ && _); [|destruct (relay _ _); simpl; apply NoDup_singleton].
  rewrite fallback_run. cbv zeta.
  destruct (Response.ok (up search _)).
  2:{ destruct (relay _ _); simpl;
        (apply NoDup_cons_2; [|apply NoDup_singleton]);
        intros Hin; apply list_elem_of_singleton in Hin; discriminate Hin. }
  destruct (read (up search _)) as [items|].
  2:{ simpl. apply NoDup_cons_2; [|apply NoDup_singleton].
      intros Hin. apply list_elem_of_singleton in Hin. discriminate Hin. }
  pose proof (searchAgain_calls up k region category (Videos.videoIds items))
    as Hagain.
  destruct (run up (Videos.searchAgain _ _ _ _)) as [[ids|] again].
  - pose proof (fetchByIds_calls up k ids) as Hfetch.
    destruct (run up (Videos.fetchByIds k ids)) as [records hydration].
    cbn [snd] in Hagain, Hfetch. subst again hydration.
    assert (NoDup
              ((videos, Videos.listParams k region category)
               :: (search, Videos.buildSearchParams k region category true)
               :: (if bool_decide (Videos.videoIds items = [])
                   then [(search,
                          Videos.buildSearchParams k region category false)]
                   else [])
               ++ (if bool_decide (ids = []) then []
                   else [(videos, Videos.idParams k ids)]))
            /\ forall c,
                c ∈ ((videos, Videos.listParams k region category)
                     :: (search, Videos.buildSearchParams k region category
                                   true)
                     :: (if bool_decide (Videos.videoIds items = [])
                         then [(search,
                                Videos.buildSearchParams k region category
                                  false)]
                         else [])
                     ++ (if bool_decide (ids = []) then []
                         else [(videos, Videos.idParams k ids)]))
                -> c.1 ≠ channels) as [Hdistinct Hnone].
    { split.
      - destruct (bool_decide (Videos.videoIds items = [])),
          (bool_decide (ids = [])); cbn [app];
          repeat (apply NoDup_cons_2;
                  [rewrite ?elem_of_cons, elem_of_nil; intros Hin;
                   repeat (destruct Hin as [Hin|Hin]);
                   first [ contradiction
                         | discriminate Hin
                         | exact (Hhydrate _ Hin)
                         | exact (Hsearches Hin) ]|]);
          apply NoDup_nil_2.
      - intros c Hc.
        destruct (bool_decide (Videos.videoIds items = [])),
          (bool_decide (ids = [])); cbn [app] in Hc;
          rewrite ?elem_of_cons, elem_of_nil in Hc;
          repeat (destruct Hc as [Hc|Hc]); try contradiction;
          subst c; discriminate. }
    destruct records as [records|]; cbn [fmap option_fmap option_map].
    + apply (Hrespond (Some (Listing.mk (Some records)))); assumption.
    + exact Hdistinct.
  - cbn [snd] in Hagain. subst again.
    destruct (bool_decide (Videos.videoIds items = [])); cbn [snd];
      repeat (apply NoDup_cons_2;
              [rewrite ?elem_of_cons, elem_of_nil; intros Hin;
               repeat (destruct Hin as [Hin|Hin]);
               first [ contradiction
                     | discriminate Hin
                     | exact (Hsearches Hin) ]|]);
      apply NoDup_nil_2.
Qed.

(** * Further properties of the two handlers *)

(** ** The categories endpoint *)

Lemma Categories_GET_run (up : Upstream) (env : Env) (apiKey : string) :
  YOUTUBE_API_KEY env = Some apiKey -> apiKey ≠ "" ->
  run up (Categories.GET env) =
  (let response := up videoCategories (Categories.categoryParams apiKey) in
   if Response.ok response then
     (fun items =>
        NextResponse.mk
          (CategoriesBody
             (List.filter Categories.named
                (List.map Categories.toOption items))) 200)
     <$> read response
   else relay (Response.text response) (Response.status response),
   [(videoCategories, Categories.categoryParams apiKey)]).
Proof.
  intros Hkey Hne. unfold Categories.GET. rewrite Hkey. unfold falsy.
  rewrite bool_decide_eq_false_2 by exact Hne.
  change (Some apiKey ?? "") with apiKey.
  rewrite (run_fetch_bind up videoCategories). cbv zeta.
  destruct (Response.ok _); simpl; [|rewrite run_apiError; reflexivity].
  rewrite run_read_bind. destruct (read _); reflexivity.
Qed.

(** X1. With a credential, when the category list call does not succeed,
    the categories endpoint makes that one call and, when the upstream
    status is one a response with a body may have, answers with that
    status and, as [details], the upstream body text; for any other status
    (304, or one outside 200-599) it throws. *)
Theorem categories_failure_is_returned_verbatim
    (up : Upstream) (env : Env) :
  let apiKey := YOUTUBE_API_KEY env ?? "" in
  let call := (videoCategories, Categories.categoryParams apiKey) in
  let response := up videoCategories (Categories.categoryParams apiKey) in
  falsy (YOUTUBE_API_KEY env) = false ->
  Response.ok response = false ->
  run up (Categories.GET env) =
    (if NextResponse.accepts (Response.status response)
     then Some (NextResponse.mk
                  (ErrorBody "YouTube API error"
                             (Some (Response.text response)))
                  (Response.status response))
     else None,
     [call]).
Proof.
  intros apiKey call response Hkey Hfail.
  destruct (falsy_false _ Hkey) as (k & Hk & Hne).
  assert (apiKey = k) as Hapi by (unfold apiKey; rewrite Hk; reflexivity).
  rewrite (Categories_GET_run up env k Hk Hne). rewrite <- Hapi. cbv zeta.
  fold response. rewrite Hfail. reflexivity.
Qed.

Lemma categories_failure_witness :
  let up := Sample.play
              (Sample.mkScript Sample.notFound Sample.notFound Sample.notFound
                 Sample.notFound Sample.twoAvatars
                 (Sample.failure 403 "quotaExceeded")) in
  falsy (YOUTUBE_API_KEY Sample.env) = false
  /\ Response.ok (up videoCategories (Categories.categoryParams "secret"))
     = false
  /\ run up (Categories.GET Sample.env) =
       (Some (NextResponse.mk
                (ErrorBody "YouTube API error" (Some "quotaExceeded")) 403),
        [(videoCategories, Categories.categoryParams "secret")]).
Proof.
  intros up. split; [reflexivity|]. split; [reflexivity|].
  exact (categories_failure_is_returned_verbatim up Sample.env
           eq_refl eq_refl).
Defined.

(** X2. With a credential, when the category list call succeeds with a
    readable body, the categories endpoint answers 200 after that one call
    (for region KR, in Korean), and the categories it returns are, in
    upstream order, exactly the upstream items that have both a non-empty
    id and a non-empty title: no returned option has an empty value or an
    empty label. *)
Theorem categories_are_the_named_items_in_order
    (up : Upstream) (env : Env) (items : list CategoryItem.t) :
  let apiKey := YOUTUBE_API_KEY env ?? "" in
  let params := Categories.categoryParams apiKey in
  let response := up videoCategories params in
  falsy (YOUTUBE_API_KEY env) = false ->
  Response.ok response = true ->
  read response = Some items ->
  exists categories : list CategoryOption.t,
    run up (Categories.GET env) =
      (Some (NextResponse.mk (CategoriesBody categories) 200),
       [(videoCategories, params)])
    /\ (Params.get "regionCode" params = Some "KR"
        /\ Params.get "hl" params = Some "ko"
        /\ Params.get "key" params = Some apiKey)
    /\ categories `sublist_of` (List.map Categories.toOption items)
    /\ (forall option : CategoryOption.t,
          option ∈ categories <->
          CategoryOption.value option ≠ ""
          /\ CategoryOption.label option ≠ ""
          /\ exists item : CategoryItem.t,
              item ∈ items
              /\ CategoryItem.id item = Some (CategoryOption.value option)
              /\ CategoryItem.snippet item ≫= CategoryItem.title =
                 Some (CategoryOption.label option)).
Proof.
  intros apiKey params response Hkey Hok Hread.
  destruct (falsy_false _ Hkey) as (k & Hk & Hne).
  assert (apiKey = k) as Hapi by (unfold apiKey; rewrite Hk; reflexivity).
  exists (List.filter Categories.named (List.map Categories.toOption items)).
  split; [|split; [|split]].
  - rewrite (Categories_GET_run up env k Hk Hne). rewrite <- Hapi. cbv zeta.
    fold params response. rewrite Hok, Hread. reflexivity.
  - repeat split; reflexivity.
  - induction (List.map Categories.toOption items) as [|o l IH]; simpl.
    + constructor.
    + destruct (Categories.named o); [apply sublist_skip|apply sublist_cons];
        exact IH.
  - intros option. rewrite list_elem_of_In, filter_In, in_map_iff.
    unfold Categories.named. rewrite andb_true_iff, !negb_true_iff.
    rewrite !bool_decide_eq_false. split.
    + intros [(item & Hoption & Hitem) [Hvalue Hlabel]].
      split; [exact Hvalue|]. split; [exact Hlabel|].
      exists item. split; [apply list_elem_of_In; exact Hitem|].
      subst option. unfold Categories.toOption in *. simpl in *.
      destruct (CategoryItem.id item) as [v|]; [|contradiction].
      destruct (CategoryItem.snippet item ≫= CategoryItem.title) as [t|];
        [|contradiction].
      split; reflexivity.
    + intros (Hvalue & Hlabel & item & Hitem & Hid & Htitle).
      split; [|split; assumption].
      exists item. split; [|apply list_elem_of_In; exact Hitem].
      unfold Categories.toOption. rewrite Hid, Htitle.
      destruct option. reflexivity.
Qed.

Lemma categories_witness :
  let up := Sample.play Sample.listed in
  falsy (YOUTUBE_API_KEY Sample.env) = false
  /\ Response.ok (up videoCategories (Categories.categoryParams "secret"))
     = true
  /\ exists categories : list CategoryOption.t,
      run up (Categories.GET Sample.env) =
        (Some (NextResponse.mk (CategoriesBody categories) 200),
         [(videoCategories, Categories.categoryParams "secret")])
      /\ categories = [CategoryOption.mk "10" "Music"].
Proof.
  intros up. split; [reflexivity|]. split; [reflexivity|].
  destruct (categories_are_the_named_items_in_order
              up Sample.env
              [ CategoryItem.mk (Some "10")
                  (Some (CategoryItem.mkSnip (Some "Music")));
                CategoryItem.mk (Some "25") None ]
              eq_refl eq_refl eq_refl)
    as (categories & Hrun & _).
  exists categories. split; [exact Hrun|].
  vm_compute in Hrun. congruence.
Defined.

(** ** The primary listing *)

(** X3. With a credential, when the primary listing call succeeds with a
    JSON object, no search and no videos-by-id call is issued: the handler
    issues the primary call, then the channel lookup when the listing names
    a channel, and what it returns is made of records of that listing: the
    returned ids are, in order, the ids of the ranked and filtered listing,
    so every returned id is the id of a listed record and no more records
    are returned than were listed. *)
Theorem listing_success_is_the_working_set
    (Number : string -> option Qc) (up : Upstream) (env : Env)
    (searchParams : URLSearchParams) (data : Listing.t VideoItem.t) :
  let apiKey := YOUTUBE_API_KEY env ?? "" in
  let region := Params.get "region" searchParams ?? "KR" in
  let category := Params.get "category" searchParams ?? "all" in
  let sort := Params.get "sort" searchParams ?? "views" in
  let shorts := Params.get "shorts" searchParams ?? "include" in
  let primary := (videos, Videos.listParams apiKey region category) in
  let listed := Listing.array data in
  let channelIds := Videos.channelIdsOf listed in
  let outcome := run up (Videos.GET Number env searchParams) in
  falsy (YOUTUBE_API_KEY env) = false ->
  Response.ok (up videos (Videos.listParams apiKey region category)) = true ->
  Response.json (up videos (Videos.listParams apiKey region category))
    = object data ->
  outcome.2 =
    primary :: (if bool_decide (channelIds = []) then []
                else [(channels, Videos.channelParams apiKey channelIds)])
  /\ forall r : NextResponse.t,
      outcome.1 = Some r ->
      exists returned : list ApiVideo.t,
        r = NextResponse.mk
              (VideosBody returned (now env) region category sort shorts) 200
        /\ List.map ApiVideo.id returned =
           List.map VideoItem.id
             (Videos.selectShorts shorts (Videos.rank Number sort listed))
        /\ (forall id : string,
              id ∈ List.map ApiVideo.id returned ->
              id ∈ List.map VideoItem.id listed)
        /\ (length returned <= length listed)%nat.
Proof.
  intros apiKey region category sort shorts primary listed channelIds outcome
    Hkey Hok Hjson.
  destruct (falsy_false _ Hkey) as (k & Hk & Hne).
  assert (apiKey = k) as Hapi by (unfold apiKey; rewrite Hk; reflexivity).
  assert (run up (Videos.retrieve apiKey region category) =
          (Some (inr (Some data)), [primary])) as Hretrieve.
  { rewrite retrieve_run. cbv zeta. rewrite Hok, Hjson. reflexivity. }
  assert (outcome =
          let '(thumbs, calls) :=
            run up (Videos.lookupThumbnails apiKey channelIds) in
          (answerOf Number region category env sort shorts listed <$> thumbs,
           primary :: calls)) as Houtcome.
  { subst outcome.
    rewrite (GET_run Number up k region category env searchParams Hk Hne
               eq_refl eq_refl).
    rewrite <- Hapi, Hretrieve. fold sort shorts. rewrite respond_run.
    fold listed channelIds.
    destruct (run up (Videos.lookupThumbnails apiKey channelIds));
      reflexivity. }
  rewrite lookupThumbnails_run in Houtcome. split.
  - rewrite Houtcome. case_bool_decide; reflexivity.
  - intros r Hr.
    assert (exists thumbs, r = answerOf Number region category env sort shorts
                                 listed thumbs) as (thumbs & ->).
    { rewrite Houtcome in Hr.
      destruct (bool_decide (channelIds = [])); cbv zeta in Hr.
      - inversion Hr. eexists. reflexivity.
      - destruct (Response.ok
                    (up channels (Videos.channelParams apiKey channelIds)));
          [destruct (read (up channels
                             (Videos.channelParams apiKey channelIds)))|];
          simpl in Hr; inversion Hr; eexists; reflexivity. }
    set (kept := Videos.selectShorts shorts (Videos.rank Number sort listed)).
    assert (forall item, In item kept -> In item listed) as Hkept.
    { intros item. unfold kept, Videos.selectShorts.
      rewrite rank_byKey. destruct (bool_decide (shorts = "exclude")).
      - rewrite filter_In, <- !list_elem_of_In, Array_sort_Permutation.
        tauto.
      - rewrite <- !list_elem_of_In, Array_sort_Permutation. tauto. }
    assert (length kept <= length listed)%nat as Hlength.
    { unfold kept, Videos.selectShorts.
      destruct (bool_decide (shorts = "exclude")).
      - etransitivity; [apply filter_length_le|].
        rewrite rank_byKey, Array_sort_Permutation. reflexivity.
      - rewrite rank_byKey, Array_sort_Permutation. reflexivity. }
    exists (List.map (Videos.present thumbs) kept).
    split; [reflexivity|]. split; [|split].
    + rewrite map_map. reflexivity.
    + intros id. rewrite map_map. change (fun x => ApiVideo.id _)
        with VideoItem.id.
      rewrite !list_elem_of_In, !in_map_iff.
      intros (item & Hid & Hitem). exists item. split; [exact Hid|].
      apply Hkept. exact Hitem.
    + rewrite length_map. exact Hlength.
Qed.

Lemma listing_success_witness :
  let up := Sample.play Sample.listed in
  let request := Sample.query "all" "likes" "exclude" in
  falsy (YOUTUBE_API_KEY Sample.env) = false
  /\ Response.ok (up videos (Videos.listParams "secret" "KR" "all")) = true
  /\ (run up (Videos.GET Sample.Number Sample.env request)).2 =
       [(videos, Videos.listParams "secret" "KR" "all");
        (channels, Videos.channelParams "secret" ["UC1"; "UC2"])]
  /\ forall r : NextResponse.t,
      (run up (Videos.GET Sample.Number Sample.env request)).1 = Some r ->
      exists returned : list ApiVideo.t,
        r = NextResponse.mk
              (VideosBody returned (now Sample.env) "KR" "all" "likes"
                          "exclude") 200
        /\ List.map ApiVideo.id returned = ["c"; "b"].
Proof.
  intros up request. split; [reflexivity|]. split; [reflexivity|].
  destruct (listing_success_is_the_working_set
              Sample.Number up Sample.env request
              (Listing.mk (Some Sample.three)) eq_refl eq_refl eq_refl)
    as [Hcalls Hreturned].
  split; [exact Hcalls|].
  intros r Hr. destruct (Hreturned r Hr) as (returned & Hbody & Hids & _).
  exists returned. split; [exact Hbody|]. exact Hids.
Defined.

(** X4. With a credential, when the primary listing call succeeds but its
    body is the JSON value null, the handler answers 500 with the detail
    "Empty response" after that one call: it neither throws nor falls
    back. *)
Theorem null_listing_is_an_empty_response
    (Number : string -> option Qc) (up : Upstream) (env : Env)
    (searchParams : URLSearchParams) :
  let apiKey := YOUTUBE_API_KEY env ?? "" in
  let region := Params.get "region" searchParams ?? "KR" in
  let category := Params.get "category" searchParams ?? "all" in
  let response := up videos (Videos.listParams apiKey region category) in
  falsy (YOUTUBE_API_KEY env) = false ->
  Response.ok response = true ->
  Response.json response = null ->
  run up (Videos.GET Number env searchParams) =
    (Some (NextResponse.mk
             (ErrorBody "YouTube API error" (Some "Empty response")) 500),
     [(videos, Videos.listParams apiKey region category)]).
Proof.
  intros apiKey region category response Hkey Hok Hnull.
  destruct (falsy_false _ Hkey) as (k & Hk & Hne).
  assert (apiKey = k) as Hapi by (unfold apiKey; rewrite Hk; reflexivity).
  rewrite (GET_run Number up k region category env searchParams Hk Hne
             eq_refl eq_refl).
  rewrite retrieve_run. rewrite <- Hapi. cbv zeta. fold response.
  rewrite Hok, Hnull. reflexivity.
Qed.

Lemma null_listing_witness :
  let up := Sample.play
              (Sample.mkScript (Response.mk 200 "null" null) Sample.notFound
                 Sample.notFound Sample.notFound Sample.twoAvatars
                 Sample.someCategories) in
  falsy (YOUTUBE_API_KEY Sample.env) = false
  /\ run up (Videos.GET Sample.Number Sample.env
               (Sample.query "all" "views" "include")) =
       (Some (NextResponse.mk
                (ErrorBody "YouTube API error" (Some "Empty response")) 500),
        [(videos, Videos.listParams "secret" "KR" "all")]).
Proof.
  intros up. split; [reflexivity|].
  exact (null_listing_is_an_empty_response
           Sample.Number up Sample.env
           (Sample.query "all" "views" "include") eq_refl eq_refl eq_refl).
Defined.

(** ** What a run of the videos handler looks like *)

Lemma relayed_failing (details : string) (status : Z) :
  failing status -> videosAnswer (relayed details status).
Proof. intros Hstatus. right. eexists _, _, _. split; [reflexivity|exact Hstatus]. Qed.

Lemma relay_failing (details : string) (status : Z) (r : NextResponse.t) :
  failing status -> relay details status = Some r -> videosAnswer r.
Proof.
  intros Hstatus. unfold relay.
  destruct (NextResponse.accepts status); [|discriminate].
  intros [= <-]. apply relayed_failing. exact Hstatus.
Qed.

Lemma respond_shape (Number : string -> option Qc) (up : Upstream) (env : Env)
    (apiKey region category sort shorts : string)
    (data : option (Listing.t VideoItem.t)) :
  let outcome :=
    run up (Videos.respond Number env apiKey region category sort shorts data)
  in
  (length outcome.2 <= 1)%nat
  /\ (forall c, c ∈ outcome.2 -> c.1 = channels)
  /\ forall r : NextResponse.t, outcome.1 = Some r -> videosAnswer r.
Proof.
  destruct data as [data|].
  - cbv zeta. rewrite respond_run, lookupThumbnails_run.
    destruct (bool_decide (Videos.channelIdsOf (Listing.array data) = [])).
    + simpl. split; [lia|]. split; [intros c Hc; inversion Hc|].
      intros r [= <-]. left. eexists _, _, _, _, _, _. reflexivity.
    + cbv zeta. cbn [fst snd].
      split; [simpl; lia|]. split.
      { intros c Hc. apply list_elem_of_singleton in Hc. subst c.
        reflexivity. }
      intros r.
      destruct (Response.ok (up channels _));
        [destruct (read (up channels _)) as [items|]|]; simpl;
        intros [= <-]; left; eexists _, _, _, _, _, _; reflexivity.
  - simpl. split; [lia|]. split; [intros c Hc; inversion Hc|].
    intros r [= <-]. apply relayed_failing. reflexivity.
Qed.

Lemma retrieve_shape (up : Upstream) (apiKey region category : string) :
  let primary := (videos, Videos.listParams apiKey region category) in
  let outcome := run up (Videos.retrieve apiKey region category) in
  (exists rest : list Call,
      outcome.2 = primary :: rest
      /\ (length rest <= 3)%nat
      /\ forall c, c ∈ rest -> c.1 ≠ channels)
  /\ forall early : NextResponse.t,
      outcome.1 = Some (inl early) -> videosAnswer early.
Proof.
  intros primary outcome. subst outcome. rewrite retrieve_run. cbv zeta.
  fold primary.
  destruct (Response.ok (up videos _)) eqn:Hok.
  { cbn [fst snd]. split.
    - exists []. split; [reflexivity|]. split; [simpl; lia|].
      intros c Hc. inversion Hc.
    - intros early. destruct (Response.json (up videos _)); discriminate. }
  destruct (bool_decide (Response.status (up videos _) = 404)
            && bool_decide (category ≠ "all")).
  2:{ cbn [fst snd]. split.
      - exists []. split; [reflexivity|]. split; [simpl; lia|].
        intros c Hc. inversion Hc.
      - intros early Hearly.
        destruct (relay _ _) as [r|] eqn:Hrelay; [|discriminate].
        injection Hearly as <-. eapply relay_failing; [|exact Hrelay].
        exact Hok. }
  rewrite fallback_run. cbv zeta.
  set (first := (search, Videos.buildSearchParams apiKey region category true)).
  destruct (Response.ok (up search (Videos.buildSearchParams apiKey region
                                      category true))) eqn:Hfirst.
  2:{ cbn [fst snd]. split.
      - exists [first]. split; [reflexivity|]. split; [simpl; lia|].
        intros c Hc. apply list_elem_of_singleton in Hc. subst c.
        discriminate.
      - intros early Hearly.
        destruct (relay _ _) as [r|] eqn:Hrelay; [|discriminate].
        injection Hearly as <-. eapply relay_failing; [|exact Hrelay].
        exact Hfirst. }
  destruct (read (up search (Videos.buildSearchParams apiKey region
                               category true))) as [items|] eqn:Hread.
  2:{ cbn [fst snd]. split; [|discriminate].
      exists [first]. split; [reflexivity|]. split; [simpl; lia|].
      intros c Hc. apply list_elem_of_singleton in Hc. subst c.
      discriminate. }
  pose proof (searchAgain_calls up apiKey region category
                (Videos.videoIds items)) as Hagain.
  set (second := (search,
                  Videos.buildSearchParams apiKey region category false))
    in *.
  destruct (run up (Videos.searchAgain _ _ _ _)) as [[ids|] again];
    cbn [snd] in Hagain.
  - pose proof (fetchByIds_calls up apiKey ids) as Hfetch.
    destruct (run up (Videos.fetchByIds apiKey ids)) as [records hydration].
    cbn [snd] in Hfetch. cbn [fst snd]. split.
    + exists (first :: again ++ hydration). split; [reflexivity|].
      subst again hydration. split.
      * destruct (bool_decide (Videos.videoIds items = [])),
          (bool_decide (ids = [])); simpl; lia.
      * intros c Hc.
        destruct (bool_decide (Videos.videoIds items = [])),
          (bool_decide (ids = []));
          cbn [app] in Hc; rewrite ?elem_of_cons, elem_of_nil in Hc;
          repeat (destruct Hc as [Hc|Hc]); try contradiction;
          subst c; discriminate.
    + intros early. destruct records; discriminate.
  - cbn [fst snd]. split; [|discriminate].
    exists (first :: again). split; [reflexivity|]. subst again. split.
    + destruct (bool_decide (Videos.videoIds items = [])); simpl; lia.
    + intros c Hc.
      destruct (bool_decide (Videos.videoIds items = []));
        rewrite ?elem_of_cons, elem_of_nil in Hc;
        repeat (destruct Hc as [Hc|Hc]); try contradiction;
        subst c; discriminate.
Qed.

Lemma GET_shape (Number : string -> option Qc) (up : Upstream) (env : Env)
    (searchParams : URLSearchParams) :
  let apiKey := YOUTUBE_API_KEY env ?? "" in
  let region := Params.get "region" searchParams ?? "KR" in
  let category := Params.get "category" searchParams ?? "all" in
  let primary := (videos, Videos.listParams apiKey region category) in
  let outcome := run up (Videos.GET Number env searchParams) in
  falsy (YOUTUBE_API_KEY env) = false ->
  (exists rest : list Call,
      outcome.2 = primary :: rest /\ (length rest <= 4)%nat)
  /\ forall r : NextResponse.t, outcome.1 = Some r -> videosAnswer r.
Proof.
  intros apiKey region category primary outcome Hkey.
  destruct (falsy_false _ Hkey) as (k & Hk & Hne).
  assert (apiKey = k) as Hapi by (unfold apiKey; rewrite Hk; reflexivity).
  subst outcome.
  rewrite (GET_run Number up k region category env searchParams Hk Hne
             eq_refl eq_refl).
  rewrite <- Hapi.
  destruct (retrieve_shape up apiKey region category)
    as [(rest & Hcalls & Hlength & _) Hresult].
  fold primary in Hcalls.
  destruct (run up (Videos.retrieve apiKey region category))
    as [[[early|data]|] before]; cbn [fst snd] in *; subst before.
  - split; [exists rest; split; [reflexivity|lia]|].
    intros r [= <-]. apply Hresult. reflexivity.
  - destruct (respond_shape Number up env apiKey region category
                (Params.get "sort" searchParams ?? "views")
                (Params.get "shorts" searchParams ?? "include") data)
      as (Hmore & _ & Hanswer).
    destruct (run up (Videos.respond _ _ _ _ _ _ _ _)) as [r more].
    cbn [fst snd] in *. split; [|exact Hanswer].
    exists (rest ++ more). split; [reflexivity|].
    rewrite length_app. lia.
  - split; [|discriminate]. exists rest. split; [reflexivity|lia].
Qed.

(** X5. Whatever the upstream answers, a run of the videos handler issues
    at most five upstream calls, never the same call twice, and, when there
    is a credential, the first of them is the primary listing call. *)
Theorem at_most_five_calls_none_twice
    (Number : string -> option Qc) (up : Upstream) (env : Env)
    (searchParams : URLSearchParams) :
  let apiKey := YOUTUBE_API_KEY env ?? "" in
  let region := Params.get "region" searchParams ?? "KR" in
  let category := Params.get "category" searchParams ?? "all" in
  let calls := (run up (Videos.GET Number env searchParams)).2 in
  (length calls <= 5)%nat
  /\ NoDup calls
  /\ (if falsy (YOUTUBE_API_KEY env) then calls = []
      else head calls
           = Some (videos, Videos.listParams apiKey region category)).
Proof.
  intros apiKey region category calls.
  split; [|split; [apply calls_are_distinct|]].
  - destruct (falsy (YOUTUBE_API_KEY env)) eqn:Hkey.
    + unfold calls, Videos.GET. rewrite Hkey. simpl. lia.
    + destruct (GET_shape Number up env searchParams Hkey)
        as [(rest & Hcalls & Hlength) _].
      unfold calls. rewrite Hcalls. simpl. lia.
  - destruct (falsy (YOUTUBE_API_KEY env)) eqn:Hkey.
    + unfold calls, Videos.GET. rewrite Hkey. reflexivity.
    + destruct (GET_shape Number up env searchParams Hkey)
        as [(rest & Hcalls & _) _].
      unfold calls. rewrite Hcalls. reflexivity.
Qed.

(** X6. Every answer of the two endpoints pairs its body with its
    status: the videos endpoint answers either a video list with status
    200 or an error body with a status outside 200-299, and the categories
    endpoint either a category list with status 200 or an error body with
    a status outside 200-299.  A caller testing [response.ok] therefore
    sees a list exactly when it holds. *)
Theorem answers_pair_body_and_status
    (Number : string -> option Qc) (up : Upstream) (env : Env)
    (searchParams : URLSearchParams) :
  (forall r : NextResponse.t,
      (run up (Videos.GET Number env searchParams)).1 = Some r ->
      videosAnswer r)
  /\ (forall r : NextResponse.t,
        (run up (Categories.GET env)).1 = Some r ->
        (exists categories : list CategoryOption.t,
            r = NextResponse.mk (CategoriesBody categories) 200)
        \/ (exists (error : string) (details : option string) (status : Z),
              r = NextResponse.mk (ErrorBody error details) status
              /\ failing status)).
Proof.
  split.
  - intros r Hr. destruct (falsy (YOUTUBE_API_KEY env)) eqn:Hkey.
    + unfold Videos.GET in Hr. rewrite Hkey in Hr. inversion Hr.
      right. eexists _, _, _. split; reflexivity.
    + destruct (GET_shape Number up env searchParams Hkey) as [_ Hanswer].
      exact (Hanswer r Hr).
  - intros r Hr. destruct (falsy (YOUTUBE_API_KEY env)) eqn:Hkey.
    + unfold Categories.GET in Hr. rewrite Hkey in Hr. inversion Hr.
      right. eexists _, _, _. split; reflexivity.
    + destruct (falsy_false _ Hkey) as (k & Hk & Hne).
      rewrite (Categories_GET_run up env k Hk Hne) in Hr. cbv zeta in Hr.
      cbn [fst] in Hr.
      destruct (Response.ok (up videoCategories _)) eqn:Hok.
      * destruct (read (up videoCategories _)); inversion Hr.
        left. eexists. reflexivity.
      * unfold relay in Hr.
        destruct (NextResponse.accepts _); inversion Hr.
        right. eexists _, _, _. split; [reflexivity|]. exact Hok.
Qed.

Lemma fallback_unreadable (up : Upstream) (apiKey region category : string)
    (c : Call) :
  let outcome := run up (Videos.fallback apiKey region category) in
  c ∈ outcome.2 ->
  unreadable up c ->
  outcome.1 = None /\ last outcome.2 = Some c.
Proof.
  intros outcome Hc [Hok Hread]. subst outcome. revert Hc.
  rewrite fallback_run. cbv zeta.
  destruct (Response.ok (up search (Videos.buildSearchParams apiKey region
                                      category true))) eqn:Hfirst.
  2:{ cbn [snd]. intros ->%list_elem_of_singleton. cbn [fst snd] in Hok.
      congruence. }
  destruct (read (up search (Videos.buildSearchParams apiKey region
                               category true))) as [items|] eqn:Hitems.
  2:{ cbn [fst snd]. intros ->%list_elem_of_singleton. auto. }
  rewrite searchAgain_run.
  destruct (bool_decide (Videos.videoIds items = [])) eqn:Hnone.
  - cbv zeta.
    destruct (Response.ok (up search (Videos.buildSearchParams apiKey region
                                        category false))) eqn:Hsecond.
    + destruct (read (up search (Videos.buildSearchParams apiKey region
                                   category false))) as [found|] eqn:Hfound;
        cbn [fmap option_fmap option_map].
      * rewrite fetchByIds_run.
        destruct (bool_decide (Videos.videoIds found = [])); cbv zeta;
          cbn [fst snd app fmap option_fmap option_map];
          rewrite ?elem_of_cons, elem_of_nil;
          intros Hc; repeat (destruct Hc as [Hc|Hc]); try contradiction;
          subst c; cbn [fst snd] in Hok, Hread; try congruence.
        rewrite Hok, Hread. split; reflexivity.
      * cbn [fst snd]. rewrite ?elem_of_cons, elem_of_nil.
        intros Hc; repeat (destruct Hc as [Hc|Hc]); try contradiction;
          subst c; cbn [fst snd] in Hok, Hread; try congruence.
        split; reflexivity.
    + rewrite fetchByIds_run, Hnone.
      cbn [fst snd app]. rewrite ?elem_of_cons, elem_of_nil.
      intros Hc; repeat (destruct Hc as [Hc|Hc]); try contradiction;
        subst c; cbn [fst snd] in Hok, Hread; congruence.
  - rewrite fetchByIds_run. rewrite Hnone. cbv zeta.
    cbn [fst snd app fmap option_fmap option_map].
    rewrite ?elem_of_cons, elem_of_nil.
    intros Hc; repeat (destruct Hc as [Hc|Hc]); try contradiction;
      subst c; cbn [fst snd] in Hok, Hread; try congruence.
    rewrite Hok, Hread. split; reflexivity.
Qed.

Lemma respond_unreadable (Number : string -> option Qc) (up : Upstream)
    (env : Env) (apiKey region category sort shorts : string)
    (data : option (Listing.t VideoItem.t)) (c : Call) :
  let outcome :=
    run up (Videos.respond Number env apiKey region category sort shorts data)
  in
  c ∈ outcome.2 ->
  unreadable up c ->
  outcome.1 = None /\ outcome.2 = [c].
Proof.
  intros outcome Hc [Hok Hread]. subst outcome. revert Hc.
  destruct data as [data|]; [|simpl; intros Hc; inversion Hc].
  rewrite respond_run, lookupThumbnails_run.
  destruct (bool_decide (Videos.channelIdsOf (Listing.array data) = []));
    [simpl; intros Hc; inversion Hc|].
  cbv zeta. cbn [fst snd]. intros ->%list_elem_of_singleton.
  cbn [fst snd] in Hok, Hread. rewrite Hok, Hread. split; reflexivity.
Qed.

(** X7. An unreadable success is never survived.  Whenever a call issued
    by the videos handler is answered with a success status and a body
    that cannot be read (for the primary listing call: whose JSON parse
    rejects; for any other call: that is not JSON or is not an object),
    the handler throws right after that call: it gives no answer and
    issues no further call. *)
Theorem an_unreadable_success_makes_the_handler_throw
    (Number : string -> option Qc) (up : Upstream) (env : Env)
    (searchParams : URLSearchParams) (c : Call) :
  let apiKey := YOUTUBE_API_KEY env ?? "" in
  let region := Params.get "region" searchParams ?? "KR" in
  let category := Params.get "category" searchParams ?? "all" in
  let primary := (videos, Videos.listParams apiKey region category) in
  let outcome := run up (Videos.GET Number env searchParams) in
  c ∈ outcome.2 ->
  Response.ok (up c.1 c.2) = true ->
  (c = primary -> Response.json (up c.1 c.2) = rejects) ->
  (c ≠ primary -> read (up c.1 c.2) = None) ->
  outcome.1 = None /\ last outcome.2 = Some c.
Proof.
  intros apiKey region category primary outcome Hc Hok Hprimary Hother.
  subst outcome. revert Hc.
  destruct (falsy (YOUTUBE_API_KEY env)) eqn:Hkey.
  { unfold Videos.GET. rewrite Hkey. simpl. intros Hc. inversion Hc. }
  destruct (falsy_false _ Hkey) as (k & Hk & Hne).
  assert (apiKey = k) as Hapi by (unfold apiKey; rewrite Hk; reflexivity).
  rewrite (GET_run Number up k region category env searchParams Hk Hne
             eq_refl eq_refl).
  rewrite <- Hapi, retrieve_run. cbv zeta. subst primary.
  destruct (Response.ok (up videos (Videos.listParams apiKey region
                                      category))) eqn:Hlisting.
  - destruct (Response.json (up videos (Videos.listParams apiKey region
                                          category))) as [| |data] eqn:Hjson.
    + cbn [fst snd]. intros ->%list_elem_of_singleton. auto.
    + simpl. intros ->%list_elem_of_singleton.
      specialize (Hprimary eq_refl). cbn [fst snd] in Hprimary. congruence.
    + pose proof (respond_unreadable Number up env apiKey region category
                    (Params.get "sort" searchParams ?? "views")
                    (Params.get "shorts" searchParams ?? "include")
                    (Some data) c) as Hrespond.
      pose proof (respond_calls Number up apiKey region category env
                    (Params.get "sort" searchParams ?? "views")
                    (Params.get "shorts" searchParams ?? "include")
                    (Some data) c) as Hchannels.
      destruct (run up (Videos.respond _ _ _ _ _ _ _ _)) as [r more].
      cbn [fst snd app] in *. intros [->|Hc]%elem_of_cons.
      * specialize (Hprimary eq_refl). cbn [fst snd] in Hprimary.
        congruence.
      * assert (c ≠ (videos, Videos.listParams apiKey region category))
          as Hne'.
        { intros ->. specialize (Hchannels Hc). discriminate Hchannels. }
        destruct (Hrespond Hc (conj Hok (Hother Hne'))) as [-> ->].
        split; reflexivity.
  - assert (c ≠ (videos, Videos.listParams apiKey region category))
      as Hne'.
    { intros ->. cbn [fst snd] in Hok. congruence. }
    specialize (Hother Hne').
    destruct (bool_decide (Response.status _ = 404)
              && bool_decide (category ≠ "all")).
    2:{ destruct (relay _ _); cbn [fmap option_fmap option_map fst snd];
          intros Hc%list_elem_of_singleton; contradiction. }
    pose proof (fallback_unreadable up apiKey region category c) as Hfallback.
    destruct (run up (Videos.fallback apiKey region category))
      as [[[early|data]|] calls]; cbn [fst snd] in *.
    + intros [Hc|Hc]%elem_of_cons; [contradiction|].
      destruct (Hfallback Hc (conj Hok Hother)) as [Hnone _].
      discriminate Hnone.
    + pose proof (respond_unreadable Number up env apiKey region category
                    (Params.get "sort" searchParams ?? "views")
                    (Params.get "shorts" searchParams ?? "include")
                    data c) as Hrespond.
      destruct (run up (Videos.respond _ _ _ _ _ _ _ _)) as [r more].
      cbn [fst snd] in *.
      intros [[Hc|Hc]%elem_of_cons|Hc]%elem_of_app; [contradiction| |].
      * destruct (Hfallback Hc (conj Hok Hother)) as [Hnone _].
        discriminate Hnone.
      * destruct (Hrespond Hc (conj Hok Hother)) as [-> ->].
        split; [reflexivity|]. apply last_snoc.
    + intros [Hc|Hc]%elem_of_cons; [contradiction|].
      destruct (Hfallback Hc (conj Hok Hother)) as [_ Hlast].
      split; [reflexivity|]. destruct calls as [|x calls]; [inversion Hc|].
      exact Hlast.
Qed.

Lemma unreadable_success_witness :
  let up := Sample.play
              (Sample.mkScript Sample.notFound
                 (Sample.answer [Sample.found "a"])
                 (Sample.answer [])
                 (Response.mk 200 "<html>" rejects)
                 Sample.twoAvatars Sample.someCategories) in
  let request := Sample.query "25" "views" "include" in
  let c := (videos, Videos.idParams "secret" ["a"]) in
  Response.ok (up c.1 c.2) = true
  /\ read (up c.1 c.2) = None
  /\ run up (Videos.GET Sample.Number Sample.env request) =
     (None,
      [(videos, Videos.listParams "secret" "KR" "25");
       (search, Videos.buildSearchParams "secret" "KR" "25" true);
       c])
  /\ last (run up (Videos.GET Sample.Number Sample.env request)).2 = Some c.
Proof.
  intros up request c.
  assert (run up (Videos.GET Sample.Number Sample.env request) =
          (None,
           [(videos, Videos.listParams "secret" "KR" "25");
            (search, Videos.buildSearchParams "secret" "KR" "25" true);
            c])) as Hrun by (vm_compute; reflexivity).
  assert (c ∈ (run up (Videos.GET Sample.Number Sample.env request)).2)
    as Hc.
  { rewrite Hrun. apply (list_elem_of_lookup_2 _ 2%nat). reflexivity. }
  split; [reflexivity|]. split; [reflexivity|]. split; [exact Hrun|].
  refine (proj2 (an_unreadable_success_makes_the_handler_throw
                   Sample.Number up Sample.env request c Hc eq_refl _ _)).
  - intros Heq. vm_compute in Heq. discriminate Heq.
  - intros _. reflexivity.
Defined.

(** ** The scope of the upstream calls *)

(** X8. The listing call carries a region code exactly when the region is
    not the sentinel WORLD, and a category exactly when the category is
    not the sentinel all; it always asks for the chart of most popular
    videos, 24 at most, under the credential.  The scoped search of the
    fallback knows no sentinel: it sends the region as it is, WORLD
    included, and the unscoped one sends none. *)
Theorem sentinels_are_left_out_of_the_listing_call
    (apiKey region category : string) :
  let params := Videos.listParams apiKey region category in
  Params.get "regionCode" params
    = (if bool_decide (region = "WORLD") then None else Some region)
  /\ Params.get "videoCategoryId" params
     = (if bool_decide (category = "all") then None else Some category)
  /\ Params.get "chart" params = Some "mostPopular"
  /\ Params.get "maxResults" params = Some "24"
  /\ Params.get "key" params = Some apiKey
  /\ Params.get "regionCode"
       (Videos.buildSearchParams apiKey region category true) = Some region
  /\ Params.get "regionCode"
       (Videos.buildSearchParams apiKey region category false) = None.
Proof.
  cbv zeta. unfold Videos.listParams, Videos.buildSearchParams.
  destruct (decide (region = "WORLD")) as [Hworld|Hworld],
           (decide (category = "all")) as [Hall|Hall].
  all: rewrite ?(bool_decide_eq_true_2 (region = "WORLD")),
         ?(bool_decide_eq_false_2 (region = "WORLD")),
         ?(bool_decide_eq_true_2 (category = "all")),
         ?(bool_decide_eq_false_2 (category = "all")),
         ?(bool_decide_eq_true_2 (region ≠ "WORLD")),
         ?(bool_decide_eq_false_2 (region ≠ "WORLD")),
         ?(bool_decide_eq_true_2 (category ≠ "all")),
         ?(bool_decide_eq_false_2 (category ≠ "all")) by tauto.
  all: rewrite ?get_set; repeat split; reflexivity.
Qed.

(** ** Where the channel thumbnails come from *)

Lemma thumbs_provenance (channelItems : list Channel.t) (c thumb : string) :
  foldl Videos.addThumb ∅ channelItems !! c = Some thumb ->
  exists channel : Channel.t,
    channel ∈ channelItems /\ Channel.id channel = Some c
    /\ thumb = Videos.thumbOf channel.
Proof.
  rewrite addThumb_lookup, lookup_empty.
  destruct (last (omap (hit c) channelItems)) as [t|] eqn:Hlast;
    [|discriminate].
  intros [= <-]. apply last_Some in Hlast as [l' Hl'].
  assert (t ∈ omap (hit c) channelItems) as Hin.
  { rewrite Hl'. apply elem_of_app. right. apply list_elem_of_singleton.
    reflexivity. }
  apply list_elem_of_omap in Hin as (channel & Hchannel & Hhit).
  unfold hit in Hhit. case_bool_decide as Hyes; [|discriminate].
  injection Hhit as <-. destruct Hyes as (Hid & _ & _).
  exists channel. auto.
Qed.

Lemma retrieve_early (up : Upstream) (apiKey region category : string)
    (early : NextResponse.t) (calls : list Call) :
  run up (Videos.retrieve apiKey region category)
    = (Some (inl early), calls) ->
  exists (details : string) (status : Z), early = relayed details status.
Proof.
  rewrite retrieve_run. cbv zeta. unfold relay.
  destruct (Response.ok (up videos _)).
  { destruct (Response.json (up videos _)); discriminate. }
  destruct (_ && _);
    [|destruct (NextResponse.accepts _); [|discriminate];
      intros [= <- _]; eauto].
  rewrite fallback_run. cbv zeta. unfold relay.
  destruct (Response.ok (up search _));
    [|destruct (NextResponse.accepts _); [|discriminate];
      intros [= <- _]; eauto].
  destruct (read (up search _)) as [items|]; [|discriminate].
  destruct (run up (Videos.searchAgain _ _ _ _)) as [[ids|] again];
    [|discriminate].
  destruct (run up (Videos.fetchByIds _ _)) as [[records|] hydration];
    discriminate.
Qed.

Lemma kept_listed (Number : string -> option Qc) (sort shorts : string)
    (items : list VideoItem.t) (item : VideoItem.t) :
  item ∈ Videos.selectShorts shorts (Videos.rank Number sort items) ->
  item ∈ items.
Proof.
  unfold Videos.selectShorts. rewrite rank_byKey.
  destruct (bool_decide (shorts = "exclude")).
  - rewrite list_elem_of_In, filter_In, <- list_elem_of_In,
      Array_sort_Permutation. tauto.
  - rewrite Array_sort_Permutation. tauto.
Qed.

Lemma respond_thumbs (Number : string -> option Qc) (up : Upstream)
    (env : Env) (apiKey region category sort shorts : string)
    (data : Listing.t VideoItem.t) (r : NextResponse.t) (calls : list Call) :
  let lookup :=
    Videos.channelParams apiKey (Videos.channelIdsOf (Listing.array data)) in
  run up (Videos.respond Number env apiKey region category sort shorts
            (Some data)) = (Some r, calls) ->
  exists thumbs : gmap string string,
    r = answerOf Number region category env sort shorts (Listing.array data)
          thumbs
    /\ (thumbs = ∅
        \/ exists channelItems : list Channel.t,
            calls = [(channels, lookup)]
            /\ Response.ok (up channels lookup) = true
            /\ read (up channels lookup) = Some channelItems
            /\ thumbs = foldl Videos.addThumb ∅ channelItems).
Proof.
  intros lookup. rewrite respond_run, lookupThumbnails_run. fold lookup.
  destruct (bool_decide (Videos.channelIdsOf (Listing.array data) = [])).
  { intros [= <- <-]. exists ∅. auto. }
  cbv zeta. destruct (Response.ok (up channels lookup)) eqn:Hok.
  - destruct (read (up channels lookup)) as [channelItems|] eqn:Hread;
      [|discriminate].
    intros [= <- <-]. eexists. split; [reflexivity|]. right.
    exists channelItems. auto.
  - intros [= <- <-]. exists ∅. auto.
Qed.

(** X9. A channel thumbnail URL in an answer of the videos handler is
    never made up: when the channel thumbnail of a returned record is a
    non-empty string, the last call of the run was the channel lookup, it
    was answered with a success and a readable body, and the string is
    the thumbnail URL that body gives for a channel whose identifier was
    among those asked for.  (A channel thumbnail that is not a string is
    a member of [Object.prototype].) *)
Theorem avatars_come_from_the_channel_lookup
    (Number : string -> option Qc) (up : Upstream) (env : Env)
    (searchParams : URLSearchParams) (returned : list ApiVideo.t)
    (fetchedAt region category sort shorts : string) (status : Z)
    (v : ApiVideo.t) (url : string) :
  let apiKey := YOUTUBE_API_KEY env ?? "" in
  let outcome := run up (Videos.GET Number env searchParams) in
  outcome.1 =
    Some (NextResponse.mk
            (VideosBody returned fetchedAt region category sort shorts)
            status) ->
  v ∈ returned ->
  ApiVideo.channelThumbnail v = str url ->
  url ≠ "" ->
  exists (channelIds : list string) (channelItems : list Channel.t)
         (channel : Channel.t) (c : string),
    last outcome.2 = Some (channels, Videos.channelParams apiKey channelIds)
    /\ Response.ok (up channels (Videos.channelParams apiKey channelIds))
       = true
    /\ read (up channels (Videos.channelParams apiKey channelIds))
       = Some channelItems
    /\ channel ∈ channelItems
    /\ Channel.id channel = Some c
    /\ c ∈ channelIds
    /\ url = Videos.thumbOf channel.
Proof.
  intros apiKey outcome Hanswer Hv Hthumb Hurl. subst outcome.
  destruct (falsy (YOUTUBE_API_KEY env)) eqn:Hkey.
  { unfold Videos.GET in Hanswer. rewrite Hkey in Hanswer. discriminate. }
  destruct (falsy_false _ Hkey) as (k & Hk & Hne).
  assert (apiKey = k) as Hapi by (unfold apiKey; rewrite Hk; reflexivity).
  revert Hanswer.
  rewrite (GET_run Number up k _ _ env searchParams Hk Hne eq_refl eq_refl).
  rewrite <- Hapi.
  destruct (run up (Videos.retrieve apiKey _ _))
    as [[[early|[data|]]|] before] eqn:Hretrieve; cbn [fst snd].
  - intros [= Hearly].
    apply retrieve_early in Hretrieve as (details & status' & ->).
    discriminate.
  - destruct (run up (Videos.respond _ _ _ _ _ _ _ _)) as [[r|] more]
      eqn:Hrespond; cbn [fst snd]; [|discriminate].
    intros [= ->].
    apply respond_thumbs in Hrespond as (thumbs & Hr & Hthumbs).
    injection Hr as -> _ _ _ _ _ _.
    apply list_elem_of_In, in_map_iff in Hv as (item & <- & Hitem).
    apply list_elem_of_In, kept_listed in Hitem.
    unfold Videos.present in Hthumb. cbn [ApiVideo.channelThumbnail] in *.
    destruct (falsy (VideoItem.snippet item ≫= Snippet.channelId)) eqn:Hc;
      [congruence|].
    destruct (falsy_false _ Hc) as (c & Hcid & Hcne).
    rewrite Hcid in Hthumb. cbn [nullish] in Hthumb.
    unfold PlainObject.get in Hthumb.
    destruct (thumbs !! c) as [thumb|] eqn:Hlookup.
    2:{ destruct (bool_decide (c = "__proto__")); [discriminate|].
        destruct (bool_decide (c ∈ PlainObject.methods)); [discriminate|].
        cbn [nullish] in Hthumb. congruence. }
    cbn [nullish] in Hthumb. injection Hthumb as ->.
    destruct Hthumbs as [->|(channelItems & -> & Hok & Hread & ->)].
    { rewrite lookup_empty in Hlookup. discriminate. }
    apply thumbs_provenance in Hlookup as (channel & Hchannel & Hid & ->).
    exists (Videos.channelIdsOf (Listing.array data)), channelItems, channel, c.
    split; [apply last_snoc|]. split; [exact Hok|]. split; [exact Hread|].
    split; [exact Hchannel|]. split; [exact Hid|]. split; [|reflexivity].
    unfold Videos.channelIdsOf. rewrite Set_from_elem, list_elem_of_omap.
    split; [|apply not_elem_of_nil].
    exists item. split; [exact Hitem|]. apply truthy_Some. auto.
  - simpl. discriminate.
  - discriminate.
Qed.

Lemma avatars_witness :
  let up := Sample.play Sample.listed in
  let request := Sample.query "all" "views" "include" in
  let thumbs : gmap string string := <["UC2" := "d2"]> (<["UC1" := "m1"]> ∅) in
  let returned :=
    List.map (Videos.present thumbs)
      (Videos.rank Sample.Number "views" Sample.three) in
  let v := Videos.present thumbs (Sample.video "b" "UC2" "PT1H2M3S" "900" "7") in
  (run up (Videos.GET Sample.Number Sample.env request)).1 =
    Some (NextResponse.mk
            (VideosBody returned "2024-05-01T00:00:00.000Z" "KR" "all"
                        "views" "include") 200)
  /\ returned !! 0%nat = Some v
  /\ ApiVideo.channelThumbnail v = str "d2"
  /\ exists (channelIds : list string) (channelItems : list Channel.t)
            (channel : Channel.t) (c : string),
      last (run up (Videos.GET Sample.Number Sample.env request)).2 =
        Some (channels, Videos.channelParams "secret" channelIds)
      /\ Response.ok (up channels (Videos.channelParams "secret" channelIds))
         = true
      /\ read (up channels (Videos.channelParams "secret" channelIds))
         = Some channelItems
      /\ channel ∈ channelItems
      /\ Channel.id channel = Some c
      /\ c ∈ channelIds
      /\ "d2" = Videos.thumbOf channel.
Proof.
  intros up request thumbs returned v.
  assert ((run up (Videos.GET Sample.Number Sample.env request)).1 =
          Some (NextResponse.mk
                  (VideosBody returned "2024-05-01T00:00:00.000Z" "KR" "all"
                     "views" "include") 200)) as Hanswer
    by (vm_compute; reflexivity).
  assert (returned !! 0%nat = Some v) as Hfirst by (vm_compute; reflexivity).
  assert (ApiVideo.channelThumbnail v = str "d2") as Hthumb
    by (vm_compute; reflexivity).
  assert ("d2" ≠ "") as Hurl by discriminate.
  split; [exact Hanswer|]. split; [exact Hfirst|].
  split; [exact Hthumb|].
  exact (avatars_come_from_the_channel_lookup
           Sample.Number up Sample.env request returned _ _ _ _ _ _ v "d2"
           Hanswer (list_elem_of_lookup_2 _ _ _ Hfirst) Hthumb Hurl).
Defined.

(** ** More on durations *)

Lemma append_nonempty (a b : string) : a ≠ "" -> a +:+ b ≠ "".
Proof. destruct a; [congruence|]. rewrite append_String. discriminate. Qed.

Lemma formatDuration_empty (duration : option string) :
  Duration.formatDuration duration = "" ->
  Duration.parseIsoDuration duration = 0%N.
Proof.
  unfold Duration.formatDuration, Duration.parseIsoDuration.
  destruct (falsy duration); [reflexivity|].
  destruct (Duration.exec (duration ?? "")) as [[[h m] s]|]; [|reflexivity].
  intros Hempty. exfalso. revert Hempty.
  destruct (0 <? Duration.capture h)%N;
    apply append_nonempty, String_of_N_nonempty.
Qed.

(** X10. The duration label of the client and the shorts filter of the
    handler agree: an input the client displays as the empty string is
    parsed as 0 seconds by the handler, so that every record the handler
    returns when shorts are excluded has a parsed duration of 60 seconds
    at least and a non-empty duration label. *)
Theorem records_kept_without_shorts_show_a_duration :
  (forall duration : option string,
      Duration.formatDuration duration = "" ->
      Duration.parseIsoDuration duration = 0%N)
  /\ (forall (Number : string -> option Qc) (sort : string)
             (items : list VideoItem.t) (thumbs : gmap string string)
             (v : ApiVideo.t),
        v ∈ List.map (Videos.present thumbs)
              (Videos.selectShorts "exclude" (Videos.rank Number sort items)) ->
        (60 <= Duration.parseIsoDuration (Some (ApiVideo.duration v)))%N
        /\ Duration.formatDuration (Some (ApiVideo.duration v)) ≠ "").
Proof.
  split; [exact formatDuration_empty|].
  intros Number sort items thumbs v Hv.
  apply list_elem_of_In, in_map_iff in Hv as (item & <- & Hitem).
  unfold Videos.selectShorts in Hitem.
  rewrite bool_decide_eq_true_2 in Hitem by reflexivity.
  apply filter_In in Hitem as [_ Hlong].
  unfold Videos.longEnough in Hlong. apply N.leb_le in Hlong.
  unfold Videos.present. cbn [ApiVideo.duration].
  rewrite parseIsoDuration_nullish. split; [exact Hlong|].
  intros Hempty. apply formatDuration_empty in Hempty.
  rewrite parseIsoDuration_nullish in Hempty. lia.
Qed.

Lemma exec_skip (c c' : ascii) (rest : string) :
  bool_decide (c = "P"%char) = false \/ bool_decide (c' = "T"%char) = false ->
  Duration.exec (String c (String c' rest)) = Duration.exec (String c' rest).
Proof.
  intros Hskip. change (Duration.exec (String c (String c' rest)))
    with (if bool_decide (c = "P"%char) && bool_decide (c' = "T"%char)
          then Some (Duration.after_PT rest)
          else Duration.exec (String c' rest)).
  destruct Hskip as [-> | ->]; rewrite ?andb_false_r; reflexivity.
Qed.

Lemma exec_after (pre rest : string) :
  Duration.exec pre = None ->
  Duration.exec (pre +:+ "PT" +:+ rest) = Some (Duration.after_PT rest).
Proof.
  induction pre as [|c pre IH]; intros Hpre; [reflexivity|].
  rewrite append_String. destruct pre as [|c' pre'].
  - change ("" +:+ "PT" +:+ rest) with (String "P" (String "T" rest)).
    cbn [Duration.exec].
    rewrite (bool_decide_eq_false_2 ("P"%char = "T"%char)) by discriminate.
    rewrite andb_false_r. rewrite bool_decide_eq_true_2 by reflexivity.
    rewrite bool_decide_eq_true_2 by reflexivity. reflexivity.
  - rewrite append_String. rewrite append_String in IH.
    cbn [Duration.exec] in Hpre |- *.
    destruct (bool_decide (c = "P"%char) && bool_decide (c' = "T"%char));
      [discriminate|].
    apply IH. exact Hpre.
Qed.

(** X11. The pattern is not anchored: whatever precedes the first "PT" of
    an input is ignored, by the parser of the handler and by the label of
    the client alike. *)
Theorem text_before_the_first_PT_is_ignored (pre rest : string) :
  Duration.exec pre = None ->
  Duration.parseIsoDuration (Some (pre +:+ "PT" +:+ rest))
    = Duration.parseIsoDuration (Some ("PT" +:+ rest))
  /\ Duration.formatDuration (Some (pre +:+ "PT" +:+ rest))
     = Duration.formatDuration (Some ("PT" +:+ rest)).
Proof.
  intros Hpre.
  assert (falsy (Some (pre +:+ "PT" +:+ rest)) = false) as Hfalsy.
  { apply bool_decide_eq_false_2. destruct pre; discriminate. }
  unfold Duration.parseIsoDuration, Duration.formatDuration.
  rewrite Hfalsy. change (falsy (Some ("PT" +:+ rest))) with false.
  cbn [nullish]. rewrite (exec_after pre rest Hpre).
  change (Duration.exec ("PT" +:+ rest)) with (Some (Duration.after_PT rest)).
  split; reflexivity.
Qed.

Lemma text_before_the_first_PT_witness :
  Duration.exec "about P1D, " = None
  /\ Duration.parseIsoDuration (Some "about P1D, PT5M9S") = 309%N
  /\ Duration.formatDuration (Some "about P1D, PT5M9S") = "5:09".
Proof.
  assert (Duration.exec "about P1D, " = None) as Hpre by reflexivity.
  split; [exact Hpre|].
  destruct (text_before_the_first_PT_is_ignored "about P1D, " "5M9S" Hpre)
    as [Hparse Hformat].
  split; (etransitivity; [eassumption|vm_compute; reflexivity]).
Defined.

Lemma free_of_app (c : ascii) (a b : string) :
  free_of c (a +:+ b) = free_of c a && free_of c b.
Proof.
  induction a as [|c' a IH]; [reflexivity|].
  rewrite append_String. cbn [free_of]. rewrite IH, andb_assoc. reflexivity.
Qed.

Lemma free_of_uint (c : ascii) (d : Decimal.uint) :
  Duration.is_digit c = false ->
  free_of c (NilEmpty.string_of_uint d) = true.
Proof.
  intros Hc.
  induction d as [|d IH|d IH|d IH|d IH|d IH|d IH|d IH|d IH|d IH|d IH];
    [reflexivity|..];
    cbn [NilEmpty.string_of_uint free_of]; rewrite IH, andb_true_r;
    apply negb_true_iff, bool_decide_eq_false_2; intros <-; discriminate.
Qed.

Lemma free_of_String_of_N (c : ascii) (n : N) :
  Duration.is_digit c = false -> free_of c (String_of_N n) = true.
Proof. rewrite String_of_N_uint. apply free_of_uint. Qed.

Lemma free_of_component (c unit : ascii) (value : option N) (rest : string) :
  Duration.is_digit c = false -> unit ≠ c ->
  free_of c (component value unit rest) = free_of c rest.
Proof.
  intros Hc Hunit. destruct value as [n|]; [|reflexivity].
  unfold component. rewrite free_of_app, free_of_String_of_N by exact Hc.
  cbn [free_of]. rewrite bool_decide_eq_false_2 by exact Hunit. reflexivity.
Qed.

Lemma exec_free_of_P (s : string) :
  free_of "P" s = true -> Duration.exec s = None.
Proof.
  induction s as [|c s IH]; [reflexivity|].
  cbn [free_of]. intros [Hc Hs]%andb_true_iff.
  cbn [Duration.exec]. destruct s as [|c' s']; [reflexivity|].
  apply negb_true_iff in Hc. rewrite Hc. apply IH. exact Hs.
Qed.

Lemma exec_encodeDays (d : N) (h m s : option N) :
  Duration.exec (encodeDays d h m s) = None.
Proof.
  unfold encodeDays.
  set (rest := component h "H" (component m "M" (component s "S" ""))).
  assert (free_of "P" rest = true) as Hrest.
  { unfold rest. rewrite !free_of_component by (reflexivity || discriminate).
    reflexivity. }
  assert (free_of "P" (String_of_N d +:+ "DT" +:+ rest) = true) as Hfree.
  { rewrite !free_of_app, free_of_String_of_N, Hrest by reflexivity.
    reflexivity. }
  assert (free_of "T" (String_of_N d) = true) as Hdigits
    by (apply free_of_String_of_N; reflexivity).
  change ("P" +:+ String_of_N d +:+ "DT" +:+ rest)
    with (String "P" (String_of_N d +:+ "DT" +:+ rest)).
  destruct (String_of_N d) as [|c ds] eqn:Hd;
    [destruct (String_of_N_nonempty d Hd)|].
  rewrite append_String in Hfree |- *.
  cbn [free_of] in Hdigits. apply andb_true_iff in Hdigits as [Hc _].
  apply negb_true_iff in Hc.
  rewrite exec_skip by (right; exact Hc).
  apply exec_free_of_P. exact Hfree.
Qed.

(** X12. A duration with a day component ("P1DT2H3M4S") holds no "PT":
    the handler parses it as 0 seconds and the client displays it as the
    empty string, whatever its components; a record with such a duration
    is therefore removed when shorts are excluded. *)
Theorem durations_of_a_day_or_more_count_as_zero
    (d : N) (h m s : option N) :
  Duration.parseIsoDuration (Some (encodeDays d h m s)) = 0%N
  /\ Duration.formatDuration (Some (encodeDays d h m s)) = ""
  /\ forall (Number : string -> option Qc) (sort : string)
            (items : list VideoItem.t) (item : VideoItem.t),
      VideoItem.contentDetails item ≫= ContentDetails.duration
        = Some (encodeDays d h m s) ->
      item ∉ Videos.selectShorts "exclude" (Videos.rank Number sort items).
Proof.
  assert (Duration.parseIsoDuration (Some (encodeDays d h m s)) = 0%N)
    as Hparse.
  { unfold Duration.parseIsoDuration. cbn [nullish].
    rewrite exec_encodeDays. destruct (falsy _); reflexivity. }
  split; [exact Hparse|]. split.
  - unfold Duration.formatDuration. cbn [nullish].
    rewrite exec_encodeDays. destruct (falsy _); reflexivity.
  - intros Number sort items item Hduration Hitem.
    unfold Videos.selectShorts in Hitem.
    rewrite bool_decide_eq_true_2 in Hitem by reflexivity.
    apply list_elem_of_In, filter_In in Hitem as [_ Hlong].
    unfold Videos.longEnough in Hlong.
    rewrite Hduration, Hparse in Hlong. discriminate.
Qed.

(** * Properties of the client component *)

(** ** The relative time *)

(** X13. From the whole seconds elapsed, [formatRelativeTime] hands to the
    formatter a non-positive amount of one unit: the number of whole
    units elapsed, in the largest unit of which at least one has elapsed
    (seconds when none has), hence less than what makes the next unit.
    A date in the future is never converted: its (positive) amount stays
    in seconds, however far away it is. *)
Theorem relative_time_is_in_the_largest_unit (seconds : Z) :
  let amount := (Client.relativeTime seconds).1 in
  let unit := (Client.relativeTime seconds).2 in
  (seconds < 0 -> amount = - seconds /\ unit = Client.second)
  /\ (0 <= seconds ->
      amount <= 0
      /\ - amount * unitSeconds unit <= seconds
         < (- amount + 1) * unitSeconds unit
      /\ (forall limit : Z, unitLimit unit = Some limit -> - amount < limit)
      /\ (unit ≠ Client.second -> 1 <= - amount)).
Proof.
  cbv zeta. unfold Client.relativeTime, Client.ranges. cbn [Client.pick].
  destruct (Z.ltb_spec seconds 60) as [H1|H1].
  { cbn [fst snd unitSeconds unitLimit]. split; [auto with lia|]. intros Hpos.
    split; [lia|]. split; [lia|]. split; [|congruence].
    intros limit [= <-]. lia. }
  split; [lia|]. intros _.
  destruct (Z.ltb_spec (seconds / 60) 60) as [H2|H2].
  { cbn [fst snd unitSeconds unitLimit].
    split; [|split; [|split; [intros limit [= <-]|intros _]]];
      Z.to_euclidean_division_equations; lia. }
  destruct (Z.ltb_spec (seconds / 60 / 60) 24) as [H3|H3].
  { cbn [fst snd unitSeconds unitLimit].
    split; [|split; [|split; [intros limit [= <-]|intros _]]];
      Z.to_euclidean_division_equations; lia. }
  destruct (Z.ltb_spec (seconds / 60 / 60 / 24) 30) as [H4|H4].
  { cbn [fst snd unitSeconds unitLimit].
    split; [|split; [|split; [intros limit [= <-]|intros _]]];
      Z.to_euclidean_division_equations; lia. }
  destruct (Z.ltb_spec (seconds / 60 / 60 / 24 / 30) 12) as [H5|H5].
  { cbn [fst snd unitSeconds unitLimit].
    split; [|split; [|split; [intros limit [= <-]|intros _]]];
      Z.to_euclidean_division_equations; lia. }
  cbn [fst snd unitSeconds unitLimit].
  split; [|split; [|split; [discriminate|intros _]]];
    Z.to_euclidean_division_equations; lia.
Qed.

(** ** The video list and the selection *)

Lemma errorMessage_nonempty (response : NextResponse.t) :
  Client.errorMessage response ≠ "".
Proof.
  unfold Client.errorMessage.
  destruct (NextResponse.body response) as [error details| |];
    try discriminate.
  unfold or_else.
  destruct (falsy details) eqn:Hdetails.
  - destruct (falsy (Some error)) eqn:Herror; [discriminate|].
    apply falsy_false in Herror as (e & [= <-] & Hne). exact Hne.
  - rewrite Hdetails. apply falsy_false in Hdetails as (d & -> & Hne).
    exact Hne.
Qed.

Lemma reselect_None (current : option ApiVideo.t)
    (nextItems : list ApiVideo.t) :
  Client.reselect current nextItems = None <-> nextItems = [].
Proof.
  unfold Client.reselect. destruct nextItems as [|first rest]; [tauto|].
  destruct current as [selected|]; [|split; discriminate].
  destruct (existsb _ _); split; discriminate.
Qed.

Lemma still_exists (selected : ApiVideo.t) (nextItems : list ApiVideo.t) :
  existsb (fun item => bool_decide (ApiVideo.id item = ApiVideo.id selected))
    nextItems = true
  <-> ApiVideo.id selected ∈ List.map ApiVideo.id nextItems.
Proof.
  rewrite existsb_exists, list_elem_of_In, in_map_iff.
  split; intros (item & H1 & H2); exists item.
  - apply bool_decide_eq_true_1 in H2. auto.
  - split; [exact H2|]. apply bool_decide_eq_true_2. exact H1.
Qed.

(** X14. What [fetchVideos] leaves behind.  Loading is over either way.
    On an answer that is not ok the list and the selection stay as they
    were and a non-empty message is shown.  On an ok answer the error is
    cleared and the list replaced; nothing is selected exactly when the
    new list is empty; the selection is otherwise the previous one, kept
    as it was when its identifier is still in the list, or else the first
    item of the list. *)
Theorem fetched_videos_and_selection
    (response : NextResponse.t) (s : Client.View) :
  let s' := Client.fetchVideos response s in
  Client.loading s' = false
  /\ (Client.ok response = false ->
      Client.videos s' = Client.videos s
      /\ Client.selectedVideo s' = Client.selectedVideo s
      /\ exists message : string,
          Client.error s' = Some message /\ message ≠ "")
  /\ (Client.ok response = true ->
      Client.error s' = None
      /\ Client.videos s' = Client.itemsOf response
      /\ (Client.selectedVideo s' = None <-> Client.videos s' = [])
      /\ (forall v : ApiVideo.t,
            Client.selectedVideo s' = Some v ->
            ApiVideo.id v ∈ List.map ApiVideo.id (Client.videos s'))
      /\ (forall v : ApiVideo.t,
            Client.selectedVideo s = Some v ->
            ApiVideo.id v ∈ List.map ApiVideo.id (Client.videos s') ->
            Client.selectedVideo s' = Some v)
      /\ (forall v : ApiVideo.t,
            Client.selectedVideo s' = Some v ->
            Client.selectedVideo s ≠ Some v ->
            head (Client.videos s') = Some v
            /\ forall old : ApiVideo.t,
                Client.selectedVideo s = Some old ->
                ApiVideo.id old ∉ List.map ApiVideo.id (Client.videos s'))).
Proof.
  cbv zeta. unfold Client.fetchVideos.
  destruct (Client.ok response); cbn [negb].
  - split; [reflexivity|]. split; [discriminate|]. intros _.
    cbn [Client.error Client.videos Client.selectedVideo].
    split; [reflexivity|]. split; [reflexivity|].
    split; [apply reselect_None|].
    set (nextItems := Client.itemsOf response).
    split; [|split].
    + intros v. unfold Client.reselect.
      destruct nextItems as [|first rest] eqn:Hnext; [discriminate|].
      destruct (Client.selectedVideo s) as [selected|].
      * destruct (existsb _ _) eqn:Hstill; intros [= <-].
        -- apply still_exists. exact Hstill.
        -- apply list_elem_of_here.
      * intros [= <-]. apply list_elem_of_here.
    + intros v -> Hin. unfold Client.reselect.
      destruct nextItems as [|first rest] eqn:Hnext; [inversion Hin|].
      apply still_exists in Hin. rewrite Hin. reflexivity.
    + intros v. unfold Client.reselect.
      destruct nextItems as [|first rest] eqn:Hnext; [discriminate|].
      destruct (Client.selectedVideo s) as [selected|].
      * destruct (existsb _ _) eqn:Hstill; intros [= <-] Hother;
          [congruence|].
        split; [reflexivity|]. intros old [= <-] Hin.
        apply still_exists in Hin. congruence.
      * intros [= <-] _. split; [reflexivity|]. discriminate.
  - split; [reflexivity|]. split; [|discriminate]. intros _.
    split; [reflexivity|]. split; [reflexivity|].
    eexists. split; [reflexivity|]. apply errorMessage_nonempty.
Qed.

(** ** The client and the videos handler together *)

Lemma GET_answers (Number : string -> option Qc) (up : Upstream) (env : Env)
    (searchParams : URLSearchParams) (r : NextResponse.t) :
  let region := Params.get "region" searchParams ?? "KR" in
  let category := Params.get "category" searchParams ?? "all" in
  let sort := Params.get "sort" searchParams ?? "views" in
  let shorts := Params.get "shorts" searchParams ?? "include" in
  (run up (Videos.GET Number env searchParams)).1 = Some r ->
  r = keyMissing
  \/ (exists (details : string) (status : Z),
        r = relayed details status /\ failing status)
  \/ (exists (items : list VideoItem.t) (thumbs : gmap string string),
        r = answerOf Number region category env sort shorts items thumbs).
Proof.
  intros region category sort shorts Hr.
  destruct (falsy (YOUTUBE_API_KEY env)) eqn:Hkey.
  { unfold Videos.GET in Hr. rewrite Hkey in Hr. injection Hr as <-. auto. }
  right.
  pose proof (GET_shape Number up env searchParams Hkey) as [_ Hshape].
  specialize (Hshape r Hr).
  destruct (falsy_false _ Hkey) as (k & Hk & Hne).
  revert Hr.
  rewrite (GET_run Number up k region category env searchParams Hk Hne
             eq_refl eq_refl).
  fold sort shorts.
  destruct (run up (Videos.retrieve k region category))
    as [[[early|[data|]]|] before] eqn:Hretrieve; cbn [fst snd].
  - intros [= ->]. left.
    apply retrieve_early in Hretrieve as (details & status & ->).
    exists details, status. split; [reflexivity|].
    destruct Hshape as [(? & ? & ? & ? & ? & ? & Heq)
                       |(? & ? & ? & [= _ _ <-] & Hfailing)];
      [discriminate|exact Hfailing].
  - destruct (run up (Videos.respond _ _ _ _ _ _ _ _)) as [r' more]
      eqn:Hrespond; cbn [fst snd].
    intros ->. right. exists (Listing.array data).
    eapply respond_answer. exact Hrespond.
  - simpl. intros [= <-]. left. exists "Empty response", 500.
    split; reflexivity.
  - discriminate.
Qed.

(** X15. The client sends its category, region, criterion and shorts
    filter, and shows what the handler answers.  When the handler answers
    a list, it is the list ranked by that criterion and filtered by that
    shorts filter, and the error is cleared.  When it answers an error,
    the list and the selection stay, and the message shown is the detail
    of the error (the upstream's body text) when there is a non-empty
    one, and the error title otherwise: the default message of the client
    is never shown for an answer of the handler. *)
Theorem the_client_shows_what_the_handler_answers
    (Number : string -> option Qc) (up : Upstream) (env : Env)
    (category region criterion shorts : string) (s : Client.View)
    (r : NextResponse.t) :
  let request := Client.videosQuery category region criterion shorts in
  let s' := Client.fetchVideos r s in
  (run up (Videos.GET Number env request)).1 = Some r ->
  Client.loading s' = false
  /\ ((exists (items : list VideoItem.t) (thumbs : gmap string string),
          r = answerOf Number region category env criterion shorts items
                thumbs
          /\ Client.videos s' =
             List.map (Videos.present thumbs)
               (Videos.selectShorts shorts
                  (Videos.rank Number criterion items))
          /\ Client.error s' = None)
      \/ (exists (error : string) (details : option string) (status : Z),
            r = NextResponse.mk (ErrorBody error details) status
            /\ error ≠ ""
            /\ Client.videos s' = Client.videos s
            /\ Client.selectedVideo s' = Client.selectedVideo s
            /\ Client.error s' =
               Some (if falsy details then error else details ?? ""))).
Proof.
  intros request s' Hr. split.
  { unfold s', Client.fetchVideos. destruct (negb _); reflexivity. }
  apply GET_answers in Hr.
  change (Params.get "region" request ?? "KR") with region in Hr.
  change (Params.get "category" request ?? "all") with category in Hr.
  change (Params.get "sort" request ?? "views") with criterion in Hr.
  change (Params.get "shorts" request ?? "include") with shorts in Hr.
  destruct Hr as [->|[(details & status & -> & Hfailing)
                     |(items & thumbs & ->)]].
  - right. exists "Missing YOUTUBE_API_KEY in environment.", None, 500.
    split; [reflexivity|]. split; [discriminate|]. repeat split.
  - right. exists "YouTube API error", (Some details), status.
    split; [reflexivity|]. split; [discriminate|].
    unfold s', Client.fetchVideos, Client.ok. unfold failing in Hfailing.
    cbn [relayed NextResponse.status].
    rewrite Hfailing. cbn [negb Client.videos Client.selectedVideo
                             Client.error].
    split; [reflexivity|]. split; [reflexivity|]. f_equal.
    unfold Client.errorMessage, relayed, or_else.
    cbn [NextResponse.body].
    destruct (falsy (Some details)) eqn:Hdetails.
    + reflexivity.
    + rewrite Hdetails. reflexivity.
  - left. exists items, thumbs. split; [reflexivity|]. split; reflexivity.
Qed.

Lemma the_client_witness :
  let up := Sample.play Sample.down in
  let s := Client.mkView [] None true None in
  let r := NextResponse.mk
             (ErrorBody "YouTube API error" (Some "backendError")) 503 in
  (run up (Videos.GET Sample.Number Sample.env
             (Client.videosQuery "all" "KR" "views" "include"))).1 = Some r
  /\ Client.fetchVideos r s = Client.mkView [] None false (Some "backendError")
  /\ exists (error : string) (details : option string) (status : Z),
      r = NextResponse.mk (ErrorBody error details) status
      /\ error ≠ ""
      /\ Client.error (Client.fetchVideos r s) =
         Some (if falsy details then error else details ?? "").
Proof.
  intros up s r.
  assert ((run up (Videos.GET Sample.Number Sample.env
                     (Client.videosQuery "all" "KR" "views" "include"))).1
          = Some r) as Hr by (vm_compute; reflexivity).
  split; [exact Hr|]. split; [vm_compute; reflexivity|].
  destruct (the_client_shows_what_the_handler_answers
              Sample.Number up Sample.env "all" "KR" "views" "include" s r Hr)
    as [_ [(items & thumbs & Hlist & _)
          |(error & details & status & Hbody & Herror & _ & _ & Hshown)]].
  - discriminate Hlist.
  - exists error, details, status. auto.
Defined.

(** ** The order of the options *)

Lemma filter_elem {A : Type} (p : A -> bool) (l : list A) (x : A) :
  x ∈ List.filter p l <-> x ∈ l /\ p x = true.
Proof. rewrite !list_elem_of_In. apply filter_In. Qed.

Lemma filter_NoDup {A : Type} (p : A -> bool) (l : list A) :
  NoDup l -> NoDup (List.filter p l).
Proof.
  induction 1 as [|x l Hx Hl IH]; simpl; [constructor|].
  destruct (p x); [|exact IH].
  constructor; [|exact IH]. rewrite filter_elem. tauto.
Qed.

Lemma filter_all {A : Type} (p : A -> bool) (l : list A) :
  (forall x, x ∈ l -> p x = true) -> List.filter p l = l.
Proof.
  induction l as [|x l IH]; intros Hall; [reflexivity|]. simpl.
  rewrite (Hall x) by apply list_elem_of_here. f_equal. apply IH.
  intros y Hy. apply Hall. apply elem_of_cons. auto.
Qed.

Lemma filter_none {A : Type} (p : A -> bool) (l : list A) :
  (forall x, x ∈ l -> p x = false) -> List.filter p l = [].
Proof.
  induction l as [|x l IH]; intros Hnone; [reflexivity|]. simpl.
  rewrite (Hnone x) by apply list_elem_of_here. apply IH.
  intros y Hy. apply Hnone. apply elem_of_cons. auto.
Qed.

Section WithMissing.
Variables candidates current : list string.

Let sanitized : list string :=
  List.filter (fun item => bool_decide (item ∈ candidates)) current.

Lemma withMissing_elem (x : string) :
  x ∈ Client.withMissing candidates current <-> x ∈ candidates.
Proof.
  unfold Client.withMissing. fold sanitized.
  rewrite elem_of_app. unfold sanitized at 1. rewrite !filter_elem.
  rewrite negb_true_iff, bool_decide_eq_true, bool_decide_eq_false.
  split; [tauto|]. intros Hx.
  destruct (decide (x ∈ sanitized)) as [Hin|Hout]; [left|right; tauto].
  apply filter_elem in Hin as [Hcurrent _]. tauto.
Qed.

Lemma withMissing_prefix :
  sanitized `prefix_of` Client.withMissing candidates current.
Proof. apply prefix_app_r. reflexivity. Qed.

Lemma withMissing_NoDup :
  NoDup current -> NoDup candidates ->
  NoDup (Client.withMissing candidates current).
Proof.
  intros Hcurrent Hcandidates. unfold Client.withMissing. fold sanitized.
  apply NoDup_app. split; [apply filter_NoDup; exact Hcurrent|]. split.
  - intros x Hx. rewrite filter_elem, negb_true_iff, bool_decide_eq_false.
    tauto.
  - apply filter_NoDup. exact Hcandidates.
Qed.

Lemma withMissing_Permutation :
  NoDup current -> NoDup candidates ->
  Client.withMissing candidates current ≡ₚ candidates.
Proof.
  intros Hcurrent Hcandidates.
  apply NoDup_Permutation;
    [apply withMissing_NoDup; assumption|exact Hcandidates|].
  exact withMissing_elem.
Qed.

Lemma withMissing_again :
  Client.withMissing candidates (Client.withMissing candidates current)
  = Client.withMissing candidates current.
Proof.
  set (merged := Client.withMissing candidates current).
  unfold Client.withMissing at 1. cbv zeta.
  rewrite (filter_all _ merged).
  - rewrite filter_none; [apply app_nil_r|].
    intros x Hx. apply negb_false_iff, bool_decide_eq_true_2.
    apply withMissing_elem. exact Hx.
  - intros x Hx. apply bool_decide_eq_true_2.
    apply withMissing_elem in Hx. exact Hx.
Qed.

End WithMissing.

Lemma mergeOrder_withMissing (next : list CategoryOption.t)
    (current : list string) :
  Client.mergeOrder next current
  = Client.withMissing (List.map CategoryOption.value next) current.
Proof.
  unfold Client.mergeOrder. cbv zeta.
  destruct (Client.withMissing _ current) as [|x merged] eqn:Hmerged;
    [|reflexivity].
  destruct (List.map CategoryOption.value next) as [|v values] eqn:Hvalues;
    [reflexivity|].
  assert (v ∈ Client.withMissing (v :: values) current) as Hv
    by (apply withMissing_elem, list_elem_of_here).
  rewrite Hmerged in Hv. inversion Hv.
Qed.

Lemma offered (value : string) (options : list CategoryOption.t) :
  existsb (fun item => bool_decide (CategoryOption.value item = value))
    options = true
  <-> value ∈ List.map CategoryOption.value options.
Proof.
  rewrite existsb_exists, list_elem_of_In, in_map_iff.
  split; intros (item & H1 & H2); exists item.
  - apply bool_decide_eq_true_1 in H2. auto.
  - split; [exact H2|]. apply bool_decide_eq_true_2. exact H1.
Qed.

(** X16. What [loadCategories] leaves behind.  An answer that is not ok
    changes nothing.  After an ok one the categories offered are "all"
    followed by those of the answer; the selected category is one of
    them: the previous one when it is still offered, "all" otherwise; the
    order holds exactly the values offered, the stored order restricted
    to them first and in its own order, and, when neither list repeats a
    value, each value once; loading the same answer again changes
    nothing. *)
Theorem loaded_categories_and_their_order
    (response : NextResponse.t) (s : Client.Selector) :
  let s' := Client.loadCategories response s in
  let values := List.map CategoryOption.value (Client.categories s') in
  (Client.ok response = false -> s' = s)
  /\ (Client.ok response = true ->
      Client.categories s'
        = CategoryOption.mk "all" "전체" :: Client.categoriesOf response
      /\ Client.category s' ∈ values
      /\ (Client.category s ∈ values ->
          Client.category s' = Client.category s)
      /\ (Client.category s ∉ values -> Client.category s' = "all")
      /\ (forall x : string, x ∈ Client.categoryOrder s' <-> x ∈ values)
      /\ List.filter (fun item => bool_decide (item ∈ values))
           (Client.categoryOrder s)
         `prefix_of` Client.categoryOrder s'
      /\ (NoDup (Client.categoryOrder s) -> NoDup values ->
          Client.categoryOrder s' ≡ₚ values)
      /\ Client.loadCategories response s' = s').
Proof.
  cbv zeta. unfold Client.loadCategories.
  destruct (Client.ok response) eqn:Hok; cbn [negb];
    [|split; [reflexivity|discriminate]].
  split; [discriminate|]. intros _.
  set (next := CategoryOption.mk "all" "전체" :: Client.categoriesOf response).
  cbn [Client.categories Client.category Client.categoryOrder].
  set (values := List.map CategoryOption.value next).
  set (chosen := if existsb _ next then Client.category s else "all").
  assert (chosen ∈ values) as Hchosen.
  { unfold chosen.
    destruct (existsb _ next) eqn:Hstill; [apply offered; exact Hstill|].
    apply list_elem_of_here. }
  rewrite !mergeOrder_withMissing. fold values.
  split; [reflexivity|]. split; [exact Hchosen|].
  split; [|split; [|split; [|split; [|split]]]].
  - intros Hstill. apply offered in Hstill. unfold chosen.
    rewrite Hstill. reflexivity.
  - intros Hgone. unfold chosen.
    destruct (existsb _ next) eqn:Hstill; [|reflexivity].
    apply offered in Hstill. contradiction.
  - apply withMissing_elem.
  - apply withMissing_prefix.
  - apply withMissing_Permutation.
  - apply offered in Hchosen. rewrite Hchosen, withMissing_again.
    reflexivity.
Qed.

(** X17. Whatever array was stored, restoring the criterion order always
    sets an order: the three criteria and nothing else, the valid
    entries of the stored array first, in their stored order, and each
    criterion once when the stored array repeats none. *)
Theorem restored_criterion_order_is_complete (parsed : list string) :
  let known := ["views"; "likes"; "comments"] in
  exists order : list string,
    Client.restoreCriterionOrder parsed = Some order
    /\ (forall x : string, x ∈ order <-> x ∈ known)
    /\ List.filter (fun item => bool_decide (item ∈ known)) parsed
       `prefix_of` order
    /\ (NoDup parsed -> order ≡ₚ known).
Proof.
  intros known. unfold Client.restoreCriterionOrder. cbv zeta.
  change (Set_from [] (List.map CategoryOption.value Client.criteria))
    with known.
  destruct (Client.withMissing known parsed) as [|x merged] eqn:Hmerged.
  { assert ("views" ∈ Client.withMissing known parsed) as Hviews
      by (apply withMissing_elem, list_elem_of_here).
    rewrite Hmerged in Hviews. inversion Hviews. }
  exists (x :: merged). split; [reflexivity|]. rewrite <- Hmerged.
  split; [apply withMissing_elem|]. split; [apply withMissing_prefix|].
  intros Hparsed. apply withMissing_Permutation; [exact Hparsed|].
  unfold known.
  repeat (apply NoDup_cons_2;
          [rewrite ?elem_of_cons, elem_of_nil; intuition discriminate|]).
  apply NoDup_nil_2.
Qed.

(** ** The options as displayed *)

Section Ordered.
Variable options : list CategoryOption.t.

Let find (value : string) : option CategoryOption.t :=
  List.find (fun item => bool_decide (CategoryOption.value item = value))
    options.

Lemma find_Some (value : string) (item : CategoryOption.t) :
  find value = Some item ->
  item ∈ options /\ CategoryOption.value item = value.
Proof.
  intros Hfind. apply find_some in Hfind as [Hin Hvalue].
  apply bool_decide_eq_true_1 in Hvalue. rewrite list_elem_of_In. auto.
Qed.

Lemma find_offered (value : string) :
  value ∈ List.map CategoryOption.value options -> is_Some (find value).
Proof.
  intros Hvalue. destruct (find value) as [item|] eqn:Hfind; [eauto|].
  apply list_elem_of_In, in_map_iff in Hvalue as (item & Hitem & Hin).
  pose proof (find_none _ _ Hfind item Hin) as Hno. cbv beta in Hno.
  apply bool_decide_eq_false_1 in Hno. contradiction.
Qed.

Lemma ordered_values (order : list string) :
  (forall x : string,
      x ∈ order -> x ∈ List.map CategoryOption.value options) ->
  List.map CategoryOption.value (Client.ordered order options) = order.
Proof.
  unfold Client.ordered. fold find.
  induction order as [|x order IH]; intros Hall; [reflexivity|].
  cbn [omap list_omap].
  destruct (find_offered x (Hall x (list_elem_of_here _ _))) as [item Hitem].
  rewrite Hitem. apply find_Some in Hitem as [_ Hvalue].
  cbn [List.map]. rewrite Hvalue. f_equal. apply IH.
  intros y Hy. apply Hall. apply elem_of_cons. auto.
Qed.

Lemma value_inj (x y : CategoryOption.t) :
  NoDup (List.map CategoryOption.value options) ->
  x ∈ options -> y ∈ options ->
  CategoryOption.value x = CategoryOption.value y -> x = y.
Proof.
  clear find. induction options as [|z l IH]; intros Hvalues Hx Hy Heq;
    [inversion Hx|].
  cbn [List.map] in Hvalues. apply NoDup_cons in Hvalues as [Hz Hl].
  assert (forall w, w ∈ l ->
                    CategoryOption.value z ≠ CategoryOption.value w) as Hfresh.
  { intros w Hw Hsame. apply Hz. rewrite Hsame.
    apply list_elem_of_In, in_map, list_elem_of_In. exact Hw. }
  apply elem_of_cons in Hx as [->|Hx], Hy as [->|Hy].
  - reflexivity.
  - destruct (Hfresh y Hy Heq).
  - destruct (Hfresh x Hx (eq_sym Heq)).
  - apply IH; assumption.
Qed.

Lemma ordered_Permutation (order : list string) :
  NoDup order ->
  NoDup (List.map CategoryOption.value options) ->
  (forall x : string,
      x ∈ order <-> x ∈ List.map CategoryOption.value options) ->
  Client.ordered order options ≡ₚ options.
Proof.
  intros Horder Hvalues Hsame.
  assert (List.map CategoryOption.value (Client.ordered order options)
          = order) as Hshown
    by (apply ordered_values; intros x; apply Hsame).
  apply NoDup_Permutation.
  - apply (NoDup_fmap_1 CategoryOption.value).
    change (NoDup (List.map CategoryOption.value
                     (Client.ordered order options))).
    rewrite Hshown. exact Horder.
  - apply (NoDup_fmap_1 CategoryOption.value). exact Hvalues.
  - intros item. unfold Client.ordered. fold find.
    rewrite list_elem_of_omap. split.
    + intros (x & _ & Hfind). apply find_Some in Hfind. tauto.
    + intros Hitem.
      assert (CategoryOption.value item
                ∈ List.map CategoryOption.value options) as Hvalue
        by (apply list_elem_of_In, in_map, list_elem_of_In; exact Hitem).
      exists (CategoryOption.value item).
      split; [apply Hsame; exact Hvalue|].
      destruct (find_offered _ Hvalue) as [found Hfound].
      rewrite Hfound. f_equal.
      apply find_Some in Hfound as [Hin Heq].
      apply value_inj; assumption.
Qed.

End Ordered.

(** X18. After the categories were loaded from an ok answer, the select
    box displays every offered category once, in the order kept: the
    values displayed are the category order itself, and the options
    displayed are a permutation of those offered.  This needs the stored
    order and the values offered to be free of repetitions. *)
Theorem every_offered_category_is_displayed_once
    (response : NextResponse.t) (s : Client.Selector) :
  let s' := Client.loadCategories response s in
  let shown := Client.ordered (Client.categoryOrder s') (Client.categories s') in
  Client.ok response = true ->
  NoDup (Client.categoryOrder s) ->
  NoDup (List.map CategoryOption.value (Client.categories s')) ->
  List.map CategoryOption.value shown = Client.categoryOrder s'
  /\ shown ≡ₚ Client.categories s'
  /\ length shown = length (Client.categoryOrder s').
Proof.
  cbv zeta. unfold Client.loadCategories. intros ->. cbn [negb].
  cbn [Client.categories Client.category Client.categoryOrder].
  set (next := CategoryOption.mk "all" "전체" :: Client.categoriesOf response).
  rewrite mergeOrder_withMissing. intros Hstored Hvalues.
  assert (List.map CategoryOption.value
            (Client.ordered
               (Client.withMissing (List.map CategoryOption.value next)
                  (Client.categoryOrder s)) next)
          = Client.withMissing (List.map CategoryOption.value next)
              (Client.categoryOrder s)) as Hshown.
  { apply ordered_values. intros x. apply withMissing_elem. }
  split; [exact Hshown|]. split.
  - apply ordered_Permutation.
    + apply withMissing_NoDup; assumption.
    + exact Hvalues.
    + apply withMissing_elem.
  - rewrite <- Hshown at 2. rewrite length_map. reflexivity.
Qed.

Lemma every_offered_category_witness :
  let response :=
    NextResponse.mk
      (CategoriesBody [CategoryOption.mk "10" "음악";
                       CategoryOption.mk "25" "뉴스"]) 200 in
  let s := Client.mkSelector Client.defaultCategories "25"
             ["25"; "gone"; "all"] in
  Client.ok response = true
  /\ Client.category (Client.loadCategories response s) = "25"
  /\ List.map CategoryOption.value
       (Client.ordered
          (Client.categoryOrder (Client.loadCategories response s))
          (Client.categories (Client.loadCategories response s)))
     = ["25"; "all"; "10"]
  /\ Client.ordered
       (Client.categoryOrder (Client.loadCategories response s))
       (Client.categories (Client.loadCategories response s))
     ≡ₚ [CategoryOption.mk "all" "전체"; CategoryOption.mk "10" "음악";
         CategoryOption.mk "25" "뉴스"].
Proof.
  intros response s.
  assert (NoDup (Client.categoryOrder s)) as Hstored.
  { apply (bool_decide_unpack _). vm_compute. exact I. }
  assert (NoDup (List.map CategoryOption.value
                   (Client.categories (Client.loadCategories response s))))
    as Hvalues.
  { apply (bool_decide_unpack _). vm_compute. exact I. }
  destruct (every_offered_category_is_displayed_once response s eq_refl
              Hstored Hvalues) as (Hshown & Hperm & _).
  split; [reflexivity|]. split; [vm_compute; reflexivity|].
  split; [rewrite Hshown; vm_compute; reflexivity|exact Hperm].
Defined.

(** ** Moving an option up or down *)

Lemma swap_middle (l1 l2 : list string) (a b : string) :
  Client.swap (length l1) (S (length l1)) (l1 ++ a :: b :: l2)
  = Some (l1 ++ b :: a :: l2).
Proof.
  induction l1 as [|x l1 IH]; [reflexivity|].
  unfold Client.swap in *. cbn [length app].
  change ((x :: ?l) !! S ?n) with (l !! n).
  destruct ((l1 ++ a :: b :: l2) !! length l1) as [a'|]; [|discriminate].
  destruct ((l1 ++ a :: b :: l2) !! S (length l1)) as [b'|]; [|discriminate].
  injection IH as IH.
  change (Some (x :: <[S (length l1):=a']>
                       (<[length l1:=b']> (l1 ++ a :: b :: l2)))
          = Some (x :: l1 ++ b :: a :: l2)).
  rewrite IH. reflexivity.
Qed.

Lemma split_at {A : Type} (l : list A) (k : nat) :
  (S k < length l)%nat ->
  exists (l1 l2 : list A) (a b : A),
    l = l1 ++ a :: b :: l2 /\ length l1 = k.
Proof.
  revert k. induction l as [|x l IH]; intros k Hk; [simpl in Hk; lia|].
  destruct k as [|k].
  - destruct l as [|y l]; [simpl in Hk; lia|].
    exists [], l, x, y. split; reflexivity.
  - destruct (IH k) as (l1 & l2 & a & b & -> & Hlength);
      [simpl in Hk; lia|].
    exists (x :: l1), l2, a, b. split; [reflexivity|]. simpl. lia.
Qed.

Lemma omap_length_le {A B : Type} (f : A -> option B) (l : list A) :
  (length (omap f l) <= length l)%nat.
Proof.
  induction l as [|x l IH]; [reflexivity|]. cbn [omap list_omap].
  destruct (f x); simpl; lia.
Qed.

Lemma omap_aligned_app {A B : Type} (f : A -> option B) (l1 l2 : list A) :
  length (omap f (l1 ++ l2)) = length (l1 ++ l2) ->
  length (omap f l1) = length l1 /\ length (omap f l2) = length l2.
Proof.
  rewrite omap_app, !length_app.
  pose proof (omap_length_le f l1). pose proof (omap_length_le f l2). lia.
Qed.

Lemma omap_aligned_cons {A B : Type} (f : A -> option B) (x : A)
    (l : list A) :
  length (omap f (x :: l)) = length (x :: l) ->
  exists y : B, f x = Some y /\ length (omap f l) = length l.
Proof.
  cbn [omap list_omap]. pose proof (omap_length_le f l).
  destruct (f x) as [y|]; simpl; intros Hlength; [|lia].
  exists y. split; [reflexivity|lia].
Qed.

(** X19. Moving an option.  When every entry of the order names an
    option (so that the options displayed line up with the order), the
    "up" button of the option displayed at a position and the "down"
    button of the one just above it do the same thing: they exchange the
    two in the order, which stays a permutation of what it was, and on
    the display, where nothing else moves; pressing either once more
    restores the order. *)
Theorem moving_an_option_exchanges_it_with_its_neighbour
    (order : list string) (options : list CategoryOption.t) (k : nat) :
  let shown := Client.ordered order options in
  length shown = length order ->
  (S k < length shown)%nat ->
  exists (moved : list string) (front back : list CategoryOption.t)
         (upper lower : CategoryOption.t),
    Client.moveUp order (S k) = Some moved
    /\ Client.moveDown order (length shown) k = Some moved
    /\ moved ≡ₚ order
    /\ length front = k
    /\ shown = front ++ upper :: lower :: back
    /\ Client.ordered moved options = front ++ lower :: upper :: back
    /\ Client.moveUp moved (S k) = Some order
    /\ Client.moveDown moved (length (Client.ordered moved options)) k
       = Some order.
Proof.
  intros shown Haligned Hk. subst shown.
  destruct (split_at order k) as (l1 & l2 & a & b & -> & Hlength);
    [lia|].
  set (f := fun value =>
              List.find
                (fun item => bool_decide (CategoryOption.value item = value))
                options).
  assert (forall l, Client.ordered l options = omap f l) as Hordered
    by reflexivity.
  rewrite Hordered in Haligned, Hk.
  apply omap_aligned_app in Haligned as [Hfront Hrest].
  apply omap_aligned_cons in Hrest as (upper & Hupper & Hrest).
  apply omap_aligned_cons in Hrest as (lower & Hlower & Hback).
  assert (forall order' : list string,
            length (omap f order') = length (l1 ++ a :: b :: l2) ->
            Client.moveUp order' (S k) = Client.swap k (S k) order'
            /\ Client.moveDown order' (length (omap f order')) k
               = Client.swap k (S k) order') as Hbuttons.
  { intros order' Hsame. unfold Client.moveUp, Client.moveDown.
    rewrite bool_decide_eq_false_2 by discriminate.
    rewrite bool_decide_eq_false_2.
    - replace (S k - 1)%nat with k by lia.
      replace (k + 1)%nat with (S k) by lia. split; reflexivity.
    - rewrite Hsame, length_app. simpl. lia. }
  assert (omap f (l1 ++ a :: b :: l2)
          = omap f l1 ++ upper :: lower :: omap f l2) as Hshown.
  { rewrite omap_app. cbn [omap list_omap]. rewrite Hupper, Hlower.
    reflexivity. }
  assert (omap f (l1 ++ b :: a :: l2)
          = omap f l1 ++ lower :: upper :: omap f l2) as Hmoved.
  { rewrite omap_app. cbn [omap list_omap]. rewrite Hupper, Hlower.
    reflexivity. }
  assert (length (omap f (l1 ++ b :: a :: l2))
          = length (l1 ++ a :: b :: l2)) as Hsame.
  { rewrite Hmoved, !length_app. simpl. lia. }
  exists (l1 ++ b :: a :: l2), (omap f l1), (omap f l2), upper, lower.
  destruct (Hbuttons (l1 ++ a :: b :: l2) ltac:(rewrite Hshown,
              !length_app; simpl; lia)) as [Hup Hdown].
  destruct (Hbuttons (l1 ++ b :: a :: l2) Hsame) as [Hup' Hdown'].
  rewrite !Hordered, Hup, Hdown, Hup', Hdown', <- Hlength, !swap_middle.
  split; [reflexivity|]. split; [reflexivity|].
  split; [apply Permutation_app_head, perm_swap|].
  split; [rewrite Hfront; reflexivity|]. auto.
Qed.

Lemma moving_an_option_witness :
  let order := ["25"; "all"; "10"] in
  let options := [CategoryOption.mk "all" "전체"; CategoryOption.mk "10" "음악";
                  CategoryOption.mk "25" "뉴스"] in
  length (Client.ordered order options) = length order
  /\ (2 < length (Client.ordered order options))%nat
  /\ Client.moveUp order 2 = Some ["25"; "10"; "all"]
  /\ exists (moved : list string) (front back : list CategoryOption.t)
            (upper lower : CategoryOption.t),
      Client.moveUp order 2 = Some moved
      /\ Client.moveDown order (length (Client.ordered order options)) 1
         = Some moved
      /\ Client.ordered order options = front ++ upper :: lower :: back
      /\ Client.ordered moved options = front ++ lower :: upper :: back
      /\ Client.moveUp moved 2 = Some order.
Proof.
  intros order options.
  assert (length (Client.ordered order options) = length order) as Haligned
    by reflexivity.
  assert (2 < length (Client.ordered order options))%nat as Hk
    by (vm_compute; lia).
  split; [exact Haligned|]. split; [exact Hk|]. split; [reflexivity|].
  destruct (moving_an_option_exchanges_it_with_its_neighbour
              order options 1 Haligned Hk)
    as (moved & front & back & upper & lower
        & Hup & Hdown & _ & _ & Hshown & Hmoved & Hagain & _).
  exists moved, front, back, upper, lower. auto.
Defined.

(** ** The client and the categories handler together *)

(** X20. The client shows what the categories handler answers.  Without
    a credential or when the upstream call fails, the handler answers an
    error and the client keeps its categories, its selection and its
    order.  Otherwise the categories offered are "all" followed by the
    upstream items that have both an identifier and a title, in the
    upstream order, and the order holds exactly their values. *)
Theorem the_client_offers_the_named_categories
    (up : Upstream) (env : Env) (s : Client.Selector) (r : NextResponse.t) :
  let apiKey := YOUTUBE_API_KEY env ?? "" in
  let response := up videoCategories (Categories.categoryParams apiKey) in
  let s' := Client.loadCategories r s in
  (run up (Categories.GET env)).1 = Some r ->
  if falsy (YOUTUBE_API_KEY env) || negb (Response.ok response) then s' = s
  else
    exists items : list CategoryItem.t,
      read response = Some items
      /\ Client.categories s' =
         CategoryOption.mk "all" "전체"
         :: List.filter Categories.named (List.map Categories.toOption items)
      /\ forall x : string,
          x ∈ Client.categoryOrder s' <->
          x ∈ List.map CategoryOption.value (Client.categories s').
Proof.
  intros apiKey response s'.
  destruct (falsy (YOUTUBE_API_KEY env)) eqn:Hkey; cbn [orb].
  { unfold Categories.GET. rewrite Hkey. intros [= <-]. reflexivity. }
  destruct (falsy_false _ Hkey) as (k & Hk & Hne).
  assert (apiKey = k) as Hapi by (unfold apiKey; rewrite Hk; reflexivity).
  rewrite (Categories_GET_run up env k Hk Hne). rewrite <- Hapi.
  cbv zeta. fold response. cbn [fst].
  destruct (Response.ok response) eqn:Hok; cbn [negb].
  - destruct (read response) as [items|]; [|discriminate].
    intros [= <-]. exists items. split; [reflexivity|].
    split; [reflexivity|]. intros x. unfold s', Client.loadCategories.
    cbn [Client.ok NextResponse.status Z.leb Z.compare Pos.compare
         Pos.compare_cont andb negb Client.categoryOrder Client.categories].
    rewrite mergeOrder_withMissing. apply withMissing_elem.
  - unfold relay. destruct (NextResponse.accepts _); [|discriminate].
    intros [= <-]. unfold s', Client.loadCategories.
    destruct (Client.ok (relayed _ _)) eqn:Hclient; [|reflexivity].
    change (Response.ok response = true) in Hclient. congruence.
Qed.

Lemma the_client_categories_witness :
  let up := Sample.play Sample.listed in
  let s := Client.mkSelector Client.defaultCategories "all" ["all"] in
  let r := NextResponse.mk
             (CategoriesBody [CategoryOption.mk "10" "Music"]) 200 in
  (run up (Categories.GET Sample.env)).1 = Some r
  /\ exists items : list CategoryItem.t,
      read (up videoCategories (Categories.categoryParams "secret"))
        = Some items
      /\ Client.categories (Client.loadCategories r s) =
         CategoryOption.mk "all" "전체"
         :: List.filter Categories.named (List.map Categories.toOption items)
      /\ Client.categoryOrder (Client.loadCategories r s) = ["all"; "10"].
Proof.
  intros up s r.
  assert ((run up (Categories.GET Sample.env)).1 = Some r) as Hr
    by (vm_compute; reflexivity).
  split; [exact Hr|].
  destruct (the_client_offers_the_named_categories up Sample.env s r Hr)
    as (items & Hread & Hoffered & _).
  exists items. split; [exact Hread|]. split; [exact Hoffered|].
  vm_compute. reflexivity.
Defined.

(** * Where the handler departs from what it sets out to do *)

(** C2. The primary listing call answered 304 (not modified), for the
    category "all": the handler sets out to relay the status and the body
    text, but a response with a body cannot have that status, so
    [NextResponse.json] throws and the handler gives no answer at all,
    after the primary call. *)
Theorem a_not_modified_listing_makes_the_handler_throw :
  let up := Sample.play Sample.notModified in
  let request := Sample.query "all" "views" "include" in
  let response := up videos (Videos.listParams "secret" "KR" "all") in
  falsy (YOUTUBE_API_KEY Sample.env) = false
  /\ Response.status response = 304
  /\ Response.ok response = false
  /\ NextResponse.accepts (Response.status response) = false
  /\ run up (Videos.GET Sample.Number Sample.env request) =
     (None, [(videos, Videos.listParams "secret" "KR" "all")]).
Proof.
  intros up request response.
  split; [reflexivity|]. split; [reflexivity|]. split; [reflexivity|].
  split; [reflexivity|]. vm_compute. reflexivity.
Qed.

(** C7. A listed record of a channel named [__proto__], and a channel
    lookup that fails: the mapping is left empty, the handler answers
    200, and yet the channel thumbnail of the record is not the empty
    string: reading [__proto__] from the empty mapping gives
    [Object.prototype], which the answer carries as [{}]. *)
Theorem a_channel_named_proto_gets_a_thumbnail :
  let up := Sample.play Sample.prototypeChannel in
  let request := Sample.query "all" "views" "include" in
  let record := Sample.video "p" "__proto__" "PT2M" "10" "1" in
  Response.ok (up channels (Videos.channelParams "secret" ["__proto__"]))
    = false
  /\ run up (Videos.GET Sample.Number Sample.env request) =
     (Some (NextResponse.mk
              (VideosBody [Videos.present ∅ record]
                 "2024-05-01T00:00:00.000Z" "KR" "all" "views" "include")
              200),
      [(videos, Videos.listParams "secret" "KR" "all");
       (channels, Videos.channelParams "secret" ["__proto__"])])
  /\ ApiVideo.channelThumbnail (Videos.present ∅ record) = objectPrototype.
Proof.
  intros up request record.
  split; [reflexivity|]. split; [vm_compute; reflexivity|]. reflexivity.
Qed.
